(** * ai-training-code-sampler: the sampling and encoding pipeline

    A shallow embedding of the pure core of the repository
    ([file-filter-utils.ts], [sampling-utils.ts], [encoding-utils.ts] and
    [calculateRepositoryStats] of [zip-utils.ts]) and the properties the
    specification states about it, followed by the code around that core: the
    extraction loop of [extractZipFile], the error display of
    [error-utils.ts], the file names of [download-utils.ts] and
    [combined-download-utils.ts], [downloadAll] of [use-combined-download.ts]
    up to the encoding, and the line differences and the download of the
    editor view.

    Data model.
    - A JavaScript string is a sequence of UTF-16 code units; the model uses
      [string] and reads every character as a code unit below 256.  On that
      range [toLowerCase] maps A-Z and the Latin-1 capitals to their small
      letters and leaves every other unit alone, and [JSON.stringify] has no
      surrogate to escape.
    - A JavaScript number that holds a count or a budget is an integer [Z];
      the quotient fed to [Math.ceil] is the only place where the source can
      produce an infinity or NaN, and [jsnum] keeps those values.
    - [Set<string>] is a [gset string]; a [Map] whose iteration order is
      observed is an association list in insertion order, and a [Map] or
      record that is only looked up is a [gmap].
    - [detectLanguage] lives in language-utils.ts, which is not among the
      sources: the pipeline takes it as a parameter, and [LanguageUtils]
      gives the instance used on concrete inputs. *)

From Stdlib Require Import ZArith Lia Ascii String List Permutation Sorted DecimalString.
From stdpp Require Import base strings list gmap sets.

Import ListNotations.
Local Open Scope string_scope.
Local Open Scope Z_scope.

(** ** JavaScript string primitives *)

Module JS.

(** [s.split(sep)] for a separator of one code unit: never empty. *)
Fixpoint split (sep : ascii) (s : string) : list string :=
  match s with
  | EmptyString => [EmptyString]
  | String c s' =>
      if Ascii.eqb c sep then EmptyString :: split sep s'
      else match split sep s' with
           | seg :: rest => String c seg :: rest
           | [] => [String c EmptyString]
           end
  end.

(** [parts.join(sep)]. *)
Fixpoint join (sep : string) (parts : list string) : string :=
  match parts with
  | [] => EmptyString
  | [x] => x
  | x :: rest => x ++ sep ++ join sep rest
  end.

(** [arr.pop()] read as a value: the last element, [None] for undefined. *)
Definition pop {A} (arr : list A) : option A := List.last (List.map Some arr) None.

Fixpoint lastIndexOf_from (c : ascii) (s : string) (i acc : Z) : Z :=
  match s with
  | EmptyString => acc
  | String d s' => lastIndexOf_from c s' (i + 1) (if Ascii.eqb d c then i else acc)
  end.

(** [s.lastIndexOf(c)]: the greatest index holding [c], or -1. *)
Definition lastIndexOf (c : ascii) (s : string) : Z := lastIndexOf_from c s 0 (-1).

Fixpoint drop (n : nat) (s : string) : string :=
  match n, s with
  | O, _ => s
  | S _, EmptyString => EmptyString
  | S n', String _ s' => drop n' s'
  end.

(** [s.slice(start)]: a negative start counts from the end. *)
Definition slice (start : Z) (s : string) : string :=
  let len := Z.of_nat (String.length s) in
  let from := if start <? 0 then Z.max (len + start) 0 else Z.min start len in
  drop (Z.to_nat from) s.

Definition toLowerUnit (c : ascii) : ascii :=
  let n := nat_of_ascii c in
  if ((65 <=? n) && (n <=? 90))%nat then ascii_of_nat (n + 32)
  else if ((192 <=? n) && (n <=? 222) && negb (n =? 215))%nat then ascii_of_nat (n + 32)
  else c.

(** [s.toLowerCase()] on code units below 256. *)
Fixpoint toLowerCase (s : string) : string :=
  match s with
  | EmptyString => EmptyString
  | String c s' => String (toLowerUnit c) (toLowerCase s')
  end.

(** [s.startsWith(p)]. *)
Fixpoint startsWith (p s : string) : bool :=
  match p, s with
  | EmptyString, _ => true
  | String _ _, EmptyString => false
  | String a p', String b s' => Ascii.eqb a b && startsWith p' s'
  end.

(** [set.has(x)]. *)
Definition has (x : string) (s : gset string) : bool := bool_decide (x ∈ s).

(** The numbers [Math.ceil(a / b)] can yield for integers [a] and a count [b]. *)
Inductive jsnum := Fin (z : Z) | PosInf | NegInf | NaN.

(** [Math.ceil(a / b)] for an integer [a] and a count [b >= 0]. *)
Definition ceil_div (a b : Z) : jsnum :=
  if b =? 0 then (if 0 <? a then PosInf else if a <? 0 then NegInf else NaN)
  else Fin (- ((- a) / b)).

(** [Math.min(a, b, c)]. *)
Definition min3 (a b : Z) (c : jsnum) : jsnum :=
  match c with
  | Fin z => Fin (Z.min a (Z.min b z))
  | PosInf => Fin (Z.min a b)
  | NegInf => NegInf
  | NaN => NaN
  end.

(** [i < n]. *)
Definition lt (i : Z) (n : jsnum) : bool :=
  match n with
  | Fin z => i <? z
  | PosInf => true
  | NegInf | NaN => false
  end.

(** A [Map<string, V>] in insertion order: [m.get(k)], [m.set(k, v)] (a key
    that is present keeps its place), [m.keys()], and [arr.includes(x)]. *)
Fixpoint mget {V} (k : string) (m : list (string * V)) : option V :=
  match m with
  | [] => None
  | (k', v) :: m' => if String.eqb k' k then Some v else mget k m'
  end.

Fixpoint mset {V} (k : string) (v : V) (m : list (string * V)) : list (string * V) :=
  match m with
  | [] => [(k, v)]
  | (k', v') :: m' => if String.eqb k' k then (k, v) :: m' else (k', v') :: mset k v m'
  end.

Definition keys {V} (m : list (string * V)) : list string := List.map fst m.

Definition includes (x : string) (arr : list string) : bool :=
  List.existsb (String.eqb x) arr.

End JS.

(** ** JSON.stringify on strings and flat string records *)

Module Json.

Definition dq : ascii := "034"%char.
Definition bs : ascii := "092"%char.
Definition nl : ascii := "010"%char.

Definition hexDigit (n : nat) : ascii :=
  if (n <? 10)%nat then ascii_of_nat (48 + n) else ascii_of_nat (87 + n).

(** The escape of one code unit inside a JSON string. *)
Definition escapeUnit (c : ascii) : string :=
  let n := nat_of_ascii c in
  if (n =? 34)%nat then String bs (String dq EmptyString)
  else if (n =? 92)%nat then String bs (String bs EmptyString)
  else if (n =? 8)%nat then String bs "b"
  else if (n =? 9)%nat then String bs "t"
  else if (n =? 10)%nat then String bs "n"
  else if (n =? 12)%nat then String bs "f"
  else if (n =? 13)%nat then String bs "r"
  else if (n <? 32)%nat then
    String bs ("u00" ++ String (hexDigit (n / 16)) (String (hexDigit (n mod 16)) EmptyString))
  else String c EmptyString.

Fixpoint escape (s : string) : string :=
  match s with
  | EmptyString => EmptyString
  | String c s' => escapeUnit c ++ escape s'
  end.

(** [JSON.stringify(s)] for a string [s]. *)
Definition quote (s : string) : string :=
  String dq (escape s ++ String dq EmptyString).

Fixpoint members (kvs : list (string * string)) : string :=
  match kvs with
  | [] => EmptyString
  | [(k, v)] => quote k ++ ":" ++ quote v
  | (k, v) :: rest => quote k ++ ":" ++ quote v ++ "," ++ members rest
  end.

(** [JSON.stringify(o)] for an object whose own properties, in insertion
    order, are the string-valued [kvs]. *)
Definition stringify (kvs : list (string * string)) : string :=
  "{" ++ members kvs ++ "}".

End Json.

(** ** file-filter-utils.ts *)

Module FileFilter.

Definition BINARY_EXTENSIONS : gset string := list_to_set [
  ".png"; ".jpg"; ".jpeg"; ".gif"; ".bmp"; ".svg"; ".ico"; ".webp";
  ".pdf"; ".doc"; ".docx"; ".xls"; ".xlsx"; ".ppt"; ".pptx";
  ".zip"; ".tar"; ".gz"; ".7z"; ".rar"; ".bz2"; ".xz";
  ".mp3"; ".mp4"; ".avi"; ".mov"; ".wav"; ".flac"; ".ogg"; ".webm"; ".mkv";
  ".class"; ".jar"; ".war"; ".ear"; ".jmod";
  ".exe"; ".dll"; ".pdb"; ".nupkg"; ".msi"; ".vsix";
  ".o"; ".obj"; ".so"; ".a"; ".lib"; ".dylib"; ".exp"; ".out";
  ".pyc"; ".pyo"; ".pyd"; ".whl"; ".egg";
  ".framework"; ".app"; ".ipa"; ".dsym"; ".xcarchive";
  ".test";
  ".rlib"; ".rmeta";
  ".node"; ".wasm";
  ".deb"; ".rpm"; ".apk"; ".aab"; ".dmg"; ".pkg"; ".iso";
  ".db"; ".sqlite"; ".sqlite3";
  ".ttf"; ".otf"; ".woff"; ".woff2"; ".eot";
  ".bin"; ".dat"; ".pak" ].

Definition EXCLUDED_DIR_PATTERNS : gset string := list_to_set [
  "node_modules"; "__pycache__"; ".git"; "venv"; ".venv"; "env";
  "dist"; "build"; ".idea"; ".vscode"; "target"; ".pytest_cache";
  ".mypy_cache"; ".tox"; "htmlcov"; ".coverage"; "coverage_html_report";
  ".svn"; ".hg"; ".eggs"; ".hypothesis"; ".ruff_cache" ].

Definition EXCLUDED_FILES : gset string := list_to_set [
  ".DS_Store"; "Thumbs.db"; "desktop.ini"; ".localized" ].

Definition CODE_FILE_EXTENSIONS : gset string := list_to_set [
  ".go";
  ".rs";
  ".kt"; ".kts";
  ".lua";
  ".m"; ".mat"; ".mlx";
  ".mm";
  ".dart";
  ".asm"; ".s"; ".S";
  ".rb"; ".rake"; ".gemspec";
  ".swift";
  ".r"; ".R"; ".rmd"; ".Rmd";
  ".cpp"; ".cc"; ".cxx"; ".c++"; ".hpp"; ".hh"; ".hxx"; ".h++";
  ".c"; ".h";
  ".ts"; ".tsx"; ".mts"; ".cts";
  ".js"; ".jsx"; ".mjs"; ".cjs";
  ".py"; ".pyw"; ".pyi";
  ".java";
  ".cs";
  ".php";
  ".scala"; ".sc";
  ".sh"; ".bash"; ".zsh"; ".fish";
  ".sql";
  ".pl"; ".pm";
  ".hs"; ".lhs";
  ".ex"; ".exs";
  ".erl"; ".hrl";
  ".clj"; ".cljs"; ".cljc"; ".edn";
  ".fs"; ".fsx"; ".fsi";
  ".ml"; ".mli";
  ".groovy"; ".gvy"; ".gy"; ".gsh";
  ".zig";
  ".nim"; ".nims";
  ".v";
  ".jl";
  ".f"; ".for"; ".f90"; ".f95"; ".f03"; ".f08";
  ".cob"; ".cbl";
  ".adb"; ".ads";
  ".pas"; ".pp";
  ".pro"; ".pl";
  ".lisp"; ".lsp"; ".cl";
  ".scm"; ".ss";
  ".rkt";
  ".d";
  ".cr" ].

Definition getFileExtension (filename : string) : string :=
  let lastDot := JS.lastIndexOf "." filename in
  if lastDot =? -1 then EmptyString
  else JS.toLowerCase (JS.slice lastDot filename).

Definition isCodeFile (filename : string) : bool :=
  let ext := getFileExtension filename in
  JS.has ext CODE_FILE_EXTENSIONS.

Definition shouldExcludeDir (dirName : string) : bool :=
  JS.has dirName EXCLUDED_DIR_PATTERNS.

(** The loop over [pathParts[0 .. length - 2]]. *)
Fixpoint anyDirExcluded (pathParts : list string) : bool :=
  match pathParts with
  | [] | [_] => false
  | d :: rest => if shouldExcludeDir d then true else anyDirExcluded rest
  end.

Definition shouldExcludePath (path : string) : bool :=
  let pathParts := JS.split "/" path in
  anyDirExcluded pathParts.

Definition shouldExcludeFile (filepath : string) : bool :=
  let filename :=
    match JS.pop (JS.split "/" filepath) with
    | Some (String c s) => String c s
    | Some EmptyString | None => filepath
    end in
  if JS.has filename EXCLUDED_FILES then true
  else if JS.startsWith "._" filename then true
  else
    let ext := getFileExtension filename in
    JS.has ext BINARY_EXTENSIONS.

Definition filterCodeFiles {T} (path : T -> string) (files : list T) : list T :=
  List.filter
    (fun file => if shouldExcludePath (path file) then false
                 else negb (shouldExcludeFile (path file)))
    files.

End FileFilter.

(** ** file-types.ts and encoding-types.ts *)

Record FileEntry := mkFile {
  path : string;
  name : string;
  content : string;
  originalContent : option string;
  isDirectory : bool;
  lineCount : option N
}.

Module LanguageFileStats.
Record t := mk {
  language : string;
  lineCount : Z;
  charCount : Z;
  fileCount : Z;
  percentage : Z
}.
End LanguageFileStats.

Record RepositoryStats := mkRepositoryStats {
  totalLines : Z;
  totalChars : Z;
  totalFiles : Z;
  languages : list LanguageFileStats.t;
  uploadedAt : string
}.

Record JsonlRecord := mkJsonlRecord {
  repo : string;
  filename : string;
  text : string
}.

Record ExclusionLogEntry := mkExclusionLogEntry {
  entry_path : string;
  reason : string
}.

Record EncodingOptions := mkEncodingOptions {
  includeMetadata : option bool;
  excludePatterns : option (list string);
  repoName : option string
}.

Module EncodingStats.
Record t := mk {
  totalFiles : Z;
  includedFiles : Z;
  excludedFiles : Z;
  totalCharacters : Z;
  languageBreakdown : gmap string Z
}.
End EncodingStats.

Record EncodingResult := mkEncodingResult {
  jsonlContent : string;
  stats : EncodingStats.t;
  excludedFiles : list string;
  exclusionLog : list ExclusionLogEntry
}.

(** ** sampling-utils.ts *)

Module Sampling.

Record SamplingOptions := mkOptions {
  maxFiles : option Z;
  maxPerLanguage : option Z;
  prioritizeDiversity : option bool;
  priorityLanguages : option (list string)
}.

Record SamplingStats := mkStats {
  totalFiles : Z;
  sampledFiles : Z;
  languageDistribution : gmap string Z
}.

Record SamplingResult := mkResult {
  samples : list FileEntry;
  remaining : list FileEntry;
  stats : SamplingStats
}.

(** The two accumulators of [sampleCodeFiles]: [samples] and [sampledPaths]. *)
Definition acc : Type := list FileEntry * gset string.

(** [for (let i = ..; i < toSample && samples.length < maxFiles; i++)] with
    the guarded push; [langFiles] is the part of the group from index [i] on.
    [toSample <= langFiles.length], so the loop never reads past the group. *)
Fixpoint takeFrom (maxFiles : Z) (toSample : JS.jsnum) (i : Z)
    (langFiles : list FileEntry) (st : acc) : acc :=
  match langFiles with
  | [] => st
  | f :: rest =>
      if JS.lt i toSample && (Z.of_nat (List.length (fst st)) <? maxFiles) then
        takeFrom maxFiles toSample (i + 1) rest
          (if JS.has (path f) (snd st) then st
           else ((fst st ++ [f])%list, {[path f]} ∪ snd st))
      else st
  end.

(** The [else] branch: take files in order until [maxFiles] is reached. *)
Fixpoint truncateTo (maxFiles : Z) (codeFiles : list FileEntry) (st : acc) : acc :=
  match codeFiles with
  | [] => st
  | file :: rest =>
      if Z.of_nat (List.length (fst st)) >=? maxFiles then st
      else truncateTo maxFiles rest ((fst st ++ [file])%list, {[path file]} ∪ snd st)
  end.

Section WithLanguage.

(** [detectLanguage] of language-utils.ts, which is not among the sources. *)
Variable detectLanguage : string -> string.

Definition groupFilesByLanguage (files : list FileEntry)
    : list (string * list FileEntry) :=
  fold_left
    (fun groups file =>
       if isDirectory file || negb (FileFilter.isCodeFile (path file)) then groups
       else
         let language := detectLanguage (path file) in
         let existing := default [] (JS.mget language groups) in
         JS.mset language (existing ++ [file])%list groups)
    files [].

Definition calculateLanguageDistribution (files : list FileEntry) : gmap string Z :=
  fold_left
    (fun distribution file =>
       if isDirectory file then distribution
       else
         let language := detectLanguage (path file) in
         <[language := default 0 (distribution !! language) + 1]> distribution)
    files ∅.

(** One iteration of either language loop: the group, its quota, the pushes. *)
Definition sampleLanguage (maxFiles maxPerLanguage : Z) (quota : JS.jsnum)
    (languageGroups : list (string * list FileEntry)) (st : acc) (lang : string) : acc :=
  let langFiles := default [] (JS.mget lang languageGroups) in
  let toSample := JS.min3 (Z.of_nat (List.length langFiles)) maxPerLanguage quota in
  takeFrom maxFiles toSample 0 langFiles st.

(** The body of [sampleCodeFiles] after the early return. *)
Definition sampleOverBudget (maxFiles maxPerLanguage : Z) (prioritizeDiversity : bool)
    (priorityLanguages : list string) (codeFiles : list FileEntry) : acc :=
  let languageGroups := groupFilesByLanguage codeFiles in
  if prioritizeDiversity then
    let size := Z.of_nat (List.length languageGroups) in
    let st1 :=
      fold_left
        (sampleLanguage maxFiles maxPerLanguage (JS.ceil_div maxFiles size) languageGroups)
        priorityLanguages ([], ∅) in
    let remainingSlots := maxFiles - Z.of_nat (List.length (fst st1)) in
    let remainingLanguages :=
      List.filter (fun lang => negb (JS.includes lang priorityLanguages))
        (JS.keys languageGroups) in
    if (0 <? Z.of_nat (List.length remainingLanguages)) && (0 <? remainingSlots) then
      let slotsPerLanguage :=
        JS.ceil_div remainingSlots (Z.of_nat (List.length remainingLanguages)) in
      fold_left
        (sampleLanguage maxFiles maxPerLanguage slotsPerLanguage languageGroups)
        remainingLanguages st1
    else st1
  else truncateTo maxFiles codeFiles ([], ∅).

Definition sampleCodeFiles (files : list FileEntry) (options : SamplingOptions)
    : SamplingResult :=
  let maxFiles := default 1000 (maxFiles options) in
  let maxPerLanguage := default 100 (maxPerLanguage options) in
  let prioritizeDiversity := default true (prioritizeDiversity options) in
  let priorityLanguages := default [] (priorityLanguages options) in
  let codeFiles :=
    List.filter (fun f => negb (isDirectory f) && FileFilter.isCodeFile (path f)) files in
  if Z.of_nat (List.length codeFiles) <=? maxFiles then
    {| samples := codeFiles;
       remaining := [];
       stats := {| totalFiles := Z.of_nat (List.length codeFiles);
                   sampledFiles := Z.of_nat (List.length codeFiles);
                   languageDistribution := calculateLanguageDistribution codeFiles |} |}
  else
    let st := sampleOverBudget maxFiles maxPerLanguage prioritizeDiversity
                priorityLanguages codeFiles in
    let remaining := List.filter (fun f => negb (JS.has (path f) (snd st))) codeFiles in
    {| samples := fst st;
       remaining := remaining;
       stats := {| totalFiles := Z.of_nat (List.length codeFiles);
                   sampledFiles := Z.of_nat (List.length (fst st));
                   languageDistribution := calculateLanguageDistribution (fst st) |} |}.

End WithLanguage.

End Sampling.

(** ** encoding-utils.ts *)

Module Encoding.

Definition createJsonlRecord (file : FileEntry) (repoName : string) : JsonlRecord :=
  {| repo := repoName; filename := path file; text := content file |}.

(** The own properties of a [JsonlRecord], in the order the object literal of
    [createJsonlRecord] creates them. *)
Definition properties (record : JsonlRecord) : list (string * string) :=
  [("repo", repo record); ("filename", filename record); ("text", text record)].

(** [JSON.stringify(record)]. *)
Definition JSON_stringify (record : JsonlRecord) : string :=
  Json.stringify (properties record).

Definition REASON_UNKNOWN : string := "Unknown".
Definition REASON_DIRECTORY : string :=
  "Excluded by directory pattern (node_modules, .git, etc.)".
Definition REASON_BINARY : string :=
  "Binary file (image, archive, executable, etc.)".

(** [options.repoName || 'repository']: undefined and the empty string are falsy. *)
Definition effectiveRepoName (options : EncodingOptions) : string :=
  match repoName options with
  | Some (String c s) => String c s
  | Some EmptyString | None => "repository"
  end.

(** The accumulators of the first loop. *)
Record EncodeAcc := mkEncodeAcc {
  lines : list string;
  languageBreakdown : gmap string Z;
  totalCharacters : Z
}.

(** The accumulators of the second loop. *)
Record LogAcc := mkLogAcc {
  acc_excludedFiles : list string;
  acc_exclusionLog : list ExclusionLogEntry
}.

Definition exclusionReason (p : string) : string :=
  if FileFilter.shouldExcludePath p then REASON_DIRECTORY
  else if FileFilter.shouldExcludeFile p then REASON_BINARY
  else REASON_UNKNOWN.

Definition logStep (includedPaths : gset string) (st : LogAcc) (file : FileEntry) : LogAcc :=
  if negb (JS.has (path file) includedPaths) then
    {| acc_excludedFiles := (acc_excludedFiles st ++ [path file])%list;
       acc_exclusionLog :=
         (acc_exclusionLog st
            ++ [{| entry_path := path file; reason := exclusionReason (path file) |}])%list |}
  else st.

Section WithLanguage.

Variable detectLanguage : string -> string.

Definition encodeStep (repoName : string) (st : EncodeAcc) (file : FileEntry) : EncodeAcc :=
  let record := createJsonlRecord file repoName in
  let language := detectLanguage (path file) in
  let chars := Z.of_nat (String.length (content file)) in
  {| lines := (lines st ++ [JSON_stringify record])%list;
     languageBreakdown :=
       <[language := default 0 (languageBreakdown st !! language) + chars]>
         (languageBreakdown st);
     totalCharacters := totalCharacters st + chars |}.

Definition encodeFilesWithStats (files allFiles : list FileEntry)
    (options : EncodingOptions) : EncodingResult :=
  let repoName := effectiveRepoName options in
  let includableFiles := List.filter (fun f => negb (isDirectory f)) files in
  let allNonDirFiles := List.filter (fun f => negb (isDirectory f)) allFiles in
  let enc := fold_left (encodeStep repoName) includableFiles
               {| lines := []; languageBreakdown := ∅; totalCharacters := 0 |} in
  let includedPaths : gset string := list_to_set (List.map path includableFiles) in
  let log := fold_left (logStep includedPaths) allNonDirFiles
               {| acc_excludedFiles := []; acc_exclusionLog := [] |} in
  {| jsonlContent := JS.join (String Json.nl EmptyString) (lines enc);
     stats := {| EncodingStats.totalFiles := Z.of_nat (List.length allNonDirFiles);
                 EncodingStats.includedFiles := Z.of_nat (List.length includableFiles);
                 EncodingStats.excludedFiles := Z.of_nat (List.length (acc_excludedFiles log));
                 EncodingStats.totalCharacters := totalCharacters enc;
                 EncodingStats.languageBreakdown := languageBreakdown enc |};
     excludedFiles := acc_excludedFiles log;
     exclusionLog := acc_exclusionLog log |}.

End WithLanguage.

End Encoding.

(** ** zip-utils.ts: calculateRepositoryStats *)

Module ZipUtils.

(** [Math.round((lineCount / totalLines) * 100)] for counts with
    [totalLines > 0], on exact quotients: the integer nearest to the
    percentage, a tie going up.  The double product of the source can fall
    just below a tie and then rounds one lower; either way the result is
    within one unit of the exact percentage. *)
Definition roundPercent (lineCount totalLines : Z) : Z :=
  (200 * lineCount + totalLines) / (2 * totalLines).

Definition setPercentage (totalLines : Z) (lang : LanguageFileStats.t) : LanguageFileStats.t :=
  {| LanguageFileStats.language := LanguageFileStats.language lang;
     LanguageFileStats.lineCount := LanguageFileStats.lineCount lang;
     LanguageFileStats.charCount := LanguageFileStats.charCount lang;
     LanguageFileStats.fileCount := LanguageFileStats.fileCount lang;
     LanguageFileStats.percentage :=
       if 0 <? totalLines then roundPercent (LanguageFileStats.lineCount lang) totalLines
       else 0 |}.

(** [languages.sort((a, b) => b.lineCount - a.lineCount)]: a stable sort. *)
Fixpoint insertByLines (x : LanguageFileStats.t) (l : list LanguageFileStats.t)
    : list LanguageFileStats.t :=
  match l with
  | [] => [x]
  | y :: l' =>
      if LanguageFileStats.lineCount y <=? LanguageFileStats.lineCount x then x :: y :: l'
      else y :: insertByLines x l'
  end.

Definition sortByLines (l : list LanguageFileStats.t) : list LanguageFileStats.t :=
  fold_right insertByLines [] l.

(** The accumulators of the loop over the files. *)
Record StatsAcc := mkStatsAcc {
  acc_totalLines : Z;
  acc_totalChars : Z;
  acc_totalFiles : Z;
  languageStats : list (string * LanguageFileStats.t)
}.

Section WithLanguage.

Variable detectLanguage : string -> string.

Definition statsStep (st : StatsAcc) (file : FileEntry) : StatsAcc :=
  if isDirectory file then st
  else
    let language := detectLanguage (path file) in
    let lineCount := Z.of_N (default 0%N (lineCount file)) in
    let charCount := Z.of_nat (String.length (content file)) in
    {| acc_totalLines := acc_totalLines st + lineCount;
       acc_totalChars := acc_totalChars st + charCount;
       acc_totalFiles := acc_totalFiles st + 1;
       languageStats :=
         match JS.mget language (languageStats st) with
         | Some existing =>
             JS.mset language
               {| LanguageFileStats.language := LanguageFileStats.language existing;
                  LanguageFileStats.lineCount := LanguageFileStats.lineCount existing + lineCount;
                  LanguageFileStats.charCount := LanguageFileStats.charCount existing + charCount;
                  LanguageFileStats.fileCount := LanguageFileStats.fileCount existing + 1;
                  LanguageFileStats.percentage := LanguageFileStats.percentage existing |}
               (languageStats st)
         | None =>
             JS.mset language
               {| LanguageFileStats.language := language;
                  LanguageFileStats.lineCount := lineCount;
                  LanguageFileStats.charCount := charCount;
                  LanguageFileStats.fileCount := 1;
                  LanguageFileStats.percentage := 0 |}
               (languageStats st)
         end |}.

(** [now] stands for [new Date().toISOString()]. *)
Definition calculateRepositoryStats (now : string) (files : list FileEntry)
    : RepositoryStats :=
  let st := fold_left statsStep files
              {| acc_totalLines := 0; acc_totalChars := 0; acc_totalFiles := 0;
                 languageStats := [] |} in
  let languages := List.map snd (languageStats st) in
  let languages := List.map (setPercentage (acc_totalLines st)) languages in
  let languages := sortByLines languages in
  {| totalLines := acc_totalLines st;
     totalChars := acc_totalChars st;
     totalFiles := acc_totalFiles st;
     languages := languages;
     uploadedAt := now |}.

End WithLanguage.

End ZipUtils.

(** ** language-utils.ts *)

Module LanguageUtils.

(** Modelled from the spec: the table [EXTENSION_TO_LANGUAGE] of
    language-utils.ts, which is not among the sources.  Its rows here are the
    extension groups that the comments of [CODE_FILE_EXTENSIONS] name, keyed
    by lowercased extension as the lookup needs them. *)
Definition EXTENSION_TO_LANGUAGE : list (string * string) := [
  (".go", "Go"); (".rs", "Rust"); (".kt", "Kotlin"); (".kts", "Kotlin");
  (".lua", "Lua"); (".m", "MATLAB"); (".mat", "MATLAB"); (".mlx", "MATLAB");
  (".mm", "Objective-C"); (".dart", "Dart"); (".asm", "Assembly"); (".s", "Assembly");
  (".rb", "Ruby"); (".rake", "Ruby"); (".gemspec", "Ruby"); (".swift", "Swift");
  (".r", "R"); (".rmd", "R");
  (".cpp", "C++"); (".cc", "C++"); (".cxx", "C++"); (".c++", "C++");
  (".hpp", "C++"); (".hh", "C++"); (".hxx", "C++"); (".h++", "C++");
  (".c", "C"); (".h", "C");
  (".ts", "TypeScript"); (".tsx", "TypeScript"); (".mts", "TypeScript"); (".cts", "TypeScript");
  (".js", "JavaScript"); (".jsx", "JavaScript"); (".mjs", "JavaScript"); (".cjs", "JavaScript");
  (".py", "Python"); (".pyw", "Python"); (".pyi", "Python");
  (".java", "Java"); (".cs", "C#"); (".php", "PHP");
  (".scala", "Scala"); (".sc", "Scala");
  (".sh", "Shell"); (".bash", "Shell"); (".zsh", "Shell"); (".fish", "Shell");
  (".sql", "SQL"); (".pl", "Perl"); (".pm", "Perl");
  (".hs", "Haskell"); (".lhs", "Haskell"); (".ex", "Elixir"); (".exs", "Elixir");
  (".erl", "Erlang"); (".hrl", "Erlang");
  (".clj", "Clojure"); (".cljs", "Clojure"); (".cljc", "Clojure"); (".edn", "Clojure");
  (".fs", "F#"); (".fsx", "F#"); (".fsi", "F#"); (".ml", "OCaml"); (".mli", "OCaml");
  (".groovy", "Groovy"); (".gvy", "Groovy"); (".gy", "Groovy"); (".gsh", "Groovy");
  (".zig", "Zig"); (".nim", "Nim"); (".nims", "Nim"); (".v", "V"); (".jl", "Julia");
  (".f", "Fortran"); (".for", "Fortran"); (".f90", "Fortran"); (".f95", "Fortran");
  (".f03", "Fortran"); (".f08", "Fortran");
  (".cob", "COBOL"); (".cbl", "COBOL"); (".adb", "Ada"); (".ads", "Ada");
  (".pas", "Pascal"); (".pp", "Pascal"); (".pro", "Prolog");
  (".lisp", "Lisp"); (".lsp", "Lisp"); (".cl", "Lisp");
  (".scm", "Scheme"); (".ss", "Scheme"); (".rkt", "Racket"); (".d", "D"); (".cr", "Crystal") ].

(** Modelled from the spec: [detectLanguage] of language-utils.ts, which is
    not among the sources.  Section 4.1: the extension is the part of the
    filename component from its last dot on, lowercased, and empty without a
    dot; an extension the table lacks yields [Unknown]. *)
Definition detectLanguage (path : string) : string :=
  let filename := default path (JS.pop (JS.split "/" path)) in
  let ext := FileFilter.getFileExtension filename in
  default "Unknown" (JS.mget ext EXTENSION_TO_LANGUAGE).

End LanguageUtils.

(** ** Sample inputs *)

Module Samples.

(** A file as [extractZipFile] builds it. *)
Definition file (p c : string) : FileEntry :=
  {| path := p;
     name := default p (JS.pop (JS.split "/" p));
     content := c;
     originalContent := Some c;
     isDirectory := false;
     lineCount := Some (N.of_nat (List.length (JS.split Json.nl c))) |}.




Definition smallRepo : list FileEntry :=
  [ file "a.py" "print(1)"; file "b/node_modules/x.js" "x"; file "b/c.ts" "let c" ].

Definition named (rn : string) : EncodingOptions :=
  {| includeMetadata := None; excludePatterns := None; repoName := Some rn |}.

End Samples.

(** ** error-types.ts and error-utils.ts *)

Module ErrorUtils.

Inductive ProcessingErrorCode :=
  | ZIP_CORRUPTED
  | ZIP_INVALID
  | UNSUPPORTED_FILE_TYPE
  | ENCODING_FAILED
  | MEMORY_ERROR
  | NO_CODE_FILES
  | UNKNOWN_ERROR.

(** [context] is carried as key-value text and [originalError] as the
    message of the error; neither is inspected by the functions below. *)
Record ProcessingError := mkProcessingError {
  code : ProcessingErrorCode;
  message : string;
  recoveryHint : option string;
  context : option (list (string * string));
  originalError : option string
}.

(** [if (error.recoveryHint) return error.recoveryHint]: an absent and an
    empty hint are falsy and fall through to the switch. *)
Definition getRecoverySuggestion (error : ProcessingError) : string :=
  match recoveryHint error with
  | Some (String c s) => String c s
  | Some EmptyString | None =>
      match code error with
      | ZIP_CORRUPTED =>
          "Try downloading your codebase again or recreating the ZIP file."
      | ZIP_INVALID =>
          "Ensure you are uploading a valid ZIP file. Use your OS file compression tool to create it."
      | UNSUPPORTED_FILE_TYPE =>
          "Remove binary files (images, videos, etc.) from your ZIP before uploading."
      | ENCODING_FAILED =>
          "Try removing large binary files or files with unusual encodings from your codebase."
      | MEMORY_ERROR =>
          "Your codebase is too large. Try uploading a smaller section or remove node_modules and build artifacts."
      | NO_CODE_FILES =>
          "Ensure your ZIP contains code files with recognized programming language extensions."
      | UNKNOWN_ERROR =>
          "Try uploading a different ZIP file or check your internet connection."
      end
  end.

Definition getErrorTitle (code : ProcessingErrorCode) : string :=
  match code with
  | ZIP_CORRUPTED => "ZIP File Corrupted"
  | ZIP_INVALID => "Invalid ZIP File"
  | UNSUPPORTED_FILE_TYPE => "Unsupported File Type"
  | ENCODING_FAILED => "Encoding Failed"
  | MEMORY_ERROR => "File Too Large"
  | NO_CODE_FILES => "No Code Files Found"
  | UNKNOWN_ERROR => "Processing Failed"
  end.

Record ErrorDisplay := mkErrorDisplay {
  title : string;
  display_message : string;
  suggestion : string
}.

Definition formatErrorForDisplay (error : ProcessingError) : ErrorDisplay :=
  let title := getErrorTitle (code error) in
  let suggestion := getRecoverySuggestion error in
  {| title := title; display_message := message error; suggestion := suggestion |}.

End ErrorUtils.

(** ** download-utils.ts: generateDownloadFilename *)

Module DownloadUtils.

(** The class [a-zA-Z0-9-_] of the two regular expressions. *)
Definition isNameUnit (c : ascii) : bool :=
  let n := nat_of_ascii c in
  ((97 <=? n) && (n <=? 122) || (65 <=? n) && (n <=? 90) || (48 <=? n) && (n <=? 57)
   || (n =? 45) || (n =? 95))%nat.

(** [s.replace(/[^a-zA-Z0-9-_]/g, '-')]. *)
Fixpoint replaceOtherUnits (s : string) : string :=
  match s with
  | EmptyString => EmptyString
  | String c s' => String (if isNameUnit c then c else "-"%char) (replaceOtherUnits s')
  end.

Fixpoint trimLeadingDashes (s : string) : string :=
  match s with
  | EmptyString => EmptyString
  | String c s' => if Ascii.eqb c "-" then trimLeadingDashes s' else s
  end.

Fixpoint trimTrailingDashes (s : string) : string :=
  match s with
  | EmptyString => EmptyString
  | String c s' =>
      match trimTrailingDashes s' with
      | EmptyString => if Ascii.eqb c "-" then EmptyString else String c EmptyString
      | r => String c r
      end
  end.

(** [s.replace(/^-+|-+$/g, '')]: the leading and the trailing run of dashes. *)
Definition trimDashes (s : string) : string :=
  trimTrailingDashes (trimLeadingDashes s).

Definition startsWithDash (s : string) : bool :=
  match s with
  | String c _ => Ascii.eqb c "-"
  | EmptyString => false
  end.

(** [s.replace(/-+/g, '-')]: every run of dashes becomes one dash. *)
Fixpoint collapseDashes (s : string) : string :=
  match s with
  | EmptyString => EmptyString
  | String c s' =>
      if Ascii.eqb c "-" && startsWithDash s' then collapseDashes s'
      else String c (collapseDashes s')
  end.

(** [today] stands for [new Date().toISOString().split('T')[0]]. *)
Definition generateDownloadFilename (today : string) (repoName type : string)
    (includeTimestamp : option bool) : string :=
  let timestamp := if default true includeTimestamp then today else EmptyString in
  let cleanedRepo := JS.toLowerCase (trimDashes (replaceOtherUnits repoName)) in
  let base := collapseDashes (cleanedRepo ++ "-" ++ type) in
  match timestamp with
  | String _ _ => base ++ "-" ++ timestamp
  | EmptyString => base
  end.

End DownloadUtils.

(** ** zip-utils.ts: the extraction loop of extractZipFile *)

Module ZipExtract.

(** An entry of the loaded archive: its key, whether it is a directory, and
    what [zipEntry.async('string')] yields ([None] when it throws). *)
Record ZipEntry := mkZipEntry {
  entryPath : string;
  dir : bool;
  asyncString : option string
}.

(** One turn of the loop over the entries; the progress callback is left out. *)
Definition extractStep (files : list FileEntry) (entry : ZipEntry) : list FileEntry :=
  if dir entry then files
  else
    match asyncString entry with
    | Some content =>
        let path := entryPath entry in
        let name :=
          match JS.pop (JS.split "/" path) with
          | Some (String c s) => String c s
          | Some EmptyString | None => path
          end in
        let lineCount := N.of_nat (List.length (JS.split Json.nl content)) in
        (files ++ [{| path := path;
                      name := name;
                      content := content;
                      originalContent := Some content;
                      isDirectory := false;
                      lineCount := Some lineCount |}])%list
    | None => files
    end.

Section WithLanguage.

Variable detectLanguage : string -> string.

(** [extractZipFile] once the archive is validated and loaded: the files and
    their statistics. *)
Definition extractLoadedZip (now : string) (entries : list ZipEntry)
    : list FileEntry * RepositoryStats :=
  let files := fold_left extractStep entries [] in
  let stats := ZipUtils.calculateRepositoryStats detectLanguage now files in
  (files, stats).

End WithLanguage.

End ZipExtract.

(** ** use-combined-download.ts: downloadAll up to the encoding *)

Module CombinedDownload.

(** Step 1: the edits of the session replace the content of the files. *)
Definition mergeModified (files : list FileEntry)
    (modifiedFiles : option (gmap string string)) : list FileEntry :=
  match modifiedFiles with
  | Some modified =>
      if (0 <? size modified)%nat then
        List.map
          (fun file =>
             if bool_decide (is_Some (modified !! path file)) then
               {| path := path file;
                  name := name file;
                  content :=
                    match modified !! path file with
                    | Some (String c s) => String c s
                    | Some EmptyString | None => content file
                    end;
                  originalContent := originalContent file;
                  isDirectory := isDirectory file;
                  lineCount := lineCount file |}
             else file)
          files
      else files
  | None => files
  end.

Inductive Prepared :=
  | Thrown (message : string)
  | Encoded (samples : list FileEntry) (encodingResult : EncodingResult).

Section WithLanguage.

Variable detectLanguage : string -> string.

(** [PRIORITY_LANGUAGES] of language-utils.ts, which is not among the sources. *)
Variable PRIORITY_LANGUAGES : list string.

(** Steps 1 to 3 of [downloadAll]: merge, filter, sample, encode.  The
    archives, the summary and the download that follow are effects. *)
Definition downloadAll (files : list FileEntry) (repoName : string)
    (modifiedFiles : option (gmap string string)) : Prepared :=
  let filesToProcess := mergeModified files modifiedFiles in
  let codeFiles :=
    FileFilter.filterCodeFiles path
      (List.filter (fun f => negb (isDirectory f)) filesToProcess) in
  if (List.length codeFiles =? 0)%nat then
    Thrown "No code files found in the uploaded archive"
  else
    let samples :=
      Sampling.samples
        (Sampling.sampleCodeFiles detectLanguage codeFiles
           {| Sampling.maxFiles := Some 5000;
              Sampling.maxPerLanguage := None;
              Sampling.prioritizeDiversity := Some true;
              Sampling.priorityLanguages := Some PRIORITY_LANGUAGES |}) in
    let encodingResult :=
      Encoding.encodeFilesWithStats detectLanguage samples
        (List.filter (fun f => negb (isDirectory f)) filesToProcess)
        {| includeMetadata := None; excludePatterns := None;
           repoName := Some repoName |} in
    Encoded samples encodingResult.

End WithLanguage.

End CombinedDownload.

(** ** combined-download-utils.ts: the name of the JSONL entry *)

Module CombinedDownloadUtils.

(** The name under which [createCombinedResultsZip] files the JSONL text. *)
Definition jsonlFilename (repoName : string) : string :=
  DownloadUtils.replaceOtherUnits repoName ++ "-encoded.jsonl".

End CombinedDownloadUtils.

(** ** EditorSidebar.tsx and EditorView.tsx: line differences and the download *)

Module EditorSidebar.

(** [s ? s.split('\n').length : 0]. *)
Definition linesOrZero (s : string) : Z :=
  match s with
  | String _ _ => Z.of_nat (List.length (JS.split Json.nl s))
  | EmptyString => 0
  end.

Definition getLineDiff (file : FileEntry) (modifiedFiles : option (gmap string string)) : Z :=
  let currentContent :=
    match
      match modifiedFiles with
      | Some modified => modified !! path file
      | None => None
      end
    with
    | Some (String c s) => String c s
    | Some EmptyString | None => content file
    end in
  let currentLines := linesOrZero currentContent in
  let originalLines :=
    match originalContent file with
    | Some (String c s) => Z.of_nat (List.length (JS.split Json.nl (String c s)))
    | Some EmptyString | None => currentLines
    end in
  currentLines - originalLines.

End EditorSidebar.

Module EditorView.

(** [Array.from(deletedFiles).some(df => file.path.startsWith(df + '/'))]. *)
Definition underDeleted (deletedFiles : gset string) (file : FileEntry) : bool :=
  List.existsb (fun df => JS.startsWith (df ++ "/") (path file)) (elements deletedFiles).

(** The loop of [globalLineDiff] over the files, on the pair of
    [totalLines] and [originalTotalLines]. *)
Definition diffStep (deletedFiles : gset string) (modifiedFiles : gmap string string)
    (st : Z * Z) (file : FileEntry) : Z * Z :=
  if isDirectory file then st
  else if JS.has (path file) deletedFiles then st
  else if underDeleted deletedFiles file then st
  else
    let currentContent :=
      match modifiedFiles !! path file with
      | Some (String c s) => String c s
      | Some EmptyString | None => content file
      end in
    let currentLines := EditorSidebar.linesOrZero currentContent in
    let totalLines := fst st + currentLines in
    let originalLines :=
      match originalContent file with
      | Some (String c s) => Z.of_nat (List.length (JS.split Json.nl (String c s)))
      | Some EmptyString | None => currentLines
      end in
    (totalLines, snd st + originalLines).

Definition globalLineDiff (files : list FileEntry) (deletedFiles : gset string)
    (modifiedFiles : gmap string string) : Z :=
  let st := fold_left (diffStep deletedFiles modifiedFiles) files (0, 0) in
  fst st - snd st.

(** The files that [handleDownload] hands to [downloadAll]. *)
Definition filesWithModifications (files : list FileEntry) (deletedFiles : gset string)
    (modifiedFiles : gmap string string) : list FileEntry :=
  List.map
    (fun file =>
       if bool_decide (is_Some (modifiedFiles !! path file)) then
         {| path := path file;
            name := name file;
            content :=
              match modifiedFiles !! path file with
              | Some (String c s) => String c s
              | Some EmptyString | None => content file
              end;
            originalContent := originalContent file;
            isDirectory := isDirectory file;
            lineCount := lineCount file |}
       else file)
    (List.filter
       (fun file => negb (JS.has (path file) deletedFiles) && negb (underDeleted deletedFiles file))
       files).

Section WithLanguage.

Variable detectLanguage : string -> string.
Variable PRIORITY_LANGUAGES : list string.

(** [handleDownload] up to the encoding: the statistics are passed on to the
    archive only. *)
Definition handleDownload (files : list FileEntry) (repoName : string)
    (deletedFiles : gset string) (modifiedFiles : gmap string string)
    : CombinedDownload.Prepared :=
  CombinedDownload.downloadAll detectLanguage PRIORITY_LANGUAGES
    (filesWithModifications files deletedFiles modifiedFiles) repoName None.

End WithLanguage.

End EditorView.

(** ** Vocabulary of the specification *)

Module Spec.

(** The code unit [c] occurs in [s]. *)
Fixpoint occurs (c : ascii) (s : string) : bool :=
  match s with
  | EmptyString => false
  | String d s' => if Ascii.eqb d c then true else occurs c s'
  end.

(** [seg] is the final '/'-segment of [p]: what follows the last slash. *)
Definition FinalSegment (p seg : string) : Prop :=
  occurs "/" seg = false /\ (p = seg \/ exists pre, p = pre ++ String "/" seg).

(** [e] is the last-dot extension of [fn], dot included; empty without a dot. *)
Definition LastDotExtension (fn e : string) : Prop :=
  (occurs "." fn = false /\ e = EmptyString) \/
  (exists pre suf, fn = pre ++ String "." suf /\ occurs "." suf = false /\ e = String "." suf).

Definition nonDirectories (files : list FileEntry) : list FileEntry :=
  List.filter (fun f => negb (isDirectory f)) files.

(** The restriction of the sampler: not a directory, and a code file. *)
Definition isCode (f : FileEntry) : bool :=
  negb (isDirectory f) && FileFilter.isCodeFile (path f).

Definition codeFilesOf (files : list FileEntry) : list FileEntry :=
  List.filter (fun f => negb (isDirectory f) && FileFilter.isCodeFile (path f)) files.

(** The wire form of one record, keys in the order repo, filename, text. *)
Definition recordLine (r p c : string) : string :=
  "{" ++ Json.quote "repo" ++ ":" ++ Json.quote r ++ ","
      ++ Json.quote "filename" ++ ":" ++ Json.quote p ++ ","
      ++ Json.quote "text" ++ ":" ++ Json.quote c ++ "}".

Definition newline : string := String Json.nl EmptyString.

Definition sumPercentages (l : list LanguageFileStats.t) : Z :=
  fold_right (fun x a => LanguageFileStats.percentage x + a) 0 l.

Definition sumLines (l : list LanguageFileStats.t) : Z :=
  fold_right (fun x a => LanguageFileStats.lineCount x + a) 0 l.

(** What the two accumulators of the sampler satisfy at every point: the
    samples come from the code files, no path is sampled twice, every sampled
    path is recorded, and the budget is kept. *)
Definition SamplerInv (codeFiles : list FileEntry) (maxFiles : Z) (st : Sampling.acc) : Prop :=
  (forall f, In f (fst st) -> In f codeFiles)
  /\ NoDup (List.map path (fst st))
  /\ (forall f, In f (fst st) -> path f ∈ snd st)
  /\ Z.of_nat (List.length (fst st)) <= maxFiles.

Section WithLanguage.

Variable detectLanguage : string -> string.

Definition hasLanguage (A : string) (f : FileEntry) : bool :=
  String.eqb (detectLanguage (path f)) A.

(** How many files of [l] are of language [A]. *)
Definition countLanguage (A : string) (l : list FileEntry) : Z :=
  Z.of_nat (List.length (List.filter (hasLanguage A) l)).


End WithLanguage.

(** [d] is a directory segment of [p]: a whole '/'-segment before the final
    one. *)
Definition DirSegment (p d : string) : Prop :=
  occurs "/" d = false
  /\ exists pre rest,
       p = pre ++ d ++ String "/" rest
       /\ (pre = EmptyString \/ exists pre', pre = pre' ++ "/").

(** Two dashes in a row occur in [s]. *)
Fixpoint hasDoubleDash (s : string) : bool :=
  match s with
  | EmptyString => false
  | String a s' =>
      (Ascii.eqb a "-" && match s' with String b _ => Ascii.eqb b "-" | EmptyString => false end)
      || hasDoubleDash s'
  end.

(** Every code unit of [s] satisfies [p]. *)
Fixpoint allUnits (p : ascii -> bool) (s : string) : bool :=
  match s with
  | EmptyString => true
  | String c s' => p c && allUnits p s'
  end.

(** The class [a-z0-9-_]. *)
Definition isLowerNameUnit (c : ascii) : bool :=
  let n := nat_of_ascii c in
  ((97 <=? n) && (n <=? 122) || (48 <=? n) && (n <=? 57) || (n =? 45) || (n =? 95))%nat.

(** The sum of a weight over files. *)
Definition sumOver (w : FileEntry -> Z) (files : list FileEntry) : Z :=
  fold_right (fun f a => w f + a) 0 files.

Definition chars (f : FileEntry) : Z := Z.of_nat (String.length (content f)).

Definition lines (f : FileEntry) : Z := Z.of_N (default 0%N (lineCount f)).


(** The tally a loop of the form [d[key] = (d[key] || 0) + w] builds. *)
Definition tally {A} (key : A -> string) (w : A -> Z) (k : string) (l : list A) : Z :=
  fold_right (fun x a => (if String.eqb (key x) k then w x else 0) + a) 0 l.

(** How often the code unit [c] occurs in [s]. *)
Fixpoint countUnit (c : ascii) (s : string) : nat :=
  match s with
  | EmptyString => O
  | String d s' => ((if Ascii.eqb d c then 1 else 0) + countUnit c s')%nat
  end.

Definition hexValue (c : ascii) : option nat :=
  let n := nat_of_ascii c in
  if ((48 <=? n) && (n <=? 57))%nat then Some (n - 48)%nat
  else if ((97 <=? n) && (n <=? 102))%nat then Some (n - 87)%nat
  else None.

(** Reads one escaped code unit off the front of the body of a JSON string:
    the inverse of [Json.escapeUnit], undefined at the closing quote. *)
Definition unescapeHead (s : string) : option (ascii * string) :=
  match s with
  | EmptyString => None
  | String c rest =>
      if Ascii.eqb c Json.dq then None
      else if Ascii.eqb c Json.bs then
        match rest with
        | String e rest' =>
            if Ascii.eqb e Json.dq then Some (Json.dq, rest')
            else if Ascii.eqb e Json.bs then Some (Json.bs, rest')
            else if Ascii.eqb e "b" then Some ("008"%char, rest')
            else if Ascii.eqb e "t" then Some ("009"%char, rest')
            else if Ascii.eqb e "n" then Some ("010"%char, rest')
            else if Ascii.eqb e "f" then Some ("012"%char, rest')
            else if Ascii.eqb e "r" then Some ("013"%char, rest')
            else if Ascii.eqb e "u" then
              match rest' with
              | String z1 (String z2 (String h (String l rest''))) =>
                  match hexValue h, hexValue l with
                  | Some a, Some b =>
                      if Ascii.eqb z1 "0" && Ascii.eqb z2 "0"
                      then Some (ascii_of_nat (16 * a + b), rest'')
                      else None
                  | _, _ => None
                  end
              | _ => None
              end
            else None
        | EmptyString => None
        end
      else Some (c, rest)
  end.

(** Reads the body of a JSON string up to its closing quote: the text it
    denotes and what follows the quote.  [fuel] bounds the units read. *)
Fixpoint readString (fuel : nat) (s : string) : option (string * string) :=
  match fuel with
  | O => None
  | S fuel' =>
      match s with
      | EmptyString => None
      | String c rest =>
          if Ascii.eqb c Json.dq then Some (EmptyString, rest)
          else
            match unescapeHead s with
            | Some (u, rest') =>
                match readString fuel' rest' with
                | Some (t, rest'') => Some (String u t, rest'')
                | None => None
                end
            | None => None
            end
      end
  end.

(** Takes the literal [lit] off the front of [s]. *)
Fixpoint expect (lit s : string) : option string :=
  match lit, s with
  | EmptyString, _ => Some s
  | String a lit', String b s' => if Ascii.eqb a b then expect lit' s' else None
  | String _ _, EmptyString => None
  end.

(** A reader of one line of the output: an object with the three string
    members repo, filename and text, in that order and without white space. *)
Definition parseRecord (line : string) : option JsonlRecord :=
  let fuel := S (String.length line) in
  match expect ("{" ++ Json.quote "repo" ++ ":" ++ String Json.dq EmptyString) line with
  | None => None
  | Some s1 =>
  match readString fuel s1 with
  | None => None
  | Some (r, s2) =>
  match expect ("," ++ Json.quote "filename" ++ ":" ++ String Json.dq EmptyString) s2 with
  | None => None
  | Some s3 =>
  match readString fuel s3 with
  | None => None
  | Some (p, s4) =>
  match expect ("," ++ Json.quote "text" ++ ":" ++ String Json.dq EmptyString) s4 with
  | None => None
  | Some s5 =>
  match readString fuel s5 with
  | Some (c, String "}" EmptyString) => Some {| repo := r; filename := p; text := c |}
  | _ => None
  end end end end end end.

(** The blocklist of [filterCodeFiles]: an excluded directory on the path, or
    an excluded file name or extension. *)
Definition blocked (p : string) : bool :=
  FileFilter.shouldExcludePath p || FileFilter.shouldExcludeFile p.

(** What [calculateRepositoryStats] gathers for the language [k] over the
    files [l], before the percentage is set. *)
Definition aggregate (detectLanguage : string -> string) (k : string)
    (l : list FileEntry) : LanguageFileStats.t :=
  let key := fun f => detectLanguage (path f) in
  {| LanguageFileStats.language := k;
     LanguageFileStats.lineCount := tally key lines k l;
     LanguageFileStats.charCount := tally key chars k l;
     LanguageFileStats.fileCount := tally key (fun _ => 1) k l;
     LanguageFileStats.percentage := 0 |}.

(** What the loop of [calculateRepositoryStats] has gathered once the files
    [done] are behind it. *)
Definition StatsInv (detectLanguage : string -> string) (done : list FileEntry)
    (st : ZipUtils.StatsAcc) : Prop :=
  let l := nonDirectories done in
  ZipUtils.acc_totalLines st = sumOver lines l
  /\ ZipUtils.acc_totalChars st = sumOver chars l
  /\ ZipUtils.acc_totalFiles st = Z.of_nat (List.length l)
  /\ NoDup (JS.keys (ZipUtils.languageStats st))
  /\ forall k,
       JS.mget k (ZipUtils.languageStats st)
       = if tally (fun f => detectLanguage (path f)) (fun _ => 1) k l =? 0 then None
         else Some (aggregate detectLanguage k l).

(** The content of [file] once the edits of the session are merged: its
    edit when that is a text with at least one unit, else its own content. *)
Definition editedContent (modifiedFiles : option (gmap string string)) (file : FileEntry)
    : string :=
  match modifiedFiles with
  | Some modified =>
      match modified !! path file with
      | Some (String c s) => String c s
      | Some EmptyString | None => content file
      end
  | None => content file
  end.

Definition edit (modifiedFiles : option (gmap string string)) (file : FileEntry)
    : FileEntry :=
  {| path := path file;
     name := name file;
     content := editedContent modifiedFiles file;
     originalContent := originalContent file;
     isDirectory := isDirectory file;
     lineCount := lineCount file |}.

(** The file survives the deletions of the session: neither its path nor a
    directory above it was deleted. *)
Definition kept (deletedFiles : gset string) (file : FileEntry) : bool :=
  negb (JS.has (path file) deletedFiles) && negb (EditorView.underDeleted deletedFiles file).

Definition sumChars (l : list LanguageFileStats.t) : Z :=
  fold_right (fun x a => LanguageFileStats.charCount x + a) 0 l.

Definition sumFiles (l : list LanguageFileStats.t) : Z :=
  fold_right (fun x a => LanguageFileStats.fileCount x + a) 0 l.

End Spec.

(** * Properties *)

(** ** Strings: split, join and the JSON escape *)

Section StringFacts.

Lemma occurs_app c a b : Spec.occurs c (a ++ b) = Spec.occurs c a || Spec.occurs c b.
Proof.
  induction a as [|d a IH]; simpl; [reflexivity|].
  destruct (Ascii.eqb d c); [reflexivity | exact IH].
Qed.

Lemma split_nonempty sep s : JS.split sep s <> [].
Proof.
  destruct s as [|c s]; simpl; [discriminate|].
  destruct (Ascii.eqb c sep); [discriminate|].
  destruct (JS.split sep s); discriminate.
Qed.

Lemma split_no_sep sep s : Spec.occurs sep s = false -> JS.split sep s = [s].
Proof.
  induction s as [|c s IH]; simpl; [reflexivity|].
  destruct (Ascii.eqb c sep); [discriminate|].
  intros H. rewrite (IH H). reflexivity.
Qed.

Lemma split_app_sep sep a b :
  JS.split sep (a ++ String sep b) = (JS.split sep a ++ JS.split sep b)%list.
Proof.
  induction a as [|c a IH]; simpl.
  - rewrite Ascii.eqb_refl. reflexivity.
  - destruct (Ascii.eqb c sep).
    + rewrite IH. reflexivity.
    + rewrite IH. pose proof (split_nonempty sep a) as Hne.
      destruct (JS.split sep a) as [|seg rest]; [congruence | reflexivity].
Qed.

Lemma split_join sep parts :
  parts <> [] ->
  List.Forall (fun l => Spec.occurs sep l = false) parts ->
  JS.split sep (JS.join (String sep EmptyString) parts) = parts.
Proof.
  induction parts as [|x rest IH]; [congruence|].
  intros _ Hall. inversion Hall as [|? ? Hx Hrest]; subst.
  destruct rest as [|y rest'].
  - simpl. apply split_no_sep, Hx.
  - change (JS.join (String sep EmptyString) (x :: y :: rest'))
      with (x ++ String sep (JS.join (String sep EmptyString) (y :: rest'))).
    rewrite split_app_sep, (split_no_sep _ _ Hx), IH by (congruence || assumption).
    reflexivity.
Qed.

Lemma pop_snoc {A} (l : list A) (x : A) : JS.pop (l ++ [x])%list = Some x.
Proof.
  unfold JS.pop. rewrite List.map_app. simpl. apply List.last_last.
Qed.

Lemma escapeUnit_no_newline c : Spec.occurs Json.nl (Json.escapeUnit c) = false.
Proof. destruct c as [[] [] [] [] [] [] [] []]; reflexivity. Qed.

Lemma escape_no_newline s : Spec.occurs Json.nl (Json.escape s) = false.
Proof.
  induction s as [|c s IH]; simpl; [reflexivity|].
  rewrite occurs_app, escapeUnit_no_newline, IH. reflexivity.
Qed.

Lemma quote_no_newline s : Spec.occurs Json.nl (Json.quote s) = false.
Proof.
  unfold Json.quote. simpl. rewrite occurs_app, escape_no_newline. reflexivity.
Qed.

End StringFacts.

(** ** The encoder *)

Section EncoderFacts.

Variable detectLanguage : string -> string.

Lemma string_app_assoc (a b c : string) : (a ++ b) ++ c = a ++ (b ++ c).
Proof.
  induction a as [|x a IH]; [reflexivity|].
  change (String x ((a ++ b) ++ c) = String x (a ++ (b ++ c))). rewrite IH. reflexivity.
Qed.

Lemma JSON_stringify_record file rn :
  Encoding.JSON_stringify (Encoding.createJsonlRecord file rn)
  = Spec.recordLine rn (path file) (content file).
Proof.
  unfold Encoding.JSON_stringify, Encoding.properties, Encoding.createJsonlRecord,
    Json.stringify, Json.members, Spec.recordLine; cbn [repo filename text].
  f_equal. rewrite !string_app_assoc. reflexivity.
Qed.

Lemma recordLine_no_newline r p c : Spec.occurs Json.nl (Spec.recordLine r p c) = false.
Proof.
  unfold Spec.recordLine.
  repeat (rewrite occurs_app; rewrite ?quote_no_newline; cbn [orb]).
  reflexivity.
Qed.

Lemma encode_lines rn files st :
  Encoding.lines (fold_left (Encoding.encodeStep detectLanguage rn) files st)
  = (Encoding.lines st
       ++ List.map (fun f => Spec.recordLine rn (path f) (content f)) files)%list.
Proof.
  revert st. induction files as [|f files IH]; intros st; simpl.
  - rewrite List.app_nil_r. reflexivity.
  - rewrite IH. cbn [Encoding.encodeStep Encoding.lines].
    rewrite JSON_stringify_record, <- List.app_assoc. reflexivity.
Qed.

Lemma jsonlContent_join selectedFiles allFiles options :
  jsonlContent (Encoding.encodeFilesWithStats detectLanguage selectedFiles allFiles options)
  = JS.join Spec.newline
      (List.map
         (fun f => Spec.recordLine (Encoding.effectiveRepoName options) (path f) (content f))
         (Spec.nonDirectories selectedFiles)).
Proof.
  unfold Encoding.encodeFilesWithStats; cbn [jsonlContent].
  rewrite encode_lines. reflexivity.
Qed.

Lemma jsonlContent_split selectedFiles allFiles options :
  Spec.nonDirectories selectedFiles <> [] ->
  JS.split Json.nl
    (jsonlContent (Encoding.encodeFilesWithStats detectLanguage selectedFiles allFiles options))
  = List.map
      (fun f => Spec.recordLine (Encoding.effectiveRepoName options) (path f) (content f))
      (Spec.nonDirectories selectedFiles).
Proof.
  intros Hne. rewrite jsonlContent_join. apply split_join.
  - destruct (Spec.nonDirectories selectedFiles); [congruence | discriminate].
  - apply List.Forall_forall. intros l Hl. apply List.in_map_iff in Hl.
    destruct Hl as [f [<- _]]. apply recordLine_no_newline.
Qed.

Lemma effectiveRepoName_cases options rn :
  (repoName options = Some rn /\ rn <> EmptyString)
  \/ ((repoName options = None \/ repoName options = Some EmptyString)
      /\ rn = "repository") ->
  Encoding.effectiveRepoName options = rn.
Proof.
  unfold Encoding.effectiveRepoName.
  intros [[-> Hne] | [[-> | ->] ->]]; try reflexivity.
  destruct rn; [congruence | reflexivity].
Qed.

Lemma lookup_map {A B} (f : A -> B) (l : list A) (i : nat) :
  List.map f l !! i = f <$> (l !! i).
Proof.
  revert i. induction l as [|x l IH]; intros [|i]; simpl; try reflexivity. apply IH.
Qed.

Lemma filter_filter_andb {A} (f g : A -> bool) l :
  List.filter f (List.filter g l) = List.filter (fun x => g x && f x) l.
Proof.
  induction l as [|x l IH]; simpl; [reflexivity|].
  destruct (g x); simpl; [destruct (f x)|]; rewrite ?IH; reflexivity.
Qed.

Lemma stdpp_filter_bool {A} (P : A -> Prop) `{!forall x, Decision (P x)} (b : A -> bool) l :
  (forall x, P x <-> b x = true) -> filter P l = List.filter b l.
Proof.
  intros Hb. induction l as [|x l IH]; [reflexivity|].
  rewrite filter_cons. simpl. destruct (decide (P x)) as [HP | HP].
  - rewrite (proj1 (Hb x) HP), IH. reflexivity.
  - destruct (b x) eqn:E; [exfalso; apply HP, Hb, E | exact IH].
Qed.

Lemma log_entries includedPaths files st :
  Encoding.acc_exclusionLog (fold_left (Encoding.logStep includedPaths) files st)
  = (Encoding.acc_exclusionLog st
       ++ List.map
            (fun f => {| entry_path := path f;
                         reason := Encoding.exclusionReason (path f) |})
            (List.filter (fun f => negb (JS.has (path f) includedPaths)) files))%list.
Proof.
  revert st. induction files as [|f files IH]; intros st; simpl.
  - rewrite List.app_nil_r. reflexivity.
  - rewrite IH. unfold Encoding.logStep.
    destruct (negb (JS.has (path f) includedPaths)); cbn [Encoding.acc_exclusionLog].
    + simpl. rewrite <- List.app_assoc. reflexivity.
    + reflexivity.
Qed.

End EncoderFacts.

Section EncoderClaims.

Variable detectLanguage : string -> string.

(** C1, amended.  The JSONL text is the records of the non-directory selected
    files, in their order, joined by one newline; its i-th line is the object
    with the keys repo, filename, text in that order, holding the path and the
    unmodified content of the i-th such file.  The repo field is [repoName]
    when that is a non-empty string, and the default ['repository'] when it is
    empty or absent. *)
Theorem jsonl_lines_in_selected_order selectedFiles allFiles options rn :
  (repoName options = Some rn /\ rn <> EmptyString)
  \/ ((repoName options = None \/ repoName options = Some EmptyString)
      /\ rn = "repository") ->
  jsonlContent (Encoding.encodeFilesWithStats detectLanguage selectedFiles allFiles options)
  = JS.join Spec.newline
      (List.map (fun f => Spec.recordLine rn (path f) (content f))
         (Spec.nonDirectories selectedFiles))
  /\ forall (i : nat) file,
       Spec.nonDirectories selectedFiles !! i = Some file ->
       JS.split Json.nl
         (jsonlContent
            (Encoding.encodeFilesWithStats detectLanguage selectedFiles allFiles options)) !! i
       = Some (Spec.recordLine rn (path file) (content file)).
Proof.
  intros Hrn. apply effectiveRepoName_cases in Hrn. split.
  - rewrite jsonlContent_join, Hrn. reflexivity.
  - intros i file Hi. rewrite jsonlContent_split.
    + rewrite Hrn, lookup_map, Hi. reflexivity.
    + intros E. rewrite E in Hi. discriminate.
Qed.

(** C6, amended.  Splitting the JSONL text on the newline yields N elements
    when N >= 1 non-directory files were encoded, and one element when
    N = 0. *)
Theorem jsonl_split_count selectedFiles allFiles options :
  List.length
    (JS.split Json.nl
       (jsonlContent
          (Encoding.encodeFilesWithStats detectLanguage selectedFiles allFiles options)))
  = Nat.max 1 (List.length (Spec.nonDirectories selectedFiles)).
Proof.
  destruct (Spec.nonDirectories selectedFiles) as [|f l] eqn:E.
  - rewrite jsonlContent_join, E. reflexivity.
  - rewrite jsonlContent_split by (rewrite E; discriminate).
    rewrite E, List.length_map. reflexivity.
Qed.

(** C8.  The exclusion log holds, in the order of [allFiles], one entry for
    each non-directory file whose path is not the path of a selected
    non-directory file; its reason is the directory-pattern category when
    [shouldExcludePath] holds, else the binary-file category when
    [shouldExcludeFile] holds, else 'Unknown'. *)
Theorem exclusionLog_entries selectedFiles allFiles options :
  exclusionLog (Encoding.encodeFilesWithStats detectLanguage selectedFiles allFiles options)
  = List.map
      (fun f =>
         {| entry_path := path f;
            reason :=
              if FileFilter.shouldExcludePath (path f) then Encoding.REASON_DIRECTORY
              else if FileFilter.shouldExcludeFile (path f) then Encoding.REASON_BINARY
              else Encoding.REASON_UNKNOWN |})
      (filter
         (fun f => isDirectory f = false
                   /\ path f ∉ List.map path (Spec.nonDirectories selectedFiles))
         allFiles).
Proof.
  unfold Encoding.encodeFilesWithStats; cbn [exclusionLog].
  rewrite log_entries, filter_filter_andb. cbn [Encoding.acc_exclusionLog app].
  f_equal. symmetry. apply stdpp_filter_bool. intros f.
  unfold JS.has. rewrite andb_true_iff, !negb_true_iff, bool_decide_eq_false.
  rewrite elem_of_list_to_set. reflexivity.
Qed.


End EncoderClaims.

(** C1 as stated fails for the empty [repoName]: the line carries the default
    name, not the empty string. *)
Lemma jsonl_empty_repoName_counterexample :
  let selected := [Samples.file "a.py" "x"] in
  Spec.nonDirectories selected !! 0%nat = Some (Samples.file "a.py" "x")
  /\ JS.split Json.nl
       (jsonlContent
          (Encoding.encodeFilesWithStats LanguageUtils.detectLanguage selected selected
             (Samples.named EmptyString))) !! 0%nat
     = Some (Spec.recordLine "repository" "a.py" "x")
  /\ Spec.recordLine "repository" "a.py" "x" <> Spec.recordLine EmptyString "a.py" "x".
Proof. repeat split; try reflexivity. discriminate. Qed.

Lemma jsonl_lines_in_selected_order_witness :
  let selected := [Samples.file "a.py" "x"; Samples.file "b/c.ts" "let c"] in
  jsonlContent
    (Encoding.encodeFilesWithStats LanguageUtils.detectLanguage selected Samples.smallRepo
       (Samples.named "demo"))
  = JS.join Spec.newline
      (List.map (fun f => Spec.recordLine "demo" (path f) (content f))
         (Spec.nonDirectories selected))
  /\ forall (i : nat) file,
       Spec.nonDirectories selected !! i = Some file ->
       JS.split Json.nl
         (jsonlContent
            (Encoding.encodeFilesWithStats LanguageUtils.detectLanguage selected
               Samples.smallRepo (Samples.named "demo"))) !! i
       = Some (Spec.recordLine "demo" (path file) (content file)).
Proof.
  apply (jsonl_lines_in_selected_order LanguageUtils.detectLanguage
           [Samples.file "a.py" "x"; Samples.file "b/c.ts" "let c"]
           Samples.smallRepo (Samples.named "demo") "demo").
  left. split; [reflexivity | discriminate].
Defined.

(** C6 as stated fails for N = 0: the empty text splits into one element. *)
Lemma jsonl_split_empty_counterexample :
  List.length (Spec.nonDirectories []) = 0%nat
  /\ List.length
       (JS.split Json.nl
          (jsonlContent
             (Encoding.encodeFilesWithStats LanguageUtils.detectLanguage [] []
                (Samples.named "demo")))) = 1%nat.
Proof. split; reflexivity. Qed.


(** ** The exclusion filter *)

Section FilterFacts.

Lemma pop_split_final p seg :
  Spec.FinalSegment p seg -> JS.pop (JS.split "/" p) = Some seg.
Proof.
  intros [Hseg [-> | [pre ->]]].
  - rewrite (split_no_sep _ _ Hseg). reflexivity.
  - rewrite split_app_sep, (split_no_sep _ _ Hseg). apply pop_snoc.
Qed.

Lemma lastIndexOf_from_absent c s i acc :
  Spec.occurs c s = false -> JS.lastIndexOf_from c s i acc = acc.
Proof.
  revert i acc. induction s as [|d s IH]; intros i acc; simpl; [reflexivity|].
  destruct (Ascii.eqb d c); [discriminate | apply IH].
Qed.

Lemma lastIndexOf_from_last c pre suf i acc :
  Spec.occurs c suf = false ->
  JS.lastIndexOf_from c (pre ++ String c suf) i acc = i + Z.of_nat (String.length pre).
Proof.
  intros Hsuf. revert i acc. induction pre as [|d pre IH]; intros i acc.
  - change (EmptyString ++ String c suf) with (String c suf). simpl.
    rewrite Ascii.eqb_refl, lastIndexOf_from_absent by assumption. lia.
  - change (String d pre ++ String c suf) with (String d (pre ++ String c suf)).
    simpl JS.lastIndexOf_from. rewrite IH. simpl String.length. lia.
Qed.

Lemma drop_app pre s : JS.drop (String.length pre) (pre ++ s) = s.
Proof. induction pre as [|d pre IH]; [destruct s; reflexivity | exact IH]. Qed.

Lemma string_length_app a b :
  String.length (a ++ b) = (String.length a + String.length b)%nat.
Proof.
  induction a as [|d a IH]; [reflexivity|].
  change (String d a ++ b) with (String d (a ++ b)). simpl. rewrite IH. reflexivity.
Qed.

Lemma slice_app pre s : JS.slice (Z.of_nat (String.length pre)) (pre ++ s) = s.
Proof.
  unfold JS.slice. rewrite string_length_app.
  destruct (Z.ltb_spec (Z.of_nat (String.length pre)) 0) as [Hneg | _]; [lia|].
  rewrite Z.min_l by lia. rewrite Nat2Z.id. apply drop_app.
Qed.

Lemma getFileExtension_spec fn e :
  Spec.LastDotExtension fn e -> FileFilter.getFileExtension fn = JS.toLowerCase e.
Proof.
  unfold FileFilter.getFileExtension, JS.lastIndexOf.
  intros [[Hno ->] | [pre [suf [-> [Hsuf ->]]]]].
  - rewrite lastIndexOf_from_absent by assumption. reflexivity.
  - rewrite lastIndexOf_from_last by assumption.
    destruct (Z.eqb_spec (0 + Z.of_nat (String.length pre)) (-1)) as [E | _]; [lia|].
    rewrite Z.add_0_l, slice_app. reflexivity.
Qed.

Lemma startsWith_resource_fork fn :
  JS.startsWith "._" fn = true <-> exists rest, fn = "._" ++ rest.
Proof.
  split.
  - destruct fn as [|a [|b rest]]; cbn [JS.startsWith]; try discriminate.
    + rewrite andb_false_r. discriminate.
    + rewrite andb_true_r, andb_true_iff, !Ascii.eqb_eq.
      intros [<- <-]. exists rest. reflexivity.
  - intros [rest ->]. reflexivity.
Qed.

Lemma has_spec x (s : gset string) : JS.has x s = true <-> x ∈ s.
Proof. unfold JS.has. apply bool_decide_eq_true. Qed.

Lemma junk_names fn :
  fn ∈ FileFilter.EXCLUDED_FILES
  <-> fn = ".DS_Store" \/ fn = "Thumbs.db" \/ fn = "desktop.ini" \/ fn = ".localized".
Proof.
  unfold FileFilter.EXCLUDED_FILES. rewrite elem_of_list_to_set, !elem_of_cons, elem_of_nil.
  tauto.
Qed.

(** C7, amended.  [shouldExcludeFile] is true exactly when the file name is
    one of the four junk names, or begins with the prefix '._', or its
    lowercased last-dot extension is in the binary blocklist; the file name
    is the final '/'-segment of the path, and the whole path when that
    segment is empty. *)
Theorem shouldExcludeFile_iff filepath seg ext :
  Spec.FinalSegment filepath seg ->
  Spec.LastDotExtension (if decide (seg = EmptyString) then filepath else seg) ext ->
  let filename := if decide (seg = EmptyString) then filepath else seg in
  FileFilter.shouldExcludeFile filepath = true
  <-> (filename = ".DS_Store" \/ filename = "Thumbs.db"
       \/ filename = "desktop.ini" \/ filename = ".localized")
      \/ (exists rest, filename = "._" ++ rest)
      \/ JS.toLowerCase ext ∈ FileFilter.BINARY_EXTENSIONS.
Proof.
  intros Hseg Hext filename. change (Spec.LastDotExtension filename ext) in Hext.
  assert (Hfn : match seg with String c s => String c s | EmptyString => filepath end
                = filename).
  { subst filename. destruct seg; reflexivity. }
  clearbody filename. unfold FileFilter.shouldExcludeFile.
  rewrite (pop_split_final _ _ Hseg), Hfn, (getFileExtension_spec _ _ Hext).
  rewrite <- junk_names, <- startsWith_resource_fork, <- !has_spec.
  destruct (JS.has filename FileFilter.EXCLUDED_FILES); [tauto|].
  destruct (JS.startsWith "._" filename); [tauto|].
  split; [tauto | intros [H | [H | H]]; [discriminate | discriminate | exact H]].
Qed.

End FilterFacts.

(** C7 as stated fails on a path that ends in a slash: its final segment is
    empty and meets none of the three conditions, yet the whole path is
    tested and begins with '._'. *)
Lemma shouldExcludeFile_trailing_slash_counterexample :
  Spec.FinalSegment "._x/" EmptyString
  /\ Spec.LastDotExtension EmptyString EmptyString
  /\ FileFilter.shouldExcludeFile "._x/" = true
  /\ ~ ((EmptyString = ".DS_Store" \/ EmptyString = "Thumbs.db"
         \/ EmptyString = "desktop.ini" \/ EmptyString = ".localized")
        \/ (exists rest, EmptyString = "._" ++ rest)
        \/ JS.toLowerCase EmptyString ∈ FileFilter.BINARY_EXTENSIONS).
Proof.
  split; [split; [reflexivity | right; exists "._x"; reflexivity]|].
  split; [left; split; reflexivity|].
  split; [reflexivity|].
  intros [[H | [H | [H | H]]] | [[rest H] | H]]; [discriminate H .. |].
  apply (proj2 (has_spec _ _)) in H. vm_compute in H. discriminate H.
Qed.

Lemma shouldExcludeFile_iff_witness :
  FileFilter.shouldExcludeFile "assets/image.PNG" = true
  <-> ("image.PNG" = ".DS_Store" \/ "image.PNG" = "Thumbs.db"
       \/ "image.PNG" = "desktop.ini" \/ "image.PNG" = ".localized")
      \/ (exists rest, "image.PNG" = "._" ++ rest)
      \/ JS.toLowerCase ".PNG" ∈ FileFilter.BINARY_EXTENSIONS.
Proof.
  apply (shouldExcludeFile_iff "assets/image.PNG" "image.PNG" ".PNG").
  - split; [reflexivity | right; exists "assets"; reflexivity].
  - right. exists "image", "PNG". repeat split; reflexivity.
Defined.

(** The examples of the specification. *)
Lemma shouldExcludeFile_examples :
  FileFilter.shouldExcludeFile "README.md" = false
  /\ FileFilter.shouldExcludeFile "image.PNG" = true
  /\ FileFilter.shouldExcludeFile "lib.js" = false
  /\ FileFilter.shouldExcludeFile "node_modules/lib.js" = false
  /\ FileFilter.filterCodeFiles path [Samples.file "node_modules/lib.js" "x"] = [].
Proof. vm_compute. repeat split. Qed.

(** ** The statistics aggregator *)

Section StatsFacts.

Variable detectLanguage : string -> string.

Lemma mget_mset_sum {V} (g : V -> Z) k v (m : list (string * V)) :
  fold_right (fun x a => g (snd x) + a) 0 (JS.mset k v m)
  = fold_right (fun x a => g (snd x) + a) 0 m
    - match JS.mget k m with Some old => g old | None => 0 end + g v.
Proof.
  induction m as [|[k' v'] m IH]; simpl; [lia|].
  destruct (String.eqb k' k); simpl; [lia | rewrite IH; lia].
Qed.

Lemma sumLines_map_snd (m : list (string * LanguageFileStats.t)) :
  Spec.sumLines (List.map snd m)
  = fold_right (fun x a => LanguageFileStats.lineCount (snd x) + a) 0 m.
Proof. induction m as [|x m IH]; simpl; [reflexivity | rewrite IH; reflexivity]. Qed.

Lemma statsStep_lines st file :
  Spec.sumLines (List.map snd (ZipUtils.languageStats st)) = ZipUtils.acc_totalLines st ->
  Spec.sumLines
    (List.map snd (ZipUtils.languageStats (ZipUtils.statsStep detectLanguage st file)))
  = ZipUtils.acc_totalLines (ZipUtils.statsStep detectLanguage st file).
Proof.
  intros Hinv. unfold ZipUtils.statsStep.
  destruct (isDirectory file); [exact Hinv|].
  cbn [ZipUtils.languageStats ZipUtils.acc_totalLines].
  destruct (JS.mget (detectLanguage (path file)) (ZipUtils.languageStats st)) eqn:E;
    rewrite sumLines_map_snd, mget_mset_sum, E, <- sumLines_map_snd, Hinv;
    cbn [LanguageFileStats.lineCount]; lia.
Qed.

Lemma fold_statsStep_lines files st :
  Spec.sumLines (List.map snd (ZipUtils.languageStats st)) = ZipUtils.acc_totalLines st ->
  Spec.sumLines
    (List.map snd (ZipUtils.languageStats (fold_left (ZipUtils.statsStep detectLanguage) files st)))
  = ZipUtils.acc_totalLines (fold_left (ZipUtils.statsStep detectLanguage) files st).
Proof.
  revert st. induction files as [|f files IH]; intros st Hinv; simpl; [exact Hinv|].
  apply IH, statsStep_lines, Hinv.
Qed.




Lemma insertByLines_perm x l : Permutation (ZipUtils.insertByLines x l) (x :: l).
Proof.
  induction l as [|y l IH]; simpl; [reflexivity|].
  destruct (LanguageFileStats.lineCount y <=? LanguageFileStats.lineCount x);
    [reflexivity|].
  rewrite IH. apply perm_swap.
Qed.

Lemma sortByLines_perm l : Permutation (ZipUtils.sortByLines l) l.
Proof.
  induction l as [|x l IH]; simpl; [reflexivity|].
  rewrite insertByLines_perm, IH. reflexivity.
Qed.




(** The bound does not depend on how ties are rounded: percentages that each
    lie within one unit of the exact share sum to 100 within the number of
    languages. *)
Lemma sum_near_100_any_rounding T (l : list LanguageFileStats.t) :
  0 < T ->
  Spec.sumLines l = T ->
  List.Forall
    (fun lang =>
       - T < 100 * LanguageFileStats.lineCount lang - T * LanguageFileStats.percentage lang < T)
    l ->
  100 - Z.of_nat (List.length l) <= Spec.sumPercentages l <= 100 + Z.of_nat (List.length l).
Proof.
  intros HT Hsum Hall.
  assert (Hb : l <> [] ->
               - T * Z.of_nat (List.length l)
               < 100 * Spec.sumLines l - T * Spec.sumPercentages l
               < T * Z.of_nat (List.length l)).
  { clear Hsum. induction Hall as [|x l Hx Hl IH]; [congruence|]. intros _.
    cbn [Spec.sumLines Spec.sumPercentages fold_right List.length].
    fold (Spec.sumLines l). fold (Spec.sumPercentages l). rewrite Nat2Z.inj_succ.
    destruct l as [|y l]; [simpl in *; lia|].
    specialize (IH ltac:(discriminate)). lia. }
  destruct l as [|x l]; [simpl in Hsum; lia|].
  specialize (Hb ltac:(discriminate)). rewrite Hsum in Hb.
  set (S := Spec.sumPercentages _) in *. set (k := Z.of_nat _) in *. nia.
Qed.


End StatsFacts.



(** ** The sampler *)

Section SamplerFacts.

Variable detectLanguage : string -> string.

Lemma mget_mset_eq {V} k (v : V) m : JS.mget k (JS.mset k v m) = Some v.
Proof.
  induction m as [|[k' v'] m IH]; simpl.
  - rewrite String.eqb_refl. reflexivity.
  - destruct (String.eqb k' k) eqn:E; simpl; rewrite ?String.eqb_refl, ?E; auto.
Qed.

Lemma mget_mset_ne {V} k k' (v : V) m : k' <> k -> JS.mget k (JS.mset k' v m) = JS.mget k m.
Proof.
  intros Hne. induction m as [|[k2 v2] m IH]; simpl.
  - destruct (String.eqb_spec k' k); [congruence | reflexivity].
  - destruct (String.eqb_spec k2 k') as [-> | Hk2]; simpl.
    + destruct (String.eqb_spec k' k); [congruence | reflexivity].
    + destruct (String.eqb k2 k); [reflexivity | exact IH].
Qed.

Lemma keys_mset {V} k (v : V) m :
  JS.keys (JS.mset k v m)
  = if JS.includes k (JS.keys m) then JS.keys m else (JS.keys m ++ [k])%list.
Proof.
  induction m as [|[k' v'] m IH]; simpl; [reflexivity|].
  rewrite String.eqb_sym.
  destruct (String.eqb_spec k k') as [<- | Hne]; simpl; [reflexivity|].
  rewrite IH. destruct (JS.includes k (JS.keys m)); reflexivity.
Qed.

Lemma includes_spec x arr : JS.includes x arr = true <-> In x arr.
Proof.
  unfold JS.includes. rewrite List.existsb_exists. split.
  - intros [y [Hy E]]. apply String.eqb_eq in E. subst. exact Hy.
  - intros H. exists x. split; [exact H | apply String.eqb_refl].
Qed.


(** The group of a language is the code files of that language, in order. *)
Lemma group_fold k files groups :
  default [] (JS.mget k
    (fold_left
       (fun groups file =>
          if isDirectory file || negb (FileFilter.isCodeFile (path file)) then groups
          else JS.mset (detectLanguage (path file))
                 (default [] (JS.mget (detectLanguage (path file)) groups) ++ [file])%list
                 groups)
       files groups))
  = (default [] (JS.mget k groups)
       ++ List.filter (fun f => Spec.isCode f && Spec.hasLanguage detectLanguage k f) files)%list.
Proof.
  revert groups. induction files as [|f files IH]; intros groups; simpl.
  - rewrite List.app_nil_r. reflexivity.
  - rewrite IH. unfold Spec.isCode, Spec.hasLanguage.
    destruct (isDirectory f); simpl; [reflexivity|].
    destruct (FileFilter.isCodeFile (path f)); simpl; [|reflexivity].
    destruct (String.eqb_spec (detectLanguage (path f)) k) as [-> | Hne].
    + rewrite mget_mset_eq. simpl. rewrite <- List.app_assoc. reflexivity.
    + rewrite mget_mset_ne by assumption. reflexivity.
Qed.

Lemma group_members k files :
  default [] (JS.mget k (Sampling.groupFilesByLanguage detectLanguage files))
  = List.filter (fun f => Spec.isCode f && Spec.hasLanguage detectLanguage k f) files.
Proof. unfold Sampling.groupFilesByLanguage. rewrite group_fold. reflexivity. Qed.

Lemma group_in_files k files f :
  In f (default [] (JS.mget k (Sampling.groupFilesByLanguage detectLanguage files))) ->
  In f files /\ Spec.isCode f = true /\ detectLanguage (path f) = k.
Proof.
  rewrite group_members, List.filter_In, andb_true_iff. unfold Spec.hasLanguage.
  rewrite String.eqb_eq. tauto.
Qed.

(** C2.  When at most [maxFiles] code files remain after the restriction,
    they are all returned, in their order, and nothing is left over; in
    particular an input without code files yields no samples. *)
Theorem small_input_returned_whole files options :
  (Z.of_nat (List.length (Spec.codeFilesOf files)) <= default 1000 (Sampling.maxFiles options) ->
   Sampling.samples (Sampling.sampleCodeFiles detectLanguage files options)
   = Spec.codeFilesOf files
   /\ Sampling.remaining (Sampling.sampleCodeFiles detectLanguage files options) = [])
  /\ (Spec.codeFilesOf files = [] ->
      Sampling.samples (Sampling.sampleCodeFiles detectLanguage files options) = []
      /\ Sampling.remaining (Sampling.sampleCodeFiles detectLanguage files options) = []).
Proof.
  unfold Sampling.sampleCodeFiles. fold (Spec.codeFilesOf files). split.
  - intros Hle. apply Z.leb_le in Hle. rewrite Hle. split; reflexivity.
  - intros ->. change (Z.of_nat (List.length (@nil FileEntry))) with 0.
    destruct (0 <=? default 1000 (Sampling.maxFiles options)); [split; reflexivity|].
    cbn [Sampling.samples Sampling.remaining List.filter].
    split; [|reflexivity].
    unfold Sampling.sampleOverBudget, Sampling.groupFilesByLanguage.
    cbn [fold_left JS.keys List.map List.filter List.length Z.of_nat].
    destruct (default true (Sampling.prioritizeDiversity options)); [|reflexivity].
    assert (Hfold : forall quota langs st,
               fold_left
                 (Sampling.sampleLanguage (default 1000 (Sampling.maxFiles options))
                    (default 100 (Sampling.maxPerLanguage options)) quota []) langs st = st).
    { intros quota langs. induction langs as [|l langs IH]; intros st; simpl; auto. }
    rewrite Hfold. reflexivity.
Qed.

Lemma takeFrom_inv codeFiles maxFiles toSample langFiles :
  (forall f, In f langFiles -> In f codeFiles) ->
  forall i st,
    Spec.SamplerInv codeFiles maxFiles st ->
    Spec.SamplerInv codeFiles maxFiles (Sampling.takeFrom maxFiles toSample i langFiles st).
Proof.
  induction langFiles as [|f rest IH]; intros Hsub i st Hinv; simpl; [exact Hinv|].
  destruct (JS.lt i toSample); simpl; [|exact Hinv].
  destruct (Z.ltb_spec (Z.of_nat (List.length (fst st))) maxFiles) as [Hlt | _]; [|exact Hinv].
  apply IH; [intros g Hg; apply Hsub; right; exact Hg|].
  destruct (JS.has (path f) (snd st)) eqn:Hhas; [exact Hinv|].
  destruct Hinv as (Hin & Hnd & Hrec & Hlen).
  unfold JS.has in Hhas. apply bool_decide_eq_false in Hhas.
  repeat split; cbn [fst snd].
  - intros g Hg. apply List.in_app_or in Hg. destruct Hg as [Hg | [<- | []]].
    + apply Hin, Hg.
    + apply Hsub. left. reflexivity.
  - rewrite List.map_app. apply NoDup_app. split; [exact Hnd|]. split.
    + intros p Hp Hp'. apply list_elem_of_In in Hp, Hp'.
      destruct Hp' as [<- | []]. apply List.in_map_iff in Hp.
      destruct Hp as [g [Hpg Hg]]. apply Hhas. rewrite <- Hpg. apply Hrec, Hg.
    + apply NoDup_singleton.
  - intros g Hg. apply List.in_app_or in Hg. destruct Hg as [Hg | [<- | []]].
    + apply elem_of_union_r, Hrec, Hg.
    + apply elem_of_union_l, elem_of_singleton. reflexivity.
  - rewrite List.length_app. simpl. lia.
Qed.

Lemma sampleLanguage_inv codeFiles maxFiles maxPerLanguage quota st lang :
  Spec.SamplerInv codeFiles maxFiles st ->
  Spec.SamplerInv codeFiles maxFiles
    (Sampling.sampleLanguage maxFiles maxPerLanguage quota
       (Sampling.groupFilesByLanguage detectLanguage codeFiles) st lang).
Proof.
  intros Hinv. unfold Sampling.sampleLanguage. apply takeFrom_inv; [|exact Hinv].
  intros f Hf. apply group_in_files in Hf. tauto.
Qed.

Lemma fold_sampleLanguage_inv codeFiles maxFiles maxPerLanguage quota langs st :
  Spec.SamplerInv codeFiles maxFiles st ->
  Spec.SamplerInv codeFiles maxFiles
    (fold_left
       (Sampling.sampleLanguage maxFiles maxPerLanguage quota
          (Sampling.groupFilesByLanguage detectLanguage codeFiles)) langs st).
Proof.
  revert st. induction langs as [|l langs IH]; intros st Hinv; simpl; [exact Hinv|].
  apply IH, sampleLanguage_inv, Hinv.
Qed.

Lemma truncateTo_inv codeFiles maxFiles rest :
  forall st,
    (forall f, In f (fst st ++ rest)%list -> In f codeFiles) ->
    NoDup (List.map path (fst st ++ rest)%list) ->
    Z.of_nat (List.length (fst st)) <= maxFiles ->
    let res := Sampling.truncateTo maxFiles rest st in
    (forall f, In f (fst res) -> In f codeFiles)
    /\ NoDup (List.map path (fst res))
    /\ Z.of_nat (List.length (fst res)) <= maxFiles.
Proof.
  induction rest as [|file rest IH]; intros st Hin Hnd Hlen; simpl.
  - rewrite List.app_nil_r in Hin, Hnd. auto.
  - destruct (Z.geb_spec (Z.of_nat (List.length (fst st))) maxFiles) as [Hge | Hlt].
    + rewrite List.map_app in Hnd. apply NoDup_app in Hnd.
      repeat split; [|tauto|exact Hlen].
      intros f Hf. apply Hin, List.in_or_app. left. exact Hf.
    + apply IH; cbn [fst snd].
      * rewrite <- List.app_assoc. exact Hin.
      * rewrite <- List.app_assoc. exact Hnd.
      * rewrite List.length_app. simpl. lia.
Qed.

Lemma NoDup_map_filter {A B} (g : A -> B) (p : A -> bool) l :
  NoDup (List.map g l) -> NoDup (List.map g (List.filter p l)).
Proof.
  induction l as [|x l IH]; simpl; [auto|].
  intros Hnd. apply NoDup_cons in Hnd. destruct Hnd as [Hx Hl].
  destruct (p x); simpl; [|auto].
  apply NoDup_cons. split; [|auto].
  intros Hin. apply Hx. apply list_elem_of_In in Hin. apply list_elem_of_In.
  apply List.in_map_iff in Hin. destruct Hin as [y [Hy Hin]].
  apply List.in_map_iff. exists y. split; [exact Hy|].
  apply List.filter_In in Hin. tauto.
Qed.

Lemma sampleOverBudget_inv maxFiles maxPerLanguage prioritizeDiversity priorityLanguages codeFiles :
  0 <= maxFiles ->
  NoDup (List.map path codeFiles) ->
  let st := Sampling.sampleOverBudget detectLanguage maxFiles maxPerLanguage
              prioritizeDiversity priorityLanguages codeFiles in
  (forall f, In f (fst st) -> In f codeFiles)
  /\ NoDup (List.map path (fst st))
  /\ Z.of_nat (List.length (fst st)) <= maxFiles.
Proof.
  intros Hmax Hnd. unfold Sampling.sampleOverBudget.
  assert (Hinit : Spec.SamplerInv codeFiles maxFiles ([], ∅)).
  { repeat split; simpl; [tauto | apply NoDup_nil_2 | tauto | exact Hmax]. }
  destruct prioritizeDiversity.
  - match goal with |- context [fold_left ?step priorityLanguages ?init] =>
      pose proof (fold_sampleLanguage_inv codeFiles maxFiles maxPerLanguage
                    (JS.ceil_div maxFiles
                       (Z.of_nat
                          (List.length
                             (Sampling.groupFilesByLanguage detectLanguage codeFiles))))
                    priorityLanguages _ Hinit) as H1
    end.
    cbv zeta.
    match goal with |- context [if ?c then _ else _] => destruct c end.
    + match goal with |- context [fold_left (Sampling.sampleLanguage _ _ ?q _) ?ls ?s] =>
        pose proof (fold_sampleLanguage_inv codeFiles maxFiles maxPerLanguage q ls s H1) as H2
      end.
      destruct H2 as (? & ? & _ & ?). auto.
    + destruct H1 as (? & ? & _ & ?). auto.
  - apply truncateTo_inv; simpl; auto.
Qed.


Ltac nothing_added :=
  exists []; rewrite List.app_nil_r;
  repeat split; intros; simpl in *; try tauto; try lia.

(** What one language loop appends: files of the group, at most as many as
    the quota still allows. *)
Lemma takeFrom_extends maxFiles toSample langFiles :
  forall i st,
  exists added,
    fst (Sampling.takeFrom maxFiles toSample i langFiles st) = (fst st ++ added)%list
    /\ (forall f, In f added -> In f langFiles)
    /\ (forall z, toSample = JS.Fin z -> Z.of_nat (List.length added) <= Z.max 0 (z - i))
    /\ (toSample = JS.NegInf \/ toSample = JS.NaN -> added = []).
Proof.
  induction langFiles as [|f rest IH]; intros i st; simpl.
  - nothing_added.
  - destruct (JS.lt i toSample) eqn:Hlt; simpl; [|nothing_added].
    destruct (Z.of_nat (List.length (fst st)) <? maxFiles); [|nothing_added].
    destruct (JS.has (path f) (snd st)).
    + destruct (IH (i + 1) st) as (added & Heq & Hin & Hlen & Hinf).
      exists added. repeat split; auto.
      intros z Hz. specialize (Hlen z Hz). lia.
    + destruct (IH (i + 1) ((fst st ++ [f])%list, {[path f]} ∪ snd st))
        as (added & Heq & Hin & Hlen & Hinf).
      exists (f :: added). cbn [fst] in Heq. rewrite Heq, <- List.app_assoc.
      repeat split.
      * intros g [<- | Hg]; [left; reflexivity | right; apply Hin, Hg].
      * intros z Hz. specialize (Hlen z Hz). subst toSample. simpl in Hlt.
        apply Z.ltb_lt in Hlt. cbn [List.length]. lia.
      * intros [-> | ->]; discriminate.
Qed.

Lemma sampleLanguage_extends maxFiles maxPerLanguage quota groups st lang :
  exists added,
    fst (Sampling.sampleLanguage maxFiles maxPerLanguage quota groups st lang)
    = (fst st ++ added)%list
    /\ (forall f, In f added -> In f (default [] (JS.mget lang groups)))
    /\ Z.of_nat (List.length added) <= Z.max 0 maxPerLanguage
    /\ (forall q, quota = JS.Fin q ->
          Z.of_nat (List.length added)
          <= Z.max 0
               (Z.min (Z.of_nat (List.length (default [] (JS.mget lang groups))))
                  (Z.min maxPerLanguage q))).
Proof.
  unfold Sampling.sampleLanguage.
  set (langFiles := default [] (JS.mget lang groups)).
  destruct (takeFrom_extends maxFiles
              (JS.min3 (Z.of_nat (List.length langFiles)) maxPerLanguage quota)
              langFiles 0 st) as (added & Heq & Hin & Hlen & Hinf).
  exists added. split; [exact Heq|]. split; [exact Hin|].
  destruct quota as [q | | |]; simpl in Hlen, Hinf.
  - specialize (Hlen _ eq_refl). split; [lia|]. intros q' [= <-]. lia.
  - specialize (Hlen _ eq_refl). split; [lia | discriminate].
  - rewrite Hinf by auto. simpl. split; [lia | discriminate].
  - rewrite Hinf by auto. simpl. split; [lia | discriminate].
Qed.

Lemma fold_sampleLanguage_extends maxFiles maxPerLanguage quota groups langs :
  forall st,
  exists added,
    fst (fold_left (Sampling.sampleLanguage maxFiles maxPerLanguage quota groups) langs st)
    = (fst st ++ added)%list
    /\ (forall f, In f added ->
          exists k, In k langs /\ In f (default [] (JS.mget k groups)))
    /\ Z.of_nat (List.length added) <= Z.of_nat (List.length langs) * Z.max 0 maxPerLanguage.
Proof.
  induction langs as [|l langs IH]; intros st; simpl fold_left.
  - nothing_added.
  - destruct (sampleLanguage_extends maxFiles maxPerLanguage quota groups st l)
      as (a1 & Heq1 & Hin1 & Hlen1 & _).
    destruct (IH (Sampling.sampleLanguage maxFiles maxPerLanguage quota groups st l))
      as (a2 & Heq2 & Hin2 & Hlen2).
    exists (a1 ++ a2)%list. rewrite Heq2, Heq1, <- List.app_assoc.
    split; [reflexivity|]. split.
    + intros f Hf. apply List.in_app_or in Hf. destruct Hf as [Hf | Hf].
      * exists l. split; [left; reflexivity | apply Hin1, Hf].
      * destruct (Hin2 f Hf) as (k & Hk & Hfk). exists k. split; [right|]; assumption.
    + rewrite List.length_app. cbn [List.length]. lia.
Qed.

Lemma ceil_div_pos a b :
  1 <= a -> 1 <= b -> exists c, JS.ceil_div a b = JS.Fin c /\ 1 <= c.
Proof.
  intros Ha Hb. unfold JS.ceil_div.
  destruct (Z.eqb_spec b 0) as [-> | _]; [lia|].
  eexists. split; [reflexivity|].
  pose proof (Z.div_mod (- a) b ltac:(lia)) as Hdm.
  pose proof (Z.mod_pos_bound (- a) b ltac:(lia)) as Hmod. nia.
Qed.

(** With a quota of at least one and room in the budget, the first file of a
    priority group is the first sample. *)
Lemma sampleLanguage_first maxFiles maxPerLanguage quota groups lang f0 rest z :
  default [] (JS.mget lang groups) = f0 :: rest ->
  JS.min3 (Z.of_nat (List.length (f0 :: rest))) maxPerLanguage quota = JS.Fin z ->
  1 <= z -> 1 <= maxFiles ->
  exists added,
    fst (Sampling.sampleLanguage maxFiles maxPerLanguage quota groups ([], ∅) lang)
    = f0 :: added.
Proof.
  intros Hg Hmin Hz Hmax. unfold Sampling.sampleLanguage. rewrite Hg, Hmin.
  cbn [Sampling.takeFrom JS.lt fst snd List.length]. change (Z.of_nat 0) with 0.
  destruct (Z.ltb_spec 0 z) as [_ | Hbad]; [|lia].
  destruct (Z.ltb_spec 0 maxFiles) as [_ | Hbad]; [|lia].
  cbn [andb]. unfold JS.has.
  rewrite bool_decide_eq_false_2 by apply not_elem_of_empty.
  destruct (takeFrom_extends maxFiles (JS.Fin z) rest (0 + 1)
              (([] ++ [f0])%list, {[path f0]} ∪ ∅)) as (added & Heq & _).
  exists added. rewrite Heq. reflexivity.
Qed.

(** C5, amended.  With diversity on, one priority language [A], a budget of
    at least one file and a per-language cap of at least one file, an input
    that holds a code file of language [A] yields a sample of language [A]. *)
Theorem priority_language_represented files options A f :
  default true (Sampling.prioritizeDiversity options) = true ->
  Sampling.priorityLanguages options = Some [A] ->
  1 <= default 1000 (Sampling.maxFiles options) ->
  1 <= default 100 (Sampling.maxPerLanguage options) ->
  In f files -> isDirectory f = false -> FileFilter.isCodeFile (path f) = true ->
  detectLanguage (path f) = A ->
  exists g,
    In g (Sampling.samples (Sampling.sampleCodeFiles detectLanguage files options))
    /\ detectLanguage (path g) = A.
Proof.
  intros Hdiv Hprio Hmax Hcap Hin Hdir Hcode Hlang.
  assert (Hfc : In f (Spec.codeFilesOf files)).
  { apply List.filter_In. rewrite Hdir, Hcode. auto. }
  unfold Sampling.sampleCodeFiles. fold (Spec.codeFilesOf files).
  destruct (Z.of_nat (List.length (Spec.codeFilesOf files))
            <=? default 1000 (Sampling.maxFiles options)); cbn [Sampling.samples].
  { exists f. auto. }
  rewrite Hdiv, Hprio. change (default [] (Some [A])) with [A].
  unfold Sampling.sampleOverBudget.
  set (G := Sampling.groupFilesByLanguage detectLanguage (Spec.codeFilesOf files)).
  cbn [fold_left].
  assert (HfA : In f (default [] (JS.mget A G))).
  { subst G. rewrite group_members. apply List.filter_In. split; [exact Hfc|].
    unfold Spec.isCode, Spec.hasLanguage.
    rewrite Hdir, Hcode, Hlang, String.eqb_refl. reflexivity. }
  destruct (default [] (JS.mget A G)) as [|f0 rest] eqn:HgA; [destruct HfA|].
  assert (Hf0 : detectLanguage (path f0) = A).
  { assert (H0 : In f0 (default [] (JS.mget A G))) by (rewrite HgA; left; reflexivity).
    subst G. apply group_in_files in H0. tauto. }
  assert (Hsize : 1 <= Z.of_nat (List.length G)).
  { destruct G; [discriminate HgA | simpl; lia]. }
  destruct (ceil_div_pos _ _ Hmax Hsize) as (c & Hc & Hc1).
  destruct (sampleLanguage_first (default 1000 (Sampling.maxFiles options))
              (default 100 (Sampling.maxPerLanguage options))
              (JS.ceil_div (default 1000 (Sampling.maxFiles options)) (Z.of_nat (List.length G)))
              G A f0 rest
              (Z.min (Z.of_nat (List.length (f0 :: rest)))
                 (Z.min (default 100 (Sampling.maxPerLanguage options)) c)))
    as (added & Hst1); try assumption.
  { rewrite Hc. reflexivity. }
  { cbn [List.length]. lia. }
  exists f0. split; [|exact Hf0].
  match goal with |- context [if ?cond then _ else _] => destruct cond end.
  - match goal with |- context [fold_left ?step ?ls ?s] =>
      destruct (fold_sampleLanguage_extends (default 1000 (Sampling.maxFiles options))
                  (default 100 (Sampling.maxPerLanguage options))
                  (JS.ceil_div
                     (default 1000 (Sampling.maxFiles options)
                      - Z.of_nat (List.length (fst s)))
                     (Z.of_nat (List.length ls))) G ls s) as (a2 & Heq2 & _)
    end.
    rewrite Heq2, Hst1. left. reflexivity.
  - rewrite Hst1. left. reflexivity.
Qed.

(** The keys of the grouping are the languages of the code files, each once. *)
Lemma group_keys files :
  forall groups : list (string * list FileEntry),
    NoDup (JS.keys groups) ->
    let G :=
      fold_left
        (fun groups file =>
           if isDirectory file || negb (FileFilter.isCodeFile (path file)) then groups
           else JS.mset (detectLanguage (path file))
                  (default [] (JS.mget (detectLanguage (path file)) groups) ++ [file])%list
                  groups)
        files groups in
    NoDup (JS.keys G)
    /\ forall k, In k (JS.keys G)
         <-> In k (JS.keys groups)
             \/ exists f, In f files /\ Spec.isCode f = true /\ detectLanguage (path f) = k.
Proof.
  induction files as [|f files IH]; intros groups Hnd; simpl.
  - split; [exact Hnd|]. intros k. split; [auto | intros [H | (f & [] & _)]; exact H].
  - unfold Spec.isCode. destruct (isDirectory f) eqn:Hdir; simpl.
    { destruct (IH groups Hnd) as [Hn Hk]. split; [exact Hn|]. intros k. rewrite Hk.
      split; [intros [H | (g & Hg & Hc & Hl)]; [auto | right; exists g; auto]|].
      intros [H | (g & [<- | Hg] & Hc & Hl)]; [auto | | right; exists g; auto].
      rewrite Hdir in Hc. discriminate. }
    destruct (FileFilter.isCodeFile (path f)) eqn:Hcode; simpl.
    2:{ destruct (IH groups Hnd) as [Hn Hk]. split; [exact Hn|]. intros k. rewrite Hk.
        split; [intros [H | (g & Hg & Hc & Hl)]; [auto | right; exists g; auto]|].
        intros [H | (g & [<- | Hg] & Hc & Hl)]; [auto | | right; exists g; auto].
        rewrite Hcode in Hc. rewrite andb_false_r in Hc. discriminate. }
    match goal with |- context [fold_left _ files ?g'] =>
      assert (Hkeys : JS.keys g'
                      = if JS.includes (detectLanguage (path f)) (JS.keys groups)
                        then JS.keys groups
                        else (JS.keys groups ++ [detectLanguage (path f)])%list)
        by apply keys_mset;
      assert (Hnd' : NoDup (JS.keys g'))
    end.
    { rewrite Hkeys.
      destruct (JS.includes (detectLanguage (path f)) (JS.keys groups)) eqn:Hinc;
        [exact Hnd|].
      apply NoDup_app. split; [exact Hnd|]. split; [|apply NoDup_singleton].
      intros x Hx Hx'. apply list_elem_of_In in Hx, Hx'. destruct Hx' as [<- | []].
      apply includes_spec in Hx. congruence. }
    destruct (IH _ Hnd') as [Hn Hk]. split; [exact Hn|]. intros k. rewrite Hk, Hkeys.
    destruct (JS.includes (detectLanguage (path f)) (JS.keys groups)) eqn:Hinc.
    + apply includes_spec in Hinc.
      split; [intros [H | (g & Hg & Hc & Hl)]; [auto | right; exists g; auto]|].
      intros [H | (g & [<- | Hg] & Hc & Hl)]; [auto | subst k; auto | right; exists g; auto].
    + rewrite List.in_app_iff. simpl.
      split.
      * intros [[H | [<- | []]] | (g & Hg & Hc & Hl)]; [auto | | right; exists g; auto].
        right. exists f. rewrite Hdir, Hcode. auto.
      * intros [H | (g & [<- | Hg] & Hc & Hl)]; [auto | subst k; auto | right; exists g; auto].
Qed.




Lemma countLanguage_none A l :
  (forall f, In f l -> detectLanguage (path f) <> A) ->
  Spec.countLanguage detectLanguage A l = 0.
Proof.
  intros Hall. unfold Spec.countLanguage.
  induction l as [|f l IH]; [reflexivity|].
  cbn [List.filter]. unfold Spec.hasLanguage at 1.
  destruct (String.eqb_spec (detectLanguage (path f)) A) as [E | _].
  - exfalso. apply (Hall f); [left; reflexivity | exact E].
  - apply IH. intros g Hg. apply Hall. right. exact Hg.
Qed.






End SamplerFacts.

(** ** The sample repository of 10,000 files *)

Section SampleFacts.










End SampleFacts.



Lemma small_input_returned_whole_witness :
  let options :=
    {| Sampling.maxFiles := None; Sampling.maxPerLanguage := None;
       Sampling.prioritizeDiversity := None; Sampling.priorityLanguages := None |} in
  Sampling.samples
    (Sampling.sampleCodeFiles LanguageUtils.detectLanguage Samples.smallRepo options)
  = Spec.codeFilesOf Samples.smallRepo
  /\ Sampling.remaining
       (Sampling.sampleCodeFiles LanguageUtils.detectLanguage Samples.smallRepo options)
     = [].
Proof.
  apply (proj1 (small_input_returned_whole LanguageUtils.detectLanguage Samples.smallRepo
                  {| Sampling.maxFiles := None; Sampling.maxPerLanguage := None;
                     Sampling.prioritizeDiversity := None;
                     Sampling.priorityLanguages := None |})).
  vm_compute. discriminate.
Defined.


(** C5 as stated fails when the per-language cap is 0: nothing is taken from
    the priority language, and the second pass skips it. *)
Lemma priority_language_cap_zero_counterexample :
  let files := [Samples.file "a.py" "x"; Samples.file "b.py" "y"] in
  let options :=
    {| Sampling.maxFiles := Some 1; Sampling.maxPerLanguage := Some 0;
       Sampling.prioritizeDiversity := Some true;
       Sampling.priorityLanguages := Some ["Python"] |} in
  In (Samples.file "a.py" "x") files
  /\ isDirectory (Samples.file "a.py" "x") = false
  /\ FileFilter.isCodeFile "a.py" = true
  /\ LanguageUtils.detectLanguage "a.py" = "Python"
  /\ Sampling.samples (Sampling.sampleCodeFiles LanguageUtils.detectLanguage files options)
     = [].
Proof. split; [left; reflexivity|]. vm_compute. repeat split. Qed.

Lemma priority_language_represented_witness :
  exists g,
    In g (Sampling.samples
            (Sampling.sampleCodeFiles LanguageUtils.detectLanguage Samples.smallRepo
               {| Sampling.maxFiles := Some 2; Sampling.maxPerLanguage := None;
                  Sampling.prioritizeDiversity := Some true;
                  Sampling.priorityLanguages := Some ["TypeScript"] |}))
    /\ LanguageUtils.detectLanguage (path g) = "TypeScript".
Proof.
  apply (priority_language_represented LanguageUtils.detectLanguage Samples.smallRepo
           {| Sampling.maxFiles := Some 2; Sampling.maxPerLanguage := None;
              Sampling.prioritizeDiversity := Some true;
              Sampling.priorityLanguages := Some ["TypeScript"] |}
           "TypeScript" (Samples.file "b/c.ts" "let c")).
  - reflexivity.
  - reflexivity.
  - vm_compute. discriminate.
  - vm_compute. discriminate.
  - right. right. left. reflexivity.
  - reflexivity.
  - vm_compute. reflexivity.
  - vm_compute. reflexivity.
Defined.

(** * Further properties of the pipeline *)

(** ** Paths and the exclusion filter *)

Section PathFacts.

Lemma join_split sep s : JS.join (String sep EmptyString) (JS.split sep s) = s.
Proof.
  induction s as [|c s IH]; [reflexivity|]. simpl.
  pose proof (split_nonempty sep s) as Hne.
  destruct (Ascii.eqb_spec c sep) as [-> | Hc].
  - destruct (JS.split sep s) as [|seg rest]; [congruence|].
    change (JS.join (String sep EmptyString) (EmptyString :: seg :: rest))
      with (String sep (JS.join (String sep EmptyString) (seg :: rest))).
    rewrite IH. reflexivity.
  - destruct (JS.split sep s) as [|seg rest]; [congruence|].
    rewrite <- IH. destruct rest; reflexivity.
Qed.

Lemma split_segments sep s :
  List.Forall (fun seg => Spec.occurs sep seg = false) (JS.split sep s).
Proof.
  induction s as [|c s IH]; simpl; [repeat constructor|].
  destruct (Ascii.eqb c sep) eqn:E; [constructor; [reflexivity | exact IH]|].
  destruct (JS.split sep s) as [|seg rest]; [repeat constructor; simpl; rewrite E; reflexivity|].
  inversion IH as [|? ? Hseg Hrest]; subst.
  constructor; [simpl; rewrite E; exact Hseg | exact Hrest].
Qed.

Lemma join_app_cons sep l1 d l2 :
  l2 <> [] ->
  JS.join (String sep EmptyString) (l1 ++ d :: l2)
  = (match l1 with
     | [] => EmptyString
     | _ => JS.join (String sep EmptyString) l1 ++ String sep EmptyString
     end) ++ d ++ String sep (JS.join (String sep EmptyString) l2).
Proof.
  intros Hl2. induction l1 as [|x l1 IH].
  - destruct l2; [congruence | reflexivity].
  - change ((x :: l1) ++ d :: l2)%list with (x :: (l1 ++ d :: l2))%list.
    destruct l1 as [|y l1].
    + change (JS.join (String sep EmptyString) (x :: ([] ++ d :: l2)))
        with (x ++ String sep (JS.join (String sep EmptyString) ([] ++ d :: l2))).
      rewrite IH. cbn [JS.join]. rewrite string_app_assoc. reflexivity.
    + change (JS.join (String sep EmptyString) (x :: ((y :: l1) ++ d :: l2)))
        with (x ++ String sep (JS.join (String sep EmptyString) ((y :: l1) ++ d :: l2))).
      rewrite IH.
      change (JS.join (String sep EmptyString) (x :: y :: l1))
        with (x ++ String sep (JS.join (String sep EmptyString) (y :: l1))).
      rewrite !string_app_assoc. reflexivity.
Qed.

Lemma anyDirExcluded_iff parts :
  FileFilter.anyDirExcluded parts = true
  <-> exists l1 d l2,
        parts = (l1 ++ d :: l2)%list /\ l2 <> []
        /\ d ∈ FileFilter.EXCLUDED_DIR_PATTERNS.
Proof.
  induction parts as [|x parts IH]; simpl.
  - split; [discriminate | intros (l1 & d & l2 & H & _); destruct l1; discriminate].
  - destruct parts as [|y parts].
    + split; [discriminate|].
      intros (l1 & d & l2 & H & Hne & _). destruct l1 as [|a l1]; injection H as _ H.
      * congruence.
      * destruct l1; discriminate.
    + unfold FileFilter.shouldExcludeDir. destruct (JS.has x _) eqn:Hx.
      * split; [intros _|reflexivity].
        exists [], x, (y :: parts). split; [reflexivity|]. split; [discriminate|].
        apply has_spec, Hx.
      * rewrite IH. split.
        -- intros (l1 & d & l2 & H & Hne & Hd). exists (x :: l1), d, l2.
           rewrite H. auto.
        -- intros (l1 & d & l2 & H & Hne & Hd). destruct l1 as [|a l1].
           ++ injection H as -> _. apply has_spec in Hd. congruence.
           ++ injection H as _ H. exists l1, d, l2. auto.
Qed.

(** X1.  A path is excluded by directory exactly when one of its segments
    before the final one is a blocklisted directory name. *)
Theorem shouldExcludePath_iff path :
  FileFilter.shouldExcludePath path = true
  <-> exists d, d ∈ FileFilter.EXCLUDED_DIR_PATTERNS /\ Spec.DirSegment path d.
Proof.
  unfold FileFilter.shouldExcludePath. rewrite anyDirExcluded_iff. split.
  - intros (l1 & d & l2 & Hsplit & Hne & Hd). exists d. split; [exact Hd|].
    pose proof (split_segments "/" path) as Hseg. rewrite Hsplit in Hseg.
    apply List.Forall_app in Hseg. destruct Hseg as [_ Hseg].
    inversion Hseg as [|? ? Hdseg _]; subst. split; [exact Hdseg|].
    pose proof (join_split "/" path) as Hjoin. rewrite Hsplit, join_app_cons in Hjoin by exact Hne.
    eexists _, _. split; [symmetry; exact Hjoin|].
    destruct l1; [left; reflexivity | right; eexists; reflexivity].
  - intros (d & Hd & Hseg & pre & rest & -> & Hpre).
    pose proof (split_nonempty "/" rest) as Hrest.
    destruct Hpre as [-> | [pre' ->]].
    + exists [], d, (JS.split "/" rest). split; [|auto].
      change (EmptyString ++ d ++ String "/" rest) with (d ++ String "/" rest).
      rewrite split_app_sep, (split_no_sep _ _ Hseg). reflexivity.
    + exists (JS.split "/" pre'), d, (JS.split "/" rest). split; [|auto].
      rewrite string_app_assoc.
      change (String "/" EmptyString ++ d ++ String "/" rest)
        with (String "/" (d ++ String "/" rest)).
      rewrite !split_app_sep, (split_no_sep _ _ Hseg). reflexivity.
Qed.

End PathFacts.

Section CodeFileFacts.

Lemma last_occurrence c s :
  Spec.occurs c s = true ->
  exists a suf, s = a ++ String c suf /\ Spec.occurs c suf = false.
Proof.
  induction s as [|d s IH]; simpl; [discriminate|].
  destruct (Spec.occurs c s) eqn:Hs.
  - intros _. destruct (IH eq_refl) as (a & suf & -> & Hsuf).
    exists (String d a), suf. split; [reflexivity | exact Hsuf].
  - destruct (Ascii.eqb_spec d c) as [-> | _]; [|discriminate].
    intros _. exists EmptyString, s. split; [reflexivity | exact Hs].
Qed.

Lemma toLowerUnit_slash c : Ascii.eqb (JS.toLowerUnit c) "/" = Ascii.eqb c "/".
Proof. destruct c as [[] [] [] [] [] [] [] []]; reflexivity. Qed.

Lemma toLowerCase_slash s : Spec.occurs "/" (JS.toLowerCase s) = Spec.occurs "/" s.
Proof.
  induction s as [|c s IH]; simpl; [reflexivity|].
  rewrite toLowerUnit_slash, IH. reflexivity.
Qed.

Lemma has_list_to_set x (l : list string) : JS.has x (list_to_set l) = JS.includes x l.
Proof.
  apply eq_true_iff_eq. rewrite has_spec, elem_of_list_to_set, list_elem_of_In, includes_spec.
  reflexivity.
Qed.

Lemma code_extension_facts e :
  e ∈ FileFilter.CODE_FILE_EXTENSIONS ->
  Spec.occurs "/" e = false /\ e <> EmptyString
  /\ JS.has e FileFilter.BINARY_EXTENSIONS = false.
Proof.
  unfold FileFilter.CODE_FILE_EXTENSIONS, FileFilter.BINARY_EXTENSIONS.
  rewrite elem_of_list_to_set, list_elem_of_In, has_list_to_set. intros H.
  match goal with
  | H : In e ?code |- context [JS.includes e ?binary] =>
      assert (Hall : List.forallb
                       (fun x => negb (Spec.occurs "/" x) && negb (String.eqb x EmptyString)
                                 && negb (JS.includes x binary))
                       code = true) by (vm_compute; reflexivity)
  end.
  pose proof (proj1 (List.forallb_forall _ _) Hall e H) as He. cbv beta in He.
  rewrite !andb_true_iff, !negb_true_iff in He. destruct He as [[Hs Hn] Hb].
  split; [exact Hs|]. split; [|exact Hb].
  intros ->. discriminate Hn.
Qed.

Lemma no_extension_not_code : FileFilter.isCodeFile EmptyString = false.
Proof. vm_compute. reflexivity. Qed.

Lemma isCodeFile_final_segment path seg :
  Spec.FinalSegment path seg -> FileFilter.isCodeFile path = FileFilter.isCodeFile seg.
Proof.
  intros [Hseg [-> | [pre ->]]]; [reflexivity|].
  unfold FileFilter.isCodeFile.
  destruct (Spec.occurs "." seg) eqn:Hdot.
  - destruct (last_occurrence _ _ Hdot) as (a & suf & -> & Hsuf).
    rewrite (getFileExtension_spec (a ++ String "." suf) (String "." suf))
      by (right; exists a, suf; auto).
    rewrite (getFileExtension_spec (pre ++ String "/" (a ++ String "." suf)) (String "." suf));
      [reflexivity|].
    right. exists (pre ++ String "/" a), suf. split; [|auto].
    rewrite string_app_assoc. reflexivity.
  - rewrite (getFileExtension_spec seg EmptyString) by (left; auto).
    destruct (Spec.occurs "." pre) eqn:Hpre.
    + destruct (last_occurrence _ _ Hpre) as (a & b & -> & Hb).
      rewrite (getFileExtension_spec ((a ++ String "." b) ++ String "/" seg)
                 (String "." (b ++ String "/" seg))).
      * destruct (JS.has (JS.toLowerCase (String "." (b ++ String "/" seg))) _) eqn:Hhas;
          [|symmetry; exact no_extension_not_code].
        apply has_spec, code_extension_facts in Hhas. destruct Hhas as [Hslash _].
        rewrite toLowerCase_slash in Hslash. simpl in Hslash.
        rewrite occurs_app in Hslash. simpl in Hslash.
        rewrite orb_true_r in Hslash. discriminate.
      * right. exists a, (b ++ String "/" seg). split; [|split; [|reflexivity]].
        -- rewrite string_app_assoc. reflexivity.
        -- rewrite occurs_app, Hb. simpl. exact Hdot.
    + rewrite (getFileExtension_spec (pre ++ String "/" seg) EmptyString); [reflexivity|].
      left. split; [|reflexivity]. rewrite occurs_app, Hpre. simpl. exact Hdot.
Qed.

(** X2.  [isCodeFile] gives the same answer on a full path and on its file
    name: a dot in a directory name never makes a code file. *)
Theorem isCodeFile_path_or_name path seg :
  Spec.FinalSegment path seg ->
  FileFilter.isCodeFile path = FileFilter.isCodeFile seg.
Proof. apply isCodeFile_final_segment. Qed.

(** X3.  No extension is both a code extension and a binary one, and no junk
    file name has a code extension: a code file is excluded by the file rule
    exactly when its name begins with the resource-fork prefix '._'. *)
Theorem code_file_excluded_iff_resource_fork path seg :
  Spec.FinalSegment path seg ->
  FileFilter.isCodeFile path = true ->
  FileFilter.shouldExcludeFile path = true <-> exists rest, seg = "._" ++ rest.
Proof.
  intros Hfinal Hcode. rewrite (isCodeFile_final_segment _ _ Hfinal) in Hcode.
  unfold FileFilter.shouldExcludeFile. rewrite (pop_split_final _ _ Hfinal).
  destruct seg as [|c seg]; [rewrite no_extension_not_code in Hcode; discriminate|].
  set (fn := String c seg) in *.
  rewrite <- startsWith_resource_fork.
  destruct (JS.has fn FileFilter.EXCLUDED_FILES) eqn:Hjunk.
  - exfalso. apply has_spec, junk_names in Hjunk.
    destruct Hjunk as [E | [E | [E | E]]]; rewrite E in Hcode;
      vm_compute in Hcode; discriminate.
  - destruct (JS.startsWith "._" fn); [tauto|].
    unfold FileFilter.isCodeFile in Hcode. apply has_spec, code_extension_facts in Hcode.
    destruct Hcode as (_ & _ & ->). split; discriminate.
Qed.

End CodeFileFacts.

Lemma isCodeFile_path_or_name_witness :
  FileFilter.isCodeFile "pkg.go/src/LICENSE" = FileFilter.isCodeFile "LICENSE".
Proof.
  apply (isCodeFile_path_or_name "pkg.go/src/LICENSE" "LICENSE").
  split; [reflexivity | right; exists "pkg.go/src"; reflexivity].
Defined.

Lemma code_file_excluded_iff_resource_fork_witness :
  FileFilter.shouldExcludeFile "lib/._util.py" = true <-> exists rest, "._util.py" = "._" ++ rest.
Proof.
  apply (code_file_excluded_iff_resource_fork "lib/._util.py" "._util.py").
  - split; [reflexivity | right; exists "lib"; reflexivity].
  - vm_compute. reflexivity.
Defined.

(** ** Maps in insertion order, and tallies keyed by language *)

Section MapFacts.

Lemma mget_in_nodup {V} k (v : V) m :
  NoDup (JS.keys m) -> In (k, v) m -> JS.mget k m = Some v.
Proof.
  induction m as [|[k' v'] m IH]; simpl; [tauto|].
  intros Hnd Hin. apply NoDup_cons in Hnd. destruct Hnd as [Hk' Hnd].
  destruct Hin as [[= -> ->] | Hin]; [rewrite String.eqb_refl; reflexivity|].
  destruct (String.eqb_spec k' k) as [-> | _]; [|apply IH; assumption].
  exfalso. apply Hk', list_elem_of_In. unfold JS.keys.
  apply (List.in_map fst _ _ Hin).
Qed.

Lemma mget_some_in {V} k (v : V) m : JS.mget k m = Some v -> In k (JS.keys m).
Proof.
  induction m as [|[k' v'] m IH]; simpl; [discriminate|].
  destruct (String.eqb_spec k' k) as [-> | _]; [auto|]. intros H. right. apply IH, H.
Qed.

Lemma tally_fold {A} (key : A -> string) (w : A -> Z) (l : list A) :
  forall (m : gmap string Z) k,
    let res :=
      fold_left (fun d x => <[key x := default 0 (d !! key x) + w x]> d) l m in
    default 0 (res !! k) = default 0 (m !! k) + Spec.tally key w k l
    /\ (res !! k = None <-> m !! k = None /\ forall x, In x l -> key x <> k).
Proof.
  induction l as [|x l IH]; intros m k.
  - simpl. split; [lia | tauto].
  - cbn [fold_left]. cbv zeta.
    destruct (IH (<[key x := default 0 (m !! key x) + w x]> m) k) as [Hval Hnone].
    change (Spec.tally key w k (x :: l))
      with ((if String.eqb (key x) k then w x else 0) + Spec.tally key w k l).
    split.
    + rewrite Hval. destruct (String.eqb_spec (key x) k) as [E | Hne].
      * rewrite E, lookup_insert_eq. cbn [default from_option id]. lia.
      * rewrite lookup_insert_ne by exact Hne. lia.
    + rewrite Hnone. destruct (String.eqb_spec (key x) k) as [E | Hne].
      * rewrite E, lookup_insert_eq. split; [intros [Hbad _]; discriminate Hbad | intros [_ H]].
        exfalso. apply (H x); [left; reflexivity | exact E].
      * rewrite lookup_insert_ne by exact Hne. split.
        -- intros [Hm H]. split; [exact Hm|]. intros y Hy. simpl in Hy.
           destruct Hy as [<- | Hy]; [exact Hne | apply H, Hy].
        -- intros [Hm H]. split; [exact Hm|]. intros y Hy. apply H. right. exact Hy.
Qed.

End MapFacts.

(** ** The sampler: grouping, partition, truncation, caps, statistics *)

Section SamplerMore.

Variable detectLanguage : string -> string.

(** X4.  The grouping has each language once, no empty group, and the group
    of a language is the code files of that language in their input order. *)
Theorem groups_are_languages files :
  let G := Sampling.groupFilesByLanguage detectLanguage files in
  NoDup (JS.keys G)
  /\ (forall k g, In (k, g) G ->
        g <> []
        /\ g = List.filter
                 (fun f => Spec.isCode f && Spec.hasLanguage detectLanguage k f) files)
  /\ (forall f, In f files -> Spec.isCode f = true ->
        In f (default [] (JS.mget (detectLanguage (path f)) G))).
Proof.
  intros G. subst G.
  destruct (group_keys detectLanguage files [] (NoDup_nil_2 (A:=string))) as [Hnd Hk].
  fold (Sampling.groupFilesByLanguage detectLanguage files) in Hnd, Hk.
  split; [exact Hnd|]. split.
  - intros k g Hin. pose proof (mget_in_nodup _ _ _ Hnd Hin) as Hget.
    pose proof (group_members detectLanguage k files) as Hmem.
    rewrite Hget in Hmem. cbn [default from_option id] in Hmem. split; [|exact Hmem].
    assert (Hkey : In k (JS.keys (Sampling.groupFilesByLanguage detectLanguage files)))
      by (eapply mget_some_in; exact Hget).
    apply Hk in Hkey. destruct Hkey as [[] | (f & Hf & Hc & Hl)].
    intros ->. symmetry in Hmem.
    assert (Hff : In f []).
    { rewrite <- Hmem. apply List.filter_In. split; [exact Hf|].
      unfold Spec.hasLanguage. rewrite Hc, Hl, String.eqb_refl. reflexivity. }
    exact Hff.
  - intros f Hf Hc. rewrite group_members. apply List.filter_In. split; [exact Hf|].
    unfold Spec.hasLanguage. rewrite Hc, String.eqb_refl. reflexivity.
Qed.

(** The two accumulators agree: no path is sampled twice and the recorded
    paths are the paths of the samples. *)
Lemma takeFrom_tracked maxFiles toSample langFiles :
  forall i st,
    NoDup (List.map path (fst st)) ->
    (forall p, p ∈ snd st <-> In p (List.map path (fst st))) ->
    let res := Sampling.takeFrom maxFiles toSample i langFiles st in
    NoDup (List.map path (fst res))
    /\ (forall p, p ∈ snd res <-> In p (List.map path (fst res))).
Proof.
  induction langFiles as [|f rest IH]; intros i st Hnd Hrec; simpl; [auto|].
  destruct (JS.lt i toSample && _); [|auto].
  destruct (JS.has (path f) (snd st)) eqn:Hhas; [apply IH; assumption|].
  unfold JS.has in Hhas. apply bool_decide_eq_false in Hhas.
  apply IH; cbn [fst snd].
  - rewrite List.map_app. apply NoDup_app. split; [exact Hnd|]. split.
    + intros p Hp Hp'. apply list_elem_of_In in Hp, Hp'. destruct Hp' as [<- | []].
      apply Hhas, Hrec, Hp.
    + apply NoDup_singleton.
  - intros p. rewrite List.map_app, List.in_app_iff, elem_of_union, elem_of_singleton, Hrec.
    simpl. intuition congruence.
Qed.

Lemma fold_sampleLanguage_tracked maxFiles maxPerLanguage quota groups langs :
  forall st,
    NoDup (List.map path (fst st)) ->
    (forall p, p ∈ snd st <-> In p (List.map path (fst st))) ->
    let res :=
      fold_left (Sampling.sampleLanguage maxFiles maxPerLanguage quota groups) langs st in
    NoDup (List.map path (fst res))
    /\ (forall p, p ∈ snd res <-> In p (List.map path (fst res))).
Proof.
  induction langs as [|l langs IH]; intros st Hnd Hrec; simpl; [auto|].
  unfold Sampling.sampleLanguage at 2.
  match goal with |- context [Sampling.takeFrom ?m ?t ?i ?g st] =>
    destruct (takeFrom_tracked m t g i st Hnd Hrec) as [Hnd' Hrec']
  end.
  apply IH; assumption.
Qed.

Lemma truncateTo_firstn maxFiles rest :
  forall st,
    fst (Sampling.truncateTo maxFiles rest st)
    = (fst st
         ++ List.firstn (Z.to_nat (maxFiles - Z.of_nat (List.length (fst st)))) rest)%list
    /\ forall p,
         p ∈ snd (Sampling.truncateTo maxFiles rest st)
         <-> p ∈ snd st
             \/ In p (List.map path
                        (List.firstn (Z.to_nat (maxFiles - Z.of_nat (List.length (fst st))))
                           rest)).
Proof.
  induction rest as [|file rest IH]; intros st; simpl.
  - rewrite List.firstn_nil, List.app_nil_r. split; [reflexivity|]. simpl. tauto.
  - destruct (Z.geb_spec (Z.of_nat (List.length (fst st))) maxFiles) as [Hge | Hlt].
    + replace (Z.to_nat (maxFiles - Z.of_nat (List.length (fst st)))) with O by lia.
      simpl. rewrite List.app_nil_r. split; [reflexivity | tauto].
    + destruct (IH ((fst st ++ [file])%list, {[path file]} ∪ snd st)) as [Hfst Hsnd].
      cbn [fst snd] in Hfst, Hsnd. rewrite List.length_app in Hfst, Hsnd. simpl in Hfst, Hsnd.
      replace (Z.to_nat (maxFiles - Z.of_nat (List.length (fst st))))
        with (S (Z.to_nat (maxFiles - Z.of_nat (List.length (fst st) + 1)))) by lia.
      split.
      * rewrite Hfst, <- List.app_assoc. reflexivity.
      * intros p. rewrite Hsnd, elem_of_union, elem_of_singleton. simpl. intuition congruence.
Qed.

Lemma firstn_incl {A} n (l : list A) x : In x (List.firstn n l) -> In x l.
Proof.
  revert n. induction l as [|y l IH]; intros [|n]; simpl; try tauto.
  intros [-> | H]; [auto | right; eapply IH, H].
Qed.

Lemma filter_none {A} (p : A -> bool) l :
  (forall x, In x l -> p x = false) -> List.filter p l = [].
Proof.
  induction l as [|x l IH]; intros Hall; simpl; [reflexivity|].
  rewrite (Hall x (or_introl eq_refl)). apply IH. intros y Hy. apply Hall. right. exact Hy.
Qed.

Lemma NoDup_map_firstn {A B} (g : A -> B) n (l : list A) :
  NoDup (List.map g l) -> NoDup (List.map g (List.firstn n l)).
Proof.
  revert n. induction l as [|x l IH]; intros [|n] Hnd; simpl; try apply NoDup_nil_2.
  apply NoDup_cons in Hnd. destruct Hnd as [Hx Hl]. apply NoDup_cons. split; [|auto].
  intros Hin. apply Hx. apply list_elem_of_In in Hin. apply list_elem_of_In.
  apply List.in_map_iff in Hin. destruct Hin as (y & Hy & Hin).
  apply List.in_map_iff. exists y. split; [exact Hy | eapply firstn_incl; exact Hin].
Qed.

Lemma NoDup_map_inj_in {A B} (g : A -> B) (l : list A) a b :
  NoDup (List.map g l) -> In a l -> In b l -> g a = g b -> a = b.
Proof.
  induction l as [|x l IH]; simpl; [tauto|].
  intros Hnd Ha Hb E. apply NoDup_cons in Hnd. destruct Hnd as [Hx Hl].
  destruct Ha as [-> | Ha], Hb as [-> | Hb]; auto.
  - exfalso. apply Hx, list_elem_of_In. rewrite E. apply List.in_map, Hb.
  - exfalso. apply Hx, list_elem_of_In. rewrite <- E. apply List.in_map, Ha.
Qed.

Lemma NoDup_of_map {A B} (g : A -> B) (l : list A) : NoDup (List.map g l) -> NoDup l.
Proof.
  induction l as [|x l IH]; simpl; intros Hnd; [apply NoDup_nil_2|].
  apply NoDup_cons in Hnd. destruct Hnd as [Hx Hl]. apply NoDup_cons. split; [|auto].
  intros Hin. apply Hx. apply list_elem_of_In in Hin. apply list_elem_of_In.
  apply List.in_map, Hin.
Qed.

(** What the part of [sampleCodeFiles] after the early return keeps, whatever
    the budget: samples are code files, no path twice, every path recorded. *)
Lemma sampleOverBudget_tracked maxFiles maxPerLanguage prioritizeDiversity priorityLanguages
    codeFiles :
  NoDup (List.map path codeFiles) ->
  let st := Sampling.sampleOverBudget detectLanguage maxFiles maxPerLanguage
              prioritizeDiversity priorityLanguages codeFiles in
  (forall f, In f (fst st) -> In f codeFiles)
  /\ NoDup (List.map path (fst st))
  /\ (forall p, p ∈ snd st <-> In p (List.map path (fst st))).
Proof.
  intros Hnd. unfold Sampling.sampleOverBudget.
  set (G := Sampling.groupFilesByLanguage detectLanguage codeFiles).
  assert (Hgroup : forall k f, In f (default [] (JS.mget k G)) -> In f codeFiles).
  { intros k f Hf. subst G. apply group_in_files in Hf. tauto. }
  assert (Hnil : NoDup (List.map path (fst (([] : list FileEntry), (∅ : gset string)))))
    by apply NoDup_nil_2.
  assert (Hrec0 : forall p, p ∈ snd (([] : list FileEntry), (∅ : gset string))
                            <-> In p (List.map path (fst (([] : list FileEntry),
                                                          (∅ : gset string)))))
    by (intros p; simpl; split; [intros H; exfalso; revert H; apply not_elem_of_empty | tauto]).
  destruct prioritizeDiversity.
  - cbv zeta.
    match goal with |- context [fold_left (Sampling.sampleLanguage _ _ ?q _) priorityLanguages _] =>
      destruct (fold_sampleLanguage_tracked maxFiles maxPerLanguage q G priorityLanguages
                  _ Hnil Hrec0) as [Hnd1 Hrec1];
      destruct (fold_sampleLanguage_extends maxFiles maxPerLanguage q G
                  priorityLanguages ([], ∅)) as (a1 & Heq1 & Hin1 & _)
    end.
    cbn [fst app] in Heq1.
    match goal with |- context [if ?c then _ else _] => destruct c end.
    + match goal with |- context [fold_left (Sampling.sampleLanguage _ _ ?q _) ?ls ?s] =>
        destruct (fold_sampleLanguage_tracked maxFiles maxPerLanguage q G ls s Hnd1 Hrec1)
          as [Hnd2 Hrec2];
        destruct (fold_sampleLanguage_extends maxFiles maxPerLanguage q G ls s)
          as (a2 & Heq2 & Hin2 & _)
      end.
      split; [|auto]. intros f Hf. rewrite Heq2, Heq1 in Hf.
      apply List.in_app_or in Hf. destruct Hf as [Hf | Hf].
      * destruct (Hin1 f Hf) as (k & _ & Hk). eapply Hgroup, Hk.
      * destruct (Hin2 f Hf) as (k & _ & Hk). eapply Hgroup, Hk.
    + split; [|auto]. intros f Hf. rewrite Heq1 in Hf.
      destruct (Hin1 f Hf) as (k & _ & Hk). eapply Hgroup, Hk.
  - destruct (truncateTo_firstn maxFiles codeFiles ([], ∅)) as [Hfst Hsnd].
    cbn [fst snd app] in Hfst, Hsnd. rewrite Hfst. split; [|split].
    + intros f Hf. eapply firstn_incl, Hf.
    + apply NoDup_map_firstn, Hnd.
    + intros p. rewrite Hsnd. split; [intros [H | H]; [|exact H] | auto].
      exfalso. revert H. apply not_elem_of_empty.
Qed.

(** X5.  When the paths of the input are pairwise distinct, the samples and
    the remaining files are the code files, each exactly once. *)
Theorem samples_and_remaining_partition files options :
  NoDup (List.map path files) ->
  Permutation
    (Sampling.samples (Sampling.sampleCodeFiles detectLanguage files options)
       ++ Sampling.remaining (Sampling.sampleCodeFiles detectLanguage files options))%list
    (Spec.codeFilesOf files).
Proof.
  intros Hfiles.
  pose proof (NoDup_map_filter path
                (fun f => negb (isDirectory f) && FileFilter.isCodeFile (path f))
                files Hfiles) as Hnd.
  unfold Sampling.sampleCodeFiles. fold (Spec.codeFilesOf files) in *.
  destruct (_ <=? _); cbn [Sampling.samples Sampling.remaining].
  { rewrite List.app_nil_r. reflexivity. }
  destruct (sampleOverBudget_tracked (default 1000 (Sampling.maxFiles options))
              (default 100 (Sampling.maxPerLanguage options))
              (default true (Sampling.prioritizeDiversity options))
              (default [] (Sampling.priorityLanguages options))
              (Spec.codeFilesOf files) Hnd) as (Hsub & Hnds & Hrec).
  set (st := Sampling.sampleOverBudget _ _ _ _ _ _) in *.
  assert (Hrem : forall f,
            In f (List.filter (fun f => negb (JS.has (path f) (snd st))) (Spec.codeFilesOf files))
            <-> In f (Spec.codeFilesOf files) /\ ~ In (path f) (List.map path (fst st))).
  { intros f. rewrite List.filter_In, negb_true_iff. unfold JS.has.
    rewrite bool_decide_eq_false, Hrec. reflexivity. }
  apply NoDup_Permutation.
  - apply NoDup_app. split; [apply (NoDup_of_map path), Hnds|]. split.
    + intros f Hf Hf'. apply list_elem_of_In in Hf, Hf'. apply Hrem in Hf'.
      apply (proj2 Hf'), List.in_map, Hf.
    + apply NoDup_ListNoDup, List.NoDup_filter, NoDup_ListNoDup, (NoDup_of_map path), Hnd.
  - apply (NoDup_of_map path), Hnd.
  - intros f. rewrite elem_of_app, !list_elem_of_In, Hrem. split.
    + intros [Hf | [Hf _]]; [apply Hsub, Hf | exact Hf].
    + intros Hf.
      destruct (List.in_dec string_dec (path f) (List.map path (fst st))) as [Hp | Hp];
        [left | right; auto].
      apply List.in_map_iff in Hp. destruct Hp as (g & Hg & Hin).
      rewrite <- (NoDup_map_inj_in path _ g f Hnd (Hsub g Hin) Hf Hg). exact Hin.
Qed.






Lemma sampleOverBudget_subset maxFiles maxPerLanguage prioritizeDiversity priorityLanguages
    codeFiles f :
  In f (fst (Sampling.sampleOverBudget detectLanguage maxFiles maxPerLanguage
               prioritizeDiversity priorityLanguages codeFiles)) ->
  In f codeFiles.
Proof.
  unfold Sampling.sampleOverBudget.
  set (G := Sampling.groupFilesByLanguage detectLanguage codeFiles).
  assert (Hgroup : forall k g, In g (default [] (JS.mget k G)) -> In g codeFiles).
  { intros k g Hg. subst G. apply group_in_files in Hg. tauto. }
  destruct prioritizeDiversity.
  - cbv zeta.
    match goal with |- context [fold_left (Sampling.sampleLanguage _ _ ?q _) priorityLanguages _] =>
      destruct (fold_sampleLanguage_extends maxFiles maxPerLanguage q G
                  priorityLanguages ([], ∅)) as (a1 & Heq1 & Hin1 & _)
    end.
    cbn [fst app] in Heq1.
    match goal with |- context [if ?c then _ else _] => destruct c end.
    + match goal with |- context [fold_left (Sampling.sampleLanguage _ _ ?q _) ?ls ?s] =>
        destruct (fold_sampleLanguage_extends maxFiles maxPerLanguage q G ls s)
          as (a2 & Heq2 & Hin2 & _)
      end.
      rewrite Heq2, Heq1. intros Hf. apply List.in_app_or in Hf. destruct Hf as [Hf | Hf].
      * destruct (Hin1 f Hf) as (k & _ & Hk). eapply Hgroup, Hk.
      * destruct (Hin2 f Hf) as (k & _ & Hk). eapply Hgroup, Hk.
    + rewrite Heq1. intros Hf. destruct (Hin1 f Hf) as (k & _ & Hk). eapply Hgroup, Hk.
  - destruct (truncateTo_firstn maxFiles codeFiles ([], ∅)) as [Hfst _].
    cbn [fst app] in Hfst. rewrite Hfst. apply firstn_incl.
Qed.


Lemma tally_count A l :
  Spec.tally (fun f => detectLanguage (path f)) (fun _ => 1) A l
  = Spec.countLanguage detectLanguage A l.
Proof.
  unfold Spec.countLanguage. induction l as [|f l IH]; [reflexivity|].
  cbn [Spec.tally fold_right List.filter]. fold (Spec.tally (fun f => detectLanguage (path f))
                                                 (fun _ : FileEntry => 1) A l).
  rewrite IH. unfold Spec.hasLanguage at 2.
  destruct (String.eqb (detectLanguage (path f)) A); cbn [List.length]; lia.
Qed.

Lemma countLanguage_zero A l :
  Spec.countLanguage detectLanguage A l = 0
  <-> forall f, In f l -> detectLanguage (path f) <> A.
Proof.
  split; [|apply countLanguage_none].
  unfold Spec.countLanguage. induction l as [|f l IH]; [intros _ g []|].
  cbn [List.filter]. unfold Spec.hasLanguage at 1.
  destruct (String.eqb_spec (detectLanguage (path f)) A) as [E | Hne].
  - cbn [List.length]. lia.
  - intros H g [<- | Hg]; [exact Hne | apply IH; assumption].
Qed.

Lemma calculateLanguageDistribution_lookup l A :
  (forall f, In f l -> isDirectory f = false) ->
  default 0 (Sampling.calculateLanguageDistribution detectLanguage l !! A)
  = Spec.countLanguage detectLanguage A l
  /\ (Sampling.calculateLanguageDistribution detectLanguage l !! A = None
      <-> Spec.countLanguage detectLanguage A l = 0).
Proof.
  intros Hdir. unfold Sampling.calculateLanguageDistribution.
  assert (Hfold : forall m : gmap string Z,
            fold_left
              (fun distribution file =>
                 if isDirectory file then distribution
                 else <[detectLanguage (path file)
                        := default 0 (distribution !! detectLanguage (path file)) + 1]>
                        distribution) l m
            = fold_left
                (fun (d : gmap string Z) f => <[detectLanguage (path f)
                              := default 0 (d !! detectLanguage (path f)) + 1]> d) l m).
  { induction l as [|f l IH]; intros m; simpl; [reflexivity|].
    rewrite (Hdir f (or_introl eq_refl)). apply IH. intros g Hg. apply Hdir. right. exact Hg. }
  rewrite Hfold.
  destruct (tally_fold (fun f => detectLanguage (path f)) (fun _ => 1) l ∅ A) as [Hval Hnone].
  rewrite lookup_empty in Hval, Hnone. simpl in Hval.
  rewrite tally_count in Hval. split; [exact Hval|].
  rewrite Hnone, countLanguage_zero. tauto.
Qed.

(** X8.  The statistics of the sampler count what it returns: [totalFiles]
    is the number of code files, [sampledFiles] the number of samples, and
    [languageDistribution] holds for each language its number of samples, with
    no entry for a language that has none. *)
Theorem sampling_stats_count_samples files options L :
  let r := Sampling.sampleCodeFiles detectLanguage files options in
  Sampling.totalFiles (Sampling.stats r) = Z.of_nat (List.length (Spec.codeFilesOf files))
  /\ Sampling.sampledFiles (Sampling.stats r) = Z.of_nat (List.length (Sampling.samples r))
  /\ default 0 (Sampling.languageDistribution (Sampling.stats r) !! L)
     = Spec.countLanguage detectLanguage L (Sampling.samples r)
  /\ (Sampling.languageDistribution (Sampling.stats r) !! L = None
      <-> Spec.countLanguage detectLanguage L (Sampling.samples r) = 0).
Proof.
  intros r. subst r.
  assert (Hcode : forall f, In f (Spec.codeFilesOf files) -> isDirectory f = false).
  { intros f Hf. apply List.filter_In in Hf. destruct Hf as [_ Hf].
    apply andb_true_iff in Hf. rewrite negb_true_iff in Hf. tauto. }
  unfold Sampling.sampleCodeFiles. fold (Spec.codeFilesOf files).
  destruct (_ <=? _);
    cbn [Sampling.stats Sampling.samples Sampling.totalFiles Sampling.sampledFiles
         Sampling.languageDistribution].
  - split; [reflexivity|]. split; [reflexivity|].
    apply calculateLanguageDistribution_lookup, Hcode.
  - split; [reflexivity|]. split; [reflexivity|].
    apply calculateLanguageDistribution_lookup.
    intros f Hf. apply Hcode. eapply sampleOverBudget_subset, Hf.
Qed.

End SamplerMore.


Lemma samples_and_remaining_partition_witness :
  let options :=
    {| Sampling.maxFiles := Some 2; Sampling.maxPerLanguage := None;
       Sampling.prioritizeDiversity := None; Sampling.priorityLanguages := None |} in
  Permutation
    (Sampling.samples
       (Sampling.sampleCodeFiles LanguageUtils.detectLanguage Samples.smallRepo options)
       ++ Sampling.remaining
            (Sampling.sampleCodeFiles LanguageUtils.detectLanguage Samples.smallRepo
               options))%list
    (Spec.codeFilesOf Samples.smallRepo).
Proof.
  apply (samples_and_remaining_partition LanguageUtils.detectLanguage Samples.smallRepo
           {| Sampling.maxFiles := Some 2; Sampling.maxPerLanguage := None;
              Sampling.prioritizeDiversity := None; Sampling.priorityLanguages := None |}).
  apply (bool_decide_unpack _). vm_compute. exact I.
Defined.


(** ** The encoder: statistics, the exclusion list, reading the output back *)

Section ListFacts.

Lemma map_filter_comm {A B} (g : A -> B) (p : B -> bool) (l : list A) :
  List.map g (List.filter (fun x => p (g x)) l) = List.filter p (List.map g l).
Proof.
  induction l as [|x l IH]; simpl; [reflexivity|].
  destruct (p (g x)); simpl; rewrite IH; reflexivity.
Qed.

Lemma filter_length_split {A} (p : A -> bool) (l : list A) :
  List.length l
  = (List.length (List.filter p l) + List.length (List.filter (fun x => negb (p x)) l))%nat.
Proof.
  induction l as [|x l IH]; simpl; [reflexivity|].
  destruct (p x); simpl; lia.
Qed.

Lemma NoDup_same_length {A} (l k : list A) :
  NoDup l -> NoDup k -> (forall x, In x l <-> In x k) -> List.length l = List.length k.
Proof.
  intros Hl Hk Hiff. apply Permutation_length, NoDup_Permutation; try assumption.
  intros x. rewrite !list_elem_of_In. apply Hiff.
Qed.

Lemma filter_nil_iff {A} (p : A -> bool) l :
  List.filter p l = [] <-> forall x, In x l -> p x = false.
Proof.
  split; [|apply filter_none].
  induction l as [|x l IH]; simpl; [tauto|].
  destruct (p x) eqn:E; [discriminate|]. intros H y [<- | Hy]; auto.
Qed.

Lemma log_paths includedPaths files st :
  Encoding.acc_excludedFiles (fold_left (Encoding.logStep includedPaths) files st)
  = (Encoding.acc_excludedFiles st
       ++ List.map path
            (List.filter (fun f => negb (JS.has (path f) includedPaths)) files))%list.
Proof.
  revert st. induction files as [|f files IH]; intros st; simpl.
  - rewrite List.app_nil_r. reflexivity.
  - rewrite IH. unfold Encoding.logStep.
    destruct (negb (JS.has (path f) includedPaths)); cbn [Encoding.acc_excludedFiles].
    + simpl. rewrite <- List.app_assoc. reflexivity.
    + reflexivity.
Qed.

Lemma nonDirectories_all l :
  (forall f, In f l -> isDirectory f = false) -> Spec.nonDirectories l = l.
Proof.
  unfold Spec.nonDirectories. induction l as [|x l IH]; intros H; simpl; [reflexivity|].
  rewrite (H x) by (left; reflexivity). simpl. rewrite IH; [reflexivity|].
  intros f Hf. apply H. right. exact Hf.
Qed.

Lemma nonDirectories_snoc l f :
  Spec.nonDirectories (l ++ [f])
  = if isDirectory f then Spec.nonDirectories l else (Spec.nonDirectories l ++ [f])%list.
Proof.
  unfold Spec.nonDirectories. rewrite List.filter_app. simpl.
  destruct (isDirectory f); simpl; [apply List.app_nil_r | reflexivity].
Qed.

Lemma sumOver_app w l l' :
  Spec.sumOver w (l ++ l')%list = Spec.sumOver w l + Spec.sumOver w l'.
Proof.
  unfold Spec.sumOver. induction l as [|x l IH]; simpl; [reflexivity|]. rewrite IH. lia.
Qed.

Lemma split_length sep s :
  List.length (JS.split sep s) = S (Spec.countUnit sep s).
Proof.
  induction s as [|c s IH]; [reflexivity|].
  cbn [JS.split Spec.countUnit]. destruct (Ascii.eqb c sep).
  - cbn [List.length]. rewrite IH. reflexivity.
  - destruct (JS.split sep s) as [|seg rest]; [discriminate IH|]. exact IH.
Qed.

End ListFacts.

Section EncoderMore.

Variable detectLanguage : string -> string.

Lemma encode_totalCharacters rn files st :
  Encoding.totalCharacters (fold_left (Encoding.encodeStep detectLanguage rn) files st)
  = Encoding.totalCharacters st + Spec.sumOver Spec.chars files.
Proof.
  revert st. induction files as [|f files IH]; intros st; simpl; [lia|].
  rewrite IH. cbn [Encoding.encodeStep Encoding.totalCharacters]. unfold Spec.chars at 2. lia.
Qed.

Lemma encode_languageBreakdown rn files st :
  Encoding.languageBreakdown (fold_left (Encoding.encodeStep detectLanguage rn) files st)
  = fold_left
      (fun (d : gmap string Z) f =>
         <[detectLanguage (path f) := default 0 (d !! detectLanguage (path f)) + Spec.chars f]> d)
      files (Encoding.languageBreakdown st).
Proof.
  revert st. induction files as [|f files IH]; intros st; simpl; [reflexivity|].
  rewrite IH. reflexivity.
Qed.

(** X9.  The character statistics of the encoder: [totalCharacters] is the
    sum of the content lengths of the encoded files, and [languageBreakdown]
    holds for each language the sum over its encoded files, with an entry
    exactly for the languages that have an encoded file. *)
Theorem encoding_stats_characters selectedFiles allFiles options L :
  let r := Encoding.encodeFilesWithStats detectLanguage selectedFiles allFiles options in
  let encoded := Spec.nonDirectories selectedFiles in
  EncodingStats.totalCharacters (stats r) = Spec.sumOver Spec.chars encoded
  /\ default 0 (EncodingStats.languageBreakdown (stats r) !! L)
     = Spec.tally (fun f => detectLanguage (path f)) Spec.chars L encoded
  /\ (EncodingStats.languageBreakdown (stats r) !! L = None
      <-> forall f, In f encoded -> detectLanguage (path f) <> L).
Proof.
  intros r encoded. subst r encoded. unfold Encoding.encodeFilesWithStats.
  cbn [stats EncodingStats.totalCharacters EncodingStats.languageBreakdown].
  fold (Spec.nonDirectories selectedFiles).
  rewrite encode_totalCharacters, encode_languageBreakdown.
  cbn [Encoding.totalCharacters Encoding.languageBreakdown].
  split; [lia|].
  destruct (tally_fold (fun f => detectLanguage (path f)) Spec.chars
              (Spec.nonDirectories selectedFiles) ∅ L) as [Hval Hnone].
  rewrite lookup_empty in Hval, Hnone. simpl in Hval.
  split; [exact Hval|]. rewrite Hnone. tauto.
Qed.

(** X10.  The excluded files are the paths of the exclusion log, in its
    order, and they are the non-directory files of the archive whose path is
    not among the encoded ones; when no path occurs twice and every encoded
    file is of the archive, the encoded and the excluded files add up to the
    total. *)
Theorem excluded_files_accounting selectedFiles allFiles options :
  let r := Encoding.encodeFilesWithStats detectLanguage selectedFiles allFiles options in
  let encoded := Spec.nonDirectories selectedFiles in
  let archive := Spec.nonDirectories allFiles in
  excludedFiles r = List.map entry_path (exclusionLog r)
  /\ excludedFiles r
     = List.filter (fun p => negb (JS.includes p (List.map path encoded)))
         (List.map path archive)
  /\ EncodingStats.excludedFiles (stats r) = Z.of_nat (List.length (excludedFiles r))
  /\ (NoDup (List.map path encoded) -> NoDup (List.map path archive) ->
      (forall f, In f encoded -> In (path f) (List.map path archive)) ->
      EncodingStats.totalFiles (stats r)
      = EncodingStats.includedFiles (stats r) + EncodingStats.excludedFiles (stats r)).
Proof.
  intros r encoded archive. subst r encoded archive.
  unfold Encoding.encodeFilesWithStats.
  cbn [stats excludedFiles exclusionLog EncodingStats.totalFiles EncodingStats.includedFiles
       EncodingStats.excludedFiles].
  fold (Spec.nonDirectories selectedFiles). fold (Spec.nonDirectories allFiles).
  set (encoded := Spec.nonDirectories selectedFiles).
  set (archive := Spec.nonDirectories allFiles).
  rewrite log_paths, log_entries. cbn [Encoding.acc_excludedFiles Encoding.acc_exclusionLog].
  cbn [List.app].
  assert (Hin : forall f : FileEntry,
            JS.has (path f) (list_to_set (List.map path encoded))
            = JS.includes (path f) (List.map path encoded)).
  { intros f. apply has_list_to_set. }
  rewrite (List.filter_ext _ (fun f => negb (JS.includes (path f) (List.map path encoded))))
    by (intros f; rewrite Hin; reflexivity).
  split; [rewrite List.map_map; reflexivity|].
  split; [apply (map_filter_comm path (fun p => negb (JS.includes p (List.map path encoded))))|].
  split; [reflexivity|].
  intros Hnd1 Hnd2 Hsub.
  rewrite List.length_map.
  rewrite (filter_length_split
             (fun f => JS.includes (path f) (List.map path encoded)) archive) at 1.
  rewrite Nat2Z.inj_add. f_equal. f_equal.
  rewrite <- (List.length_map path (List.filter _ archive)), <- (List.length_map path encoded).
  rewrite (map_filter_comm path (fun p => JS.includes p (List.map path encoded))).
  apply NoDup_same_length.
  - apply NoDup_ListNoDup, List.NoDup_filter, NoDup_ListNoDup, Hnd2.
  - exact Hnd1.
  - intros p. rewrite List.filter_In, includes_spec. split; [tauto|].
    intros Hp. split; [|exact Hp]. apply List.in_map_iff in Hp. destruct Hp as [f [<- Hf]].
    apply Hsub, Hf.
Qed.

End EncoderMore.

Lemma excluded_files_accounting_witness :
  let r := Encoding.encodeFilesWithStats LanguageUtils.detectLanguage
             (Spec.codeFilesOf Samples.smallRepo) Samples.smallRepo
             {| includeMetadata := None; excludePatterns := None; repoName := None |} in
  EncodingStats.totalFiles (stats r)
  = EncodingStats.includedFiles (stats r) + EncodingStats.excludedFiles (stats r).
Proof.
  apply (excluded_files_accounting LanguageUtils.detectLanguage
           (Spec.codeFilesOf Samples.smallRepo) Samples.smallRepo
           {| includeMetadata := None; excludePatterns := None; repoName := None |}).
  - apply (bool_decide_unpack _). vm_compute. exact I.
  - apply (bool_decide_unpack _). vm_compute. exact I.
  - vm_compute. intros f Hf. repeat destruct Hf as [<- | Hf]; tauto.
Defined.


Section JsonFacts.

Lemma unescapeHead_escapeUnit c t :
  Spec.unescapeHead (Json.escapeUnit c ++ t) = Some (c, t).
Proof.
  destruct c as [[] [] [] [] [] [] [] []]; reflexivity.
Qed.

Lemma escapeUnit_head c t :
  exists d rest, Json.escapeUnit c ++ t = String d rest /\ Ascii.eqb d Json.dq = false.
Proof.
  destruct c as [[] [] [] [] [] [] [] []]; eexists; eexists; split; reflexivity.
Qed.

Lemma escapeUnit_length c : (1 <= String.length (Json.escapeUnit c))%nat.
Proof.
  destruct c as [[] [] [] [] [] [] [] []]; vm_compute; lia.
Qed.

Lemma length_app (a b : string) :
  String.length (a ++ b) = (String.length a + String.length b)%nat.
Proof.
  induction a as [|x a IH]; [reflexivity|].
  change (S (String.length (a ++ b)) = S (String.length a + String.length b)).
  rewrite IH. reflexivity.
Qed.

Lemma readString_escape s : forall fuel rest,
  (String.length (Json.escape s) < fuel)%nat ->
  Spec.readString fuel (Json.escape s ++ String Json.dq rest) = Some (s, rest).
Proof.
  induction s as [|c s IH]; intros fuel rest Hfuel.
  - destruct fuel as [|fuel]; [simpl in Hfuel; lia | reflexivity].
  - destruct fuel as [|fuel]; [lia|].
    change (Json.escape (String c s)) with (Json.escapeUnit c ++ Json.escape s) in *.
    rewrite string_app_assoc.
    destruct (escapeUnit_head c (Json.escape s ++ String Json.dq rest)) as [d [t [E Hd]]].
    cbn [Spec.readString]. rewrite E, Hd, <- E, unescapeHead_escapeUnit.
    rewrite IH; [reflexivity|].
    rewrite length_app in Hfuel. pose proof (escapeUnit_length c). lia.
Qed.

Lemma expect_app lit s : Spec.expect lit (lit ++ s) = Some s.
Proof.
  induction lit as [|a lit IH]; [destruct s; reflexivity|].
  change (String a lit ++ s) with (String a (lit ++ s)). cbn [Spec.expect].
  rewrite Ascii.eqb_refl. exact IH.
Qed.

Lemma quote_app s t :
  Json.quote s ++ t = String Json.dq (Json.escape s ++ String Json.dq t).
Proof.
  unfold Json.quote.
  change (String Json.dq ((Json.escape s ++ String Json.dq EmptyString) ++ t)
          = String Json.dq (Json.escape s ++ String Json.dq t)).
  rewrite string_app_assoc. reflexivity.
Qed.

Lemma recordLine_shape r p c :
  Spec.recordLine r p c
  = ("{" ++ Json.quote "repo" ++ ":" ++ String Json.dq EmptyString)
      ++ Json.escape r ++ String Json.dq
           (("," ++ Json.quote "filename" ++ ":" ++ String Json.dq EmptyString)
              ++ Json.escape p ++ String Json.dq
                   (("," ++ Json.quote "text" ++ ":" ++ String Json.dq EmptyString)
                      ++ Json.escape c ++ String Json.dq "}")).
Proof.
  unfold Spec.recordLine. rewrite !(quote_app r), !(quote_app p), !(quote_app c).
  generalize (Json.escape r) (Json.escape p) (Json.escape c). intros er ep ec.
  vm_compute. reflexivity.
Qed.

Lemma parseRecord_stringify r :
  Spec.parseRecord (Encoding.JSON_stringify r) = Some r.
Proof.
  destruct r as [r p c].
  change (Encoding.JSON_stringify {| repo := r; filename := p; text := c |})
    with (Encoding.JSON_stringify
            (Encoding.createJsonlRecord (mkFile p EmptyString c None false None) r)).
  rewrite JSON_stringify_record. cbn [path content Encoding.createJsonlRecord].
  unfold Spec.parseRecord. set (fuel := S (String.length _)).
  assert (Hfuel : (String.length (Json.escape r) < fuel
                   /\ String.length (Json.escape p) < fuel
                   /\ String.length (Json.escape c) < fuel)%nat).
  { subst fuel. rewrite recordLine_shape. rewrite !length_app. cbn [String.length].
    rewrite !length_app. cbn [String.length]. rewrite !length_app. lia. }
  destruct Hfuel as [Hr [Hp Hc]]. clearbody fuel.
  rewrite recordLine_shape, expect_app, (readString_escape r fuel _ Hr), expect_app,
    (readString_escape p fuel _ Hp), expect_app, (readString_escape c fuel _ Hc).
  reflexivity.
Qed.

(** X11.  A record is read back from its line without loss: the reader
    returns the record that was written, so two records with the same line
    are the same record. *)
Theorem record_line_read_back (record : JsonlRecord) :
  Spec.parseRecord (Encoding.JSON_stringify record) = Some record
  /\ forall record',
       Encoding.JSON_stringify record = Encoding.JSON_stringify record' -> record = record'.
Proof.
  split; [apply parseRecord_stringify|].
  intros record' E. pose proof (parseRecord_stringify record) as H1.
  rewrite E, parseRecord_stringify in H1. congruence.
Qed.

End JsonFacts.

Section JsonlFacts.

Variable detectLanguage : string -> string.

(** X12.  The JSONL text is read back without loss: when a file was
    encoded, splitting the text at the newlines and reading each line gives
    the repository name, the path and the content of the encoded files, in
    their order. *)
Theorem jsonl_read_back selectedFiles allFiles options :
  Spec.nonDirectories selectedFiles <> [] ->
  List.map Spec.parseRecord
    (JS.split Json.nl
       (jsonlContent
          (Encoding.encodeFilesWithStats detectLanguage selectedFiles allFiles options)))
  = List.map
      (fun f =>
         Some {| repo := Encoding.effectiveRepoName options;
                 filename := path f;
                 text := content f |})
      (Spec.nonDirectories selectedFiles).
Proof.
  intros Hne. rewrite (jsonlContent_split detectLanguage _ _ _ Hne), List.map_map.
  apply List.map_ext. intros f. rewrite <- JSON_stringify_record.
  apply parseRecord_stringify.
Qed.

End JsonlFacts.

Lemma jsonl_read_back_witness :
  List.map Spec.parseRecord
    (JS.split Json.nl
       (jsonlContent
          (Encoding.encodeFilesWithStats LanguageUtils.detectLanguage Samples.smallRepo
             Samples.smallRepo (Samples.named "demo"))))
  = List.map
      (fun f => Some {| repo := "demo"; filename := path f; text := content f |})
      Samples.smallRepo.
Proof.
  apply (jsonl_read_back LanguageUtils.detectLanguage Samples.smallRepo Samples.smallRepo
           (Samples.named "demo")).
  discriminate.
Defined.


(** ** The statistics of the repository *)

Section TallyMore.

Context {A : Type} (key : A -> string).

Lemma tally_app (w : A -> Z) k (l l' : list A) :
  Spec.tally key w k (l ++ l')%list = Spec.tally key w k l + Spec.tally key w k l'.
Proof.
  unfold Spec.tally. induction l as [|x l IH]; simpl; [reflexivity|]. rewrite IH. lia.
Qed.

Lemma tally_nonneg (w : A -> Z) k l :
  (forall x, 0 <= w x) -> 0 <= Spec.tally key w k l.
Proof.
  intros Hw. unfold Spec.tally. induction l as [|x l IH]; simpl; [lia|].
  specialize (Hw x). destruct (String.eqb (key x) k); lia.
Qed.

Lemma tally_absent (w : A -> Z) k l :
  Spec.tally key (fun _ => 1) k l = 0 -> Spec.tally key w k l = 0.
Proof.
  unfold Spec.tally. induction l as [|x l IH]; simpl; [reflexivity|].
  pose proof (tally_nonneg (fun _ => 1) k l ltac:(intros; lia)) as Hnn.
  unfold Spec.tally in Hnn.
  destruct (String.eqb (key x) k); [lia|]. intros H. rewrite IH; lia.
Qed.

Lemma tally_present k l :
  Spec.tally key (fun _ => 1) k l <> 0 <-> exists x, In x l /\ key x = k.
Proof.
  unfold Spec.tally. induction l as [|x l IH]; simpl.
  - split; [congruence | intros [x [[] _]]].
  - pose proof (tally_nonneg (fun _ => 1) k l ltac:(intros; lia)) as Hnn.
    unfold Spec.tally in Hnn.
    destruct (String.eqb_spec (key x) k) as [E | Hne].
    + split; [intros _; exists x; auto | lia].
    + rewrite Z.add_0_l, IH. split.
      * intros [y [Hy E]]. exists y. auto.
      * intros [y [[<- | Hy] E]]; [congruence | exists y; auto].
Qed.

End TallyMore.

Section SortFacts.

Lemma insertByLines_sorted x l :
  StronglySorted (fun a b => LanguageFileStats.lineCount b <= LanguageFileStats.lineCount a) l ->
  StronglySorted (fun a b => LanguageFileStats.lineCount b <= LanguageFileStats.lineCount a)
    (ZipUtils.insertByLines x l).
Proof.
  induction 1 as [|y l Hl IH Hy]; simpl.
  - constructor; constructor.
  - destruct (Z.leb_spec (LanguageFileStats.lineCount y) (LanguageFileStats.lineCount x))
      as [Hle | Hgt].
    + constructor; [constructor; assumption|].
      constructor; [exact Hle|].
      eapply List.Forall_impl; [|exact Hy]. simpl. intros z Hz. lia.
    + constructor; [exact IH|].
      eapply Permutation_Forall; [symmetry; apply insertByLines_perm|].
      constructor; [lia | exact Hy].
Qed.

Lemma sum_map_snd (g : LanguageFileStats.t -> Z) (m : list (string * LanguageFileStats.t)) :
  fold_right (fun x a => g x + a) 0 (List.map snd m)
  = fold_right (fun x a => g (snd x) + a) 0 m.
Proof. induction m as [|x m IH]; simpl; [reflexivity | rewrite IH; reflexivity]. Qed.

Lemma sum_languages (g : LanguageFileStats.t -> Z) T raw :
  (forall e, g (ZipUtils.setPercentage T e) = g e) ->
  fold_right (fun x a => g x + a) 0
    (ZipUtils.sortByLines (List.map (ZipUtils.setPercentage T) raw))
  = fold_right (fun x a => g x + a) 0 raw.
Proof.
  intros Hg.
  assert (Hperm : forall l l' : list LanguageFileStats.t,
            Permutation l l' ->
            fold_right (fun x a => g x + a) 0 l = fold_right (fun x a => g x + a) 0 l').
  { induction 1; simpl in *; lia. }
  rewrite (Hperm _ _ (sortByLines_perm _)).
  induction raw as [|x raw IH]; simpl; [reflexivity|]. rewrite IH, Hg. reflexivity.
Qed.

End SortFacts.

Section StatsMore.

Variable detectLanguage : string -> string.

Lemma statsStep_inv done st f :
  Spec.StatsInv detectLanguage done st ->
  Spec.StatsInv detectLanguage (done ++ [f]) (ZipUtils.statsStep detectLanguage st f).
Proof.
  unfold Spec.StatsInv. cbv zeta. intros (Hl & Hc & Hf & Hnd & Hget).
  rewrite nonDirectories_snoc. unfold ZipUtils.statsStep.
  destruct (isDirectory f); [auto 6|].
  set (l := Spec.nonDirectories done) in *.
  set (L := detectLanguage (path f)).
  cbn [ZipUtils.acc_totalLines ZipUtils.acc_totalChars ZipUtils.acc_totalFiles
       ZipUtils.languageStats].
  rewrite !sumOver_app, List.length_app, Nat2Z.inj_add. cbn [Spec.sumOver fold_right List.length].
  pose proof (tally_nonneg (fun f => detectLanguage (path f)) (fun _ => 1) L l
                ltac:(intros; lia)) as Hnn.
  split; [unfold Spec.lines at 2; lia|]. split; [unfold Spec.chars at 2; lia|].
  split; [lia|].
  pose proof (Hget L) as HL.
  split.
  - assert (Hkeys : forall v, NoDup (JS.keys (JS.mset L v (ZipUtils.languageStats st)))).
    { intros v. rewrite keys_mset.
      destruct (JS.includes L (JS.keys (ZipUtils.languageStats st))) eqn:E; [exact Hnd|].
      apply NoDup_app. split; [exact Hnd|]. split; [|apply NoDup_singleton].
      intros x Hx Hx'. apply list_elem_of_In in Hx'. destruct Hx' as [<- | []].
      apply list_elem_of_In, includes_spec in Hx. congruence. }
    destruct (JS.mget L (ZipUtils.languageStats st)); apply Hkeys.
  - intros k. rewrite !tally_app. cbn [Spec.tally fold_right]. fold L.
    destruct (String.eqb_spec L k) as [<- | Hne].
    + replace (_ =? 0) with false by (symmetry; apply Z.eqb_neq; lia).
      destruct (JS.mget L (ZipUtils.languageStats st)) as [existing|] eqn:E;
        rewrite mget_mset_eq; f_equal; unfold Spec.aggregate;
        rewrite !tally_app; cbn [Spec.tally fold_right]; fold L; rewrite String.eqb_refl.
      * destruct (Z.eqb_spec (Spec.tally (fun f => detectLanguage (path f)) (fun _ => 1) L l) 0);
          [discriminate|].
        injection HL as ->. unfold Spec.aggregate.
        cbn [LanguageFileStats.language LanguageFileStats.lineCount LanguageFileStats.charCount
             LanguageFileStats.fileCount LanguageFileStats.percentage].
        f_equal; unfold Spec.lines, Spec.chars; lia.
      * destruct (Z.eqb_spec (Spec.tally (fun f => detectLanguage (path f)) (fun _ => 1) L l) 0)
          as [Hz|]; [|discriminate].
        rewrite Hz, (tally_absent _ Spec.lines L l Hz), (tally_absent _ Spec.chars L l Hz).
        f_equal; unfold Spec.lines, Spec.chars; lia.
    + rewrite Z.add_0_r.
      assert (Hagg : Spec.aggregate detectLanguage k (l ++ [f])
                     = Spec.aggregate detectLanguage k l).
      { unfold Spec.aggregate. rewrite !tally_app. cbn [Spec.tally fold_right]. fold L.
        destruct (String.eqb_spec L k); [congruence|]. f_equal; lia. }
      rewrite Hagg, <- Hget.
      destruct (JS.mget L (ZipUtils.languageStats st)); apply mget_mset_ne, Hne.
Qed.

Lemma fold_statsStep_inv files : forall done st,
  Spec.StatsInv detectLanguage done st ->
  Spec.StatsInv detectLanguage (done ++ files)
    (fold_left (ZipUtils.statsStep detectLanguage) files st).
Proof.
  induction files as [|f files IH]; intros done st Hinv; simpl.
  - rewrite List.app_nil_r. exact Hinv.
  - replace (done ++ f :: files)%list with ((done ++ [f]) ++ files)%list
      by (rewrite <- List.app_assoc; reflexivity).
    apply IH, statsStep_inv, Hinv.
Qed.

Lemma calculate_inv files :
  Spec.StatsInv detectLanguage files
    (fold_left (ZipUtils.statsStep detectLanguage) files
       {| ZipUtils.acc_totalLines := 0; ZipUtils.acc_totalChars := 0;
          ZipUtils.acc_totalFiles := 0; ZipUtils.languageStats := [] |}).
Proof.
  apply (fold_statsStep_inv files []).
  unfold Spec.StatsInv. simpl. repeat split; try reflexivity. apply NoDup_nil_2.
Qed.

(** X13.  The totals of the statistics are taken over the files that are
    not directories: the sum of their line counts (a missing count being 0),
    the sum of their content lengths, and their number. *)
Theorem repository_totals now files :
  let rs := ZipUtils.calculateRepositoryStats detectLanguage now files in
  let l := Spec.nonDirectories files in
  totalLines rs = Spec.sumOver Spec.lines l
  /\ totalChars rs = Spec.sumOver Spec.chars l
  /\ totalFiles rs = Z.of_nat (List.length l)
  /\ uploadedAt rs = now.
Proof.
  intros rs l. subst rs l. destruct (calculate_inv files) as (Hl & Hc & Hf & _).
  unfold ZipUtils.calculateRepositoryStats. cbn [totalLines totalChars totalFiles uploadedAt].
  auto.
Qed.

Lemma entry_is_aggregate done st k v :
  Spec.StatsInv detectLanguage done st ->
  In (k, v) (ZipUtils.languageStats st) ->
  v = Spec.aggregate detectLanguage k (Spec.nonDirectories done)
  /\ Spec.tally (fun f => detectLanguage (path f)) (fun _ => 1) k (Spec.nonDirectories done)
     <> 0.
Proof.
  intros (_ & _ & _ & Hnd & Hget) Hin.
  pose proof (mget_in_nodup k v _ Hnd Hin) as Hk. rewrite Hget in Hk.
  destruct (Z.eqb_spec
              (Spec.tally (fun f => detectLanguage (path f)) (fun _ => 1) k
                 (Spec.nonDirectories done)) 0); [discriminate|].
  split; [congruence | assumption].
Qed.

(** X14.  Every entry of [languages] holds the figures of its language: the
    line count, the character count and the number of the non-directory
    files that [detectLanguage] gives that language, and there is at least
    one such file. *)
Theorem language_entries_aggregate now files :
  let rs := ZipUtils.calculateRepositoryStats detectLanguage now files in
  let l := Spec.nonDirectories files in
  let key := fun f => detectLanguage (path f) in
  List.Forall
    (fun e =>
       let L := LanguageFileStats.language e in
       LanguageFileStats.lineCount e = Spec.tally key Spec.lines L l
       /\ LanguageFileStats.charCount e = Spec.tally key Spec.chars L l
       /\ LanguageFileStats.fileCount e = Spec.countLanguage detectLanguage L l
       /\ 1 <= LanguageFileStats.fileCount e)
    (languages rs).
Proof.
  intros rs l key. subst rs l key.
  pose proof (calculate_inv files) as Hinv.
  unfold ZipUtils.calculateRepositoryStats. cbn [languages].
  set (st := fold_left _ files _) in *.
  eapply Permutation_Forall; [symmetry; apply sortByLines_perm|].
  apply List.Forall_forall. intros e He.
  apply List.in_map_iff in He. destruct He as [v [<- Hv]].
  apply List.in_map_iff in Hv. destruct Hv as [[k v'] [Heq Hin]]. simpl in Heq. subst v'.
  destruct (entry_is_aggregate _ _ _ _ Hinv Hin) as [-> Hcount].
  cbv zeta. cbn [ZipUtils.setPercentage Spec.aggregate LanguageFileStats.language
                 LanguageFileStats.lineCount LanguageFileStats.charCount
                 LanguageFileStats.fileCount].
  rewrite <- tally_count.
  pose proof (tally_nonneg (fun f => detectLanguage (path f)) (fun _ => 1) k
                (Spec.nonDirectories files) ltac:(intros; lia)).
  repeat split; lia.
Qed.

Lemma languages_are_keys done st :
  Spec.StatsInv detectLanguage done st ->
  List.map LanguageFileStats.language (List.map snd (ZipUtils.languageStats st))
  = JS.keys (ZipUtils.languageStats st).
Proof.
  intros Hinv. unfold JS.keys. rewrite List.map_map. apply List.map_ext_in.
  intros [k v] Hin. destruct (entry_is_aggregate _ _ _ _ Hinv Hin) as [-> _]. reflexivity.
Qed.

(** X15.  [languages] has one entry for each language that
    [detectLanguage] gives to a non-directory file, and no other entry. *)
Theorem languages_distinct_and_complete now files :
  let rs := ZipUtils.calculateRepositoryStats detectLanguage now files in
  let names := List.map LanguageFileStats.language (languages rs) in
  NoDup names
  /\ forall L, In L names
              <-> exists f, In f (Spec.nonDirectories files) /\ detectLanguage (path f) = L.
Proof.
  intros rs names. subst rs names.
  pose proof (calculate_inv files) as Hinv.
  unfold ZipUtils.calculateRepositoryStats. cbn [languages].
  set (st := fold_left _ files _) in *.
  assert (Hperm : Permutation
                    (List.map LanguageFileStats.language
                       (ZipUtils.sortByLines
                          (List.map (ZipUtils.setPercentage (ZipUtils.acc_totalLines st))
                             (List.map snd (ZipUtils.languageStats st)))))
                    (JS.keys (ZipUtils.languageStats st))).
  { rewrite sortByLines_perm, List.map_map.
    rewrite (List.map_ext _ LanguageFileStats.language) by reflexivity.
    rewrite (languages_are_keys _ _ Hinv). reflexivity. }
  destruct Hinv as (_ & _ & _ & Hnd & Hget).
  split.
  - rewrite Hperm. exact Hnd.
  - intros L. rewrite <- tally_present.
    specialize (Hget L). split.
    + intros HL. apply (Permutation_in _ Hperm) in HL.
      destruct (Z.eqb_spec (Spec.tally (fun f => detectLanguage (path f)) (fun _ => 1) L
                              (Spec.nonDirectories files)) 0) as [Hz | Hnz]; [|exact Hnz].
      exfalso. clear Hperm.
      induction (ZipUtils.languageStats st) as [|[k v] m IH]; simpl in *; [tauto|].
      destruct (String.eqb_spec k L); [discriminate|].
      destruct HL as [-> | HL]; [congruence|]. apply NoDup_cons in Hnd. apply IH; tauto.
    + intros Hnz. apply (Permutation_in _ (Permutation_sym Hperm)).
      destruct (Z.eqb_spec (Spec.tally (fun f => detectLanguage (path f)) (fun _ => 1) L
                              (Spec.nonDirectories files)) 0) as [Hz | _]; [contradiction|].
      eapply mget_some_in, Hget.
Qed.

(** X16.  [languages] is in descending order of line count. *)
Theorem languages_sorted_descending now files :
  StronglySorted
    (fun a b => LanguageFileStats.lineCount b <= LanguageFileStats.lineCount a)
    (languages (ZipUtils.calculateRepositoryStats detectLanguage now files)).
Proof.
  unfold ZipUtils.calculateRepositoryStats. cbn [languages].
  generalize (List.map (ZipUtils.setPercentage
                          (ZipUtils.acc_totalLines
                             (fold_left (ZipUtils.statsStep detectLanguage) files
                                {| ZipUtils.acc_totalLines := 0; ZipUtils.acc_totalChars := 0;
                                   ZipUtils.acc_totalFiles := 0;
                                   ZipUtils.languageStats := [] |})))
                (List.map snd
                   (ZipUtils.languageStats
                      (fold_left (ZipUtils.statsStep detectLanguage) files
                         {| ZipUtils.acc_totalLines := 0; ZipUtils.acc_totalChars := 0;
                            ZipUtils.acc_totalFiles := 0;
                            ZipUtils.languageStats := [] |})))).
  intros l. unfold ZipUtils.sortByLines.
  induction l as [|x l IH]; simpl; [constructor | apply insertByLines_sorted, IH].
Qed.

Lemma statsStep_sums st file :
  Spec.sumChars (List.map snd (ZipUtils.languageStats st)) = ZipUtils.acc_totalChars st
  /\ Spec.sumFiles (List.map snd (ZipUtils.languageStats st)) = ZipUtils.acc_totalFiles st ->
  let st' := ZipUtils.statsStep detectLanguage st file in
  Spec.sumChars (List.map snd (ZipUtils.languageStats st')) = ZipUtils.acc_totalChars st'
  /\ Spec.sumFiles (List.map snd (ZipUtils.languageStats st')) = ZipUtils.acc_totalFiles st'.
Proof.
  intros [Hc Hf]. cbv zeta. unfold ZipUtils.statsStep.
  destruct (isDirectory file); [auto|].
  cbn [ZipUtils.languageStats ZipUtils.acc_totalChars ZipUtils.acc_totalFiles].
  unfold Spec.sumChars, Spec.sumFiles in *. rewrite sum_map_snd in Hc, Hf.
  destruct (JS.mget (detectLanguage (path file)) (ZipUtils.languageStats st)) eqn:E;
    rewrite !sum_map_snd, !mget_mset_sum, E, Hc, Hf;
    cbn [LanguageFileStats.charCount LanguageFileStats.fileCount]; lia.
Qed.

Lemma fold_statsStep_sums files st :
  Spec.sumChars (List.map snd (ZipUtils.languageStats st)) = ZipUtils.acc_totalChars st
  /\ Spec.sumFiles (List.map snd (ZipUtils.languageStats st)) = ZipUtils.acc_totalFiles st ->
  let st' := fold_left (ZipUtils.statsStep detectLanguage) files st in
  Spec.sumChars (List.map snd (ZipUtils.languageStats st')) = ZipUtils.acc_totalChars st'
  /\ Spec.sumFiles (List.map snd (ZipUtils.languageStats st')) = ZipUtils.acc_totalFiles st'.
Proof.
  revert st. induction files as [|f files IH]; intros st Hinv; simpl; [exact Hinv|].
  apply IH, statsStep_sums, Hinv.
Qed.

(** X17.  The figures of the languages add up to the totals: the line
    counts to [totalLines], the character counts to [totalChars] and the file
    counts to [totalFiles]. *)
Theorem language_figures_add_up now files :
  let rs := ZipUtils.calculateRepositoryStats detectLanguage now files in
  Spec.sumLines (languages rs) = totalLines rs
  /\ Spec.sumChars (languages rs) = totalChars rs
  /\ Spec.sumFiles (languages rs) = totalFiles rs.
Proof.
  intros rs. subst rs. unfold ZipUtils.calculateRepositoryStats.
  cbn [languages totalLines totalChars totalFiles].
  set (st := fold_left _ files _).
  unfold Spec.sumLines, Spec.sumChars, Spec.sumFiles.
  rewrite !sum_languages by reflexivity.
  split; [apply (fold_statsStep_lines detectLanguage); reflexivity|].
  apply (fold_statsStep_sums files). split; reflexivity.
Qed.

End StatsMore.

(** ** The extraction loop *)

Section ExtractLoop.

Lemma extract_fold entries : forall files,
  let res := fold_left ZipExtract.extractStep entries files in
  List.map path res
  = (List.map path files
       ++ List.map ZipExtract.entryPath
            (List.filter
               (fun e => negb (ZipExtract.dir e)
                         && bool_decide (is_Some (ZipExtract.asyncString e)))
               entries))%list
  /\ List.map content res
     = (List.map content files
          ++ omap (fun e => if ZipExtract.dir e then None else ZipExtract.asyncString e)
               entries)%list
  /\ forall P : FileEntry -> Prop,
       (forall p n c,
          P {| path := p; name := n; content := c; originalContent := Some c;
               isDirectory := false;
               lineCount := Some (N.of_nat (List.length (JS.split Json.nl c))) |}) ->
       List.Forall P files -> List.Forall P res.
Proof.
  induction entries as [|e entries IH]; intros files; cbv zeta.
  - simpl. rewrite !List.app_nil_r. auto.
  - cbn [fold_left List.filter omap list_omap]. unfold ZipExtract.extractStep at 2 4 6.
    destruct (ZipExtract.dir e); cbn [negb andb]; [apply IH|].
    destruct (ZipExtract.asyncString e) as [c|]; [|apply IH].
    destruct (IH (files ++ [{| path := ZipExtract.entryPath e;
                               name :=
                                 match JS.pop (JS.split "/" (ZipExtract.entryPath e)) with
                                 | Some (String a s) => String a s
                                 | Some EmptyString | None => ZipExtract.entryPath e
                                 end;
                               content := c;
                               originalContent := Some c;
                               isDirectory := false;
                               lineCount :=
                                 Some (N.of_nat (List.length (JS.split Json.nl c))) |}])%list)
      as (Hp & Hc & HP).
    cbv zeta in *. rewrite Hp, Hc, !List.map_app, <- !List.app_assoc.
    rewrite bool_decide_true by (eexists; reflexivity).
    split; [reflexivity|]. split; [reflexivity|].
    intros P Hbuild Hfiles. apply (HP P Hbuild).
    apply List.Forall_app. split; [exact Hfiles|]. constructor; [apply Hbuild | constructor].
Qed.

End ExtractLoop.

Section ExtractFacts.

Variable detectLanguage : string -> string.

(** X18.  The extraction keeps the entries that are not directories and can
    be read, in the order of the entries, under their entry path and with
    the text that was read; each file it builds is not a directory, holds
    its content also as the original content, and counts one line more than
    its content has newlines. *)
Theorem extracted_files_shape now entries :
  let files := fst (ZipExtract.extractLoadedZip detectLanguage now entries) in
  List.map path files
  = List.map ZipExtract.entryPath
      (List.filter
         (fun e => negb (ZipExtract.dir e) && bool_decide (is_Some (ZipExtract.asyncString e)))
         entries)
  /\ List.map content files
     = omap (fun e => if ZipExtract.dir e then None else ZipExtract.asyncString e) entries
  /\ List.Forall
       (fun f =>
          isDirectory f = false
          /\ originalContent f = Some (content f)
          /\ lineCount f = Some (N.of_nat (S (Spec.countUnit Json.nl (content f)))))
       files.
Proof.
  intros files. subst files. unfold ZipExtract.extractLoadedZip. cbn [fst].
  destruct (extract_fold entries []) as (Hp & Hc & HP). cbv zeta in *.
  split; [exact Hp|]. split; [exact Hc|].
  apply HP; [|constructor].
  intros p n c. cbn [isDirectory originalContent content lineCount].
  rewrite split_length. auto.
Qed.

(** X19.  The statistics of an extraction: every extracted file is
    counted, every file counts one line and one more for each newline of its
    content, so there are at least as many lines as files, and the characters
    are those of the contents. *)
Theorem extraction_statistics now entries :
  let files := fst (ZipExtract.extractLoadedZip detectLanguage now entries) in
  let rs := snd (ZipExtract.extractLoadedZip detectLanguage now entries) in
  totalFiles rs = Z.of_nat (List.length files)
  /\ totalLines rs
     = totalFiles rs
       + Spec.sumOver (fun f => Z.of_nat (Spec.countUnit Json.nl (content f))) files
  /\ totalFiles rs <= totalLines rs
  /\ totalChars rs = Spec.sumOver Spec.chars files.
Proof.
  intros files rs. subst files rs. unfold ZipExtract.extractLoadedZip. cbn [fst snd].
  destruct (extract_fold entries []) as (_ & _ & HP). cbv zeta in HP.
  set (files := fold_left ZipExtract.extractStep entries []) in *.
  assert (Hshape : List.Forall
                     (fun f => isDirectory f = false
                               /\ Spec.lines f
                                  = 1 + Z.of_nat (Spec.countUnit Json.nl (content f)))
                     files).
  { apply HP; [|constructor]. intros p n c. split; [reflexivity|].
    unfold Spec.lines. cbn [lineCount content default from_option id].
    rewrite split_length. lia. }
  destruct (calculate_inv detectLanguage files) as (Hl & Hc & Hf & _).
  unfold ZipUtils.calculateRepositoryStats. cbn [totalLines totalChars totalFiles].
  rewrite Hl, Hc, Hf. clear Hl Hc Hf HP.
  assert (Hnd : Spec.nonDirectories files = files).
  { unfold Spec.nonDirectories. induction Hshape as [|f l [Hd _] _ IH]; [reflexivity|].
    simpl. rewrite Hd. simpl. rewrite IH. reflexivity. }
  rewrite Hnd. clear Hnd.
  assert (Hsum : Spec.sumOver Spec.lines files
                 = Z.of_nat (List.length files)
                   + Spec.sumOver (fun f => Z.of_nat (Spec.countUnit Json.nl (content f)))
                       files).
  { unfold Spec.sumOver. induction Hshape as [|f l [_ Hf] _ IH]; [reflexivity|].
    cbn [fold_right List.length]. rewrite IH, Hf, Nat2Z.inj_succ. lia. }
  assert (Hnn : 0 <= Spec.sumOver (fun f => Z.of_nat (Spec.countUnit Json.nl (content f)))
                       files).
  { unfold Spec.sumOver. clear. induction files as [|f l IH]; simpl; lia. }
  repeat split; lia.
Qed.

End ExtractFacts.

(** ** Error display and file names *)

Section ErrorFacts.

(** X20.  What is shown for an error is never blank: the title and the
    suggestion have at least one unit, the message is the one of the error,
    and the suggestion is the recovery hint when that is a text with at least
    one unit and else depends on the code alone. *)
Theorem error_display_never_blank (error : ErrorUtils.ProcessingError) :
  let d := ErrorUtils.formatErrorForDisplay error in
  ErrorUtils.title d <> EmptyString
  /\ ErrorUtils.suggestion d <> EmptyString
  /\ ErrorUtils.display_message d = ErrorUtils.message error
  /\ (forall hint,
        ErrorUtils.recoveryHint error = Some hint -> hint <> EmptyString ->
        ErrorUtils.suggestion d = hint)
  /\ (ErrorUtils.recoveryHint error = None
      \/ ErrorUtils.recoveryHint error = Some EmptyString ->
      forall error',
        ErrorUtils.code error' = ErrorUtils.code error ->
        ErrorUtils.recoveryHint error' = None ->
        ErrorUtils.suggestion d
        = ErrorUtils.suggestion (ErrorUtils.formatErrorForDisplay error')).
Proof.
  destruct error as [code message hint context original]. cbv zeta.
  unfold ErrorUtils.formatErrorForDisplay, ErrorUtils.getRecoverySuggestion.
  cbn [ErrorUtils.title ErrorUtils.suggestion ErrorUtils.display_message ErrorUtils.message
       ErrorUtils.code ErrorUtils.recoveryHint].
  split; [destruct code; discriminate|].
  split; [destruct hint as [[|c s]|]; try discriminate; destruct code; discriminate|].
  split; [reflexivity|]. split.
  - intros h [= ->] Hne. destruct h; [congruence | reflexivity].
  - intros Hhint [code' message' hint' context' original'].
    cbn [ErrorUtils.code ErrorUtils.recoveryHint]. intros -> ->.
    destruct Hhint as [-> | ->]; reflexivity.
Qed.

End ErrorFacts.

Section FilenameFacts.

Lemma allUnits_app p a b :
  Spec.allUnits p (a ++ b) = Spec.allUnits p a && Spec.allUnits p b.
Proof.
  induction a as [|c a IH]; [reflexivity|].
  change (String c a ++ b) with (String c (a ++ b)). cbn [Spec.allUnits].
  rewrite IH, andb_assoc. reflexivity.
Qed.

Lemma allUnits_impl (p q : ascii -> bool) s :
  (forall c, p c = true -> q c = true) ->
  Spec.allUnits p s = true -> Spec.allUnits q s = true.
Proof.
  intros Hpq. induction s as [|c s IH]; [reflexivity|]. cbn [Spec.allUnits].
  rewrite !andb_true_iff. intros [Hc Hs]. auto.
Qed.

Lemma allUnits_occurs p c s :
  Spec.allUnits p s = true -> p c = false -> Spec.occurs c s = false.
Proof.
  intros Hall Hc. induction s as [|d s IH]; [reflexivity|].
  cbn [Spec.allUnits Spec.occurs] in *. apply andb_true_iff in Hall. destruct Hall as [Hd Hs].
  destruct (Ascii.eqb_spec d c) as [-> | _]; [congruence | auto].
Qed.

Lemma replaceOtherUnits_units s :
  Spec.allUnits DownloadUtils.isNameUnit (DownloadUtils.replaceOtherUnits s) = true.
Proof.
  induction s as [|c s IH]; [reflexivity|]. cbn [DownloadUtils.replaceOtherUnits Spec.allUnits].
  rewrite IH, andb_true_r. destruct (DownloadUtils.isNameUnit c) eqn:E; [exact E | reflexivity].
Qed.

Lemma trimLeadingDashes_units p s :
  Spec.allUnits p s = true -> Spec.allUnits p (DownloadUtils.trimLeadingDashes s) = true.
Proof.
  induction s as [|c s IH]; [reflexivity|]. cbn [DownloadUtils.trimLeadingDashes].
  destruct (Ascii.eqb c "-"); [|auto]. cbn [Spec.allUnits]. rewrite andb_true_iff.
  intros [_ Hs]. auto.
Qed.

Lemma trimTrailingDashes_units p s :
  Spec.allUnits p s = true -> Spec.allUnits p (DownloadUtils.trimTrailingDashes s) = true.
Proof.
  induction s as [|c s IH]; [reflexivity|]. cbn [DownloadUtils.trimTrailingDashes Spec.allUnits].
  rewrite andb_true_iff. intros [Hc Hs]. specialize (IH Hs).
  destruct (DownloadUtils.trimTrailingDashes s) as [|d r].
  - destruct (Ascii.eqb c "-"); [reflexivity|]. cbn [Spec.allUnits]. rewrite Hc. reflexivity.
  - cbn [Spec.allUnits] in *. rewrite Hc. exact IH.
Qed.

Lemma toLowerUnit_name c :
  DownloadUtils.isNameUnit c = true -> Spec.isLowerNameUnit (JS.toLowerUnit c) = true.
Proof.
  destruct c as [[] [] [] [] [] [] [] []]; vm_compute; congruence.
Qed.

Lemma toLowerCase_units s :
  Spec.allUnits DownloadUtils.isNameUnit s = true ->
  Spec.allUnits Spec.isLowerNameUnit (JS.toLowerCase s) = true.
Proof.
  induction s as [|c s IH]; [reflexivity|]. cbn [JS.toLowerCase Spec.allUnits].
  rewrite !andb_true_iff. intros [Hc Hs]. split; [apply toLowerUnit_name, Hc | auto].
Qed.

Lemma collapseDashes_units p s :
  Spec.allUnits p s = true -> Spec.allUnits p (DownloadUtils.collapseDashes s) = true.
Proof.
  induction s as [|c s IH]; [reflexivity|]. cbn [DownloadUtils.collapseDashes Spec.allUnits].
  rewrite andb_true_iff. intros [Hc Hs].
  destruct (Ascii.eqb c "-" && DownloadUtils.startsWithDash s); [auto|].
  cbn [Spec.allUnits]. rewrite Hc. auto.
Qed.

Lemma collapseDashes_head s :
  DownloadUtils.startsWithDash (DownloadUtils.collapseDashes s) = DownloadUtils.startsWithDash s.
Proof.
  induction s as [|c s IH]; [reflexivity|]. cbn [DownloadUtils.collapseDashes].
  destruct (Ascii.eqb c "-") eqn:E; cbn [andb].
  - destruct (DownloadUtils.startsWithDash s) eqn:Es.
    + rewrite IH. cbn [DownloadUtils.startsWithDash]. rewrite E. reflexivity.
    + reflexivity.
  - reflexivity.
Qed.

Lemma hasDoubleDash_cons c s :
  Spec.hasDoubleDash (String c s)
  = (Ascii.eqb c "-" && DownloadUtils.startsWithDash s) || Spec.hasDoubleDash s.
Proof. destruct s; reflexivity. Qed.

Lemma collapseDashes_no_run s : Spec.hasDoubleDash (DownloadUtils.collapseDashes s) = false.
Proof.
  induction s as [|c s IH]; [reflexivity|]. cbn [DownloadUtils.collapseDashes].
  destruct (Ascii.eqb c "-" && DownloadUtils.startsWithDash s) eqn:E; [exact IH|].
  rewrite hasDoubleDash_cons, collapseDashes_head, E, IH. reflexivity.
Qed.

(** X21.  A file name without time stamp has no two dashes in a row, and each
    of its units is a small letter, a digit, a dash, an underscore, or a unit
    of the type. *)
Theorem download_filename_clean today repoName type :
  let fn := DownloadUtils.generateDownloadFilename today repoName type (Some false) in
  Spec.hasDoubleDash fn = false
  /\ Spec.allUnits (fun c => Spec.isLowerNameUnit c || Spec.occurs c type) fn = true.
Proof.
  cbv zeta. unfold DownloadUtils.generateDownloadFilename.
  cbn [default from_option id]. split; [apply collapseDashes_no_run|].
  apply collapseDashes_units. rewrite !allUnits_app, !andb_true_iff. split; [|split].
  - apply (allUnits_impl Spec.isLowerNameUnit); [intros c ->; reflexivity|].
    apply toLowerCase_units. unfold DownloadUtils.trimDashes.
    apply trimTrailingDashes_units, trimLeadingDashes_units, replaceOtherUnits_units.
  - reflexivity.
  - clear. assert (H : forall s t : string,
               (forall c, Spec.occurs c s = true -> Spec.occurs c t = true) ->
               Spec.allUnits (fun c => Spec.isLowerNameUnit c || Spec.occurs c t) s = true).
    { induction s as [|c s IH]; intros t Hsub; [reflexivity|]. cbn [Spec.allUnits].
      rewrite (Hsub c) by (simpl; rewrite Ascii.eqb_refl; reflexivity).
      rewrite orb_true_r. apply IH. intros d Hd. apply Hsub. simpl.
      destruct (Ascii.eqb c d); [reflexivity | exact Hd]. }
    apply H. auto.
Qed.

(** X22.  The JSONL text is filed at the top of the combined archive
    whatever the repository name: the name of its entry has no slash, and it
    is not the name of the README entry. *)
Theorem jsonl_entry_at_top repoName :
  Spec.occurs "/" (CombinedDownloadUtils.jsonlFilename repoName) = false
  /\ CombinedDownloadUtils.jsonlFilename repoName <> "README.txt".
Proof.
  unfold CombinedDownloadUtils.jsonlFilename. split.
  - rewrite occurs_app, orb_false_iff. split; [|reflexivity].
    apply (allUnits_occurs DownloadUtils.isNameUnit); [apply replaceOtherUnits_units|].
    reflexivity.
  - intros E. apply (f_equal (Spec.occurs "-")) in E. rewrite occurs_app in E.
    change (Spec.occurs "-" "-encoded.jsonl") with true in E. rewrite orb_true_r in E.
    discriminate E.
Qed.

End FilenameFacts.

(** ** The download: merge, filter, sample, encode *)

Section MergeFacts.

Lemma edit_unchanged modifiedFiles file :
  Spec.editedContent modifiedFiles file = content file -> Spec.edit modifiedFiles file = file.
Proof. unfold Spec.edit. intros ->. destruct file; reflexivity. Qed.

Lemma edit_none file : Spec.edit None file = file.
Proof. apply edit_unchanged. reflexivity. Qed.

Lemma merge_map files modifiedFiles :
  CombinedDownload.mergeModified files modifiedFiles
  = List.map (Spec.edit modifiedFiles) files.
Proof.
  unfold CombinedDownload.mergeModified.
  destruct modifiedFiles as [modified|].
  - destruct (Nat.ltb_spec 0 (size modified)) as [Hpos | Hzero].
    + apply List.map_ext. intros file.
      destruct (modified !! path file) as [s|] eqn:E.
      * rewrite bool_decide_true by (eexists; reflexivity).
        unfold Spec.edit, Spec.editedContent. rewrite E. reflexivity.
      * rewrite bool_decide_false by (intros [x Hx]; discriminate Hx).
        symmetry. apply edit_unchanged. unfold Spec.editedContent. rewrite E. reflexivity.
    + assert (modified = ∅) as -> by (apply map_size_empty_iff; lia).
      rewrite <- (List.map_id files) at 1. apply List.map_ext. intros file.
      symmetry. apply edit_unchanged. unfold Spec.editedContent.
      rewrite lookup_empty. reflexivity.
  - rewrite <- (List.map_id files) at 1. apply List.map_ext. intros file.
    symmetry. apply edit_unchanged. reflexivity.
Qed.

(** X23.  Merging the edits changes the content of the files and nothing
    else: a file whose path has an edit of at least one unit gets that edit
    as content, every other file keeps its content (also a file whose edit is
    the empty text), and path, name, original content, directory flag and line
    count stay as they were. *)
Theorem mergeModified_pointwise files modifiedFiles :
  let merged := CombinedDownload.mergeModified files modifiedFiles in
  List.map content merged = List.map (Spec.editedContent modifiedFiles) files
  /\ List.map path merged = List.map path files
  /\ List.map name merged = List.map name files
  /\ List.map originalContent merged = List.map originalContent files
  /\ List.map isDirectory merged = List.map isDirectory files
  /\ List.map lineCount merged = List.map lineCount files.
Proof.
  cbv zeta. rewrite merge_map, !List.map_map. repeat split.
Qed.

Lemma filterCodeFiles_blocked (l : list FileEntry) :
  FileFilter.filterCodeFiles path l
  = List.filter (fun f => negb (Spec.blocked (path f))) l.
Proof.
  unfold FileFilter.filterCodeFiles, Spec.blocked. apply List.filter_ext. intros f.
  destruct (FileFilter.shouldExcludePath (path f)); reflexivity.
Qed.

Lemma in_merged files modifiedFiles g :
  In g (Spec.nonDirectories (CombinedDownload.mergeModified files modifiedFiles))
  <-> exists f, In f files /\ isDirectory f = false /\ g = Spec.edit modifiedFiles f.
Proof.
  rewrite merge_map. unfold Spec.nonDirectories. rewrite List.filter_In, List.in_map_iff.
  split.
  - intros [[f [<- Hf]] Hd]. exists f. cbn [Spec.edit isDirectory] in Hd.
    rewrite negb_true_iff in Hd. auto.
  - intros [f [Hf [Hd ->]]]. split; [exists f; auto|]. cbn [Spec.edit isDirectory].
    rewrite Hd. reflexivity.
Qed.

End MergeFacts.

Section DownloadFacts.

Variable detectLanguage : string -> string.
Variable PRIORITY_LANGUAGES : list string.

(** X24.  The download stops with the message about code files exactly when
    every file of the archive is a directory or is excluded by the blocklist;
    whether a file is a code file plays no part, so an archive with one
    file that passes the blocklist goes on to the encoding. *)
Theorem downloadAll_throws_iff files repoName modifiedFiles :
  let result :=
    CombinedDownload.downloadAll detectLanguage PRIORITY_LANGUAGES files repoName
      modifiedFiles in
  (result = CombinedDownload.Thrown "No code files found in the uploaded archive"
   <-> forall f, In f files -> isDirectory f = true \/ Spec.blocked (path f) = true)
  /\ ((exists samples encodingResult,
         result = CombinedDownload.Encoded samples encodingResult)
      <-> exists f, In f files /\ isDirectory f = false /\ Spec.blocked (path f) = false).
Proof.
  cbv zeta. unfold CombinedDownload.downloadAll.
  fold (Spec.nonDirectories (CombinedDownload.mergeModified files modifiedFiles)).
  rewrite filterCodeFiles_blocked.
  set (archive := Spec.nonDirectories _).
  assert (Hall : List.filter (fun f => negb (Spec.blocked (path f))) archive = []
                 <-> forall f, In f files -> isDirectory f = true \/ Spec.blocked (path f) = true).
  { rewrite filter_nil_iff. split.
    - intros H f Hf. destruct (isDirectory f) eqn:Hd; [auto|]. right.
      specialize (H (Spec.edit modifiedFiles f)).
      cbn [Spec.edit path] in H. rewrite negb_false_iff in H. apply H.
      apply in_merged. exists f. auto.
    - intros H g Hg. apply in_merged in Hg. destruct Hg as [f [Hf [Hd ->]]].
      cbn [Spec.edit path]. rewrite negb_false_iff.
      destruct (H f Hf); [congruence | assumption]. }
  destruct (Nat.eqb_spec (List.length (List.filter (fun f => negb (Spec.blocked (path f)))
                                         archive)) 0) as [Hz | Hnz].
  - apply List.length_zero_iff_nil in Hz. split.
    + split; [intros _; apply Hall, Hz | reflexivity].
    + split; [intros (s & r & H); discriminate H|].
      intros (f & Hf & Hd & Hb). destruct (proj1 Hall Hz f Hf); congruence.
  - assert (Hne : List.filter (fun f => negb (Spec.blocked (path f))) archive <> []).
    { intros E. rewrite E in Hnz. apply Hnz. reflexivity. }
    split.
    + split; [discriminate|]. intros H. exfalso. apply Hne, Hall, H.
    + split; [|intros _; eexists; eexists; reflexivity].
      intros _. rewrite Hall in Hne.
      destruct (List.Exists_dec
                  (fun f => isDirectory f = false /\ Spec.blocked (path f) = false) files)
        as [Hex | Hnex].
      * intros f. destruct (isDirectory f), (Spec.blocked (path f)); intuition congruence.
      * apply List.Exists_exists in Hex. destruct Hex as [f [Hf [Hd Hb]]]. exists f. auto.
      * exfalso. apply Hne. intros f Hf.
        destruct (isDirectory f) eqn:Hd; [auto|]. destruct (Spec.blocked (path f)) eqn:Hb; [auto|].
        exfalso. apply Hnex, List.Exists_exists. exists f. auto.
Qed.

Lemma samples_are_code_files fs options f :
  In f (Sampling.samples (Sampling.sampleCodeFiles detectLanguage fs options)) ->
  In f (Spec.codeFilesOf fs).
Proof.
  unfold Sampling.sampleCodeFiles. fold (Spec.codeFilesOf fs).
  destruct (_ <=? _); cbn [Sampling.samples]; [auto|]. apply sampleOverBudget_subset.
Qed.

(** X25.  What the download encodes: every encoded file is a file of the
    archive after the merge, is no directory, passes the blocklist and is a
    code file; the JSONL text has one record for each of them, under the
    repository name, or under 'repository' when the name is empty; and when
    no path occurs twice in the archive, none does among the encoded files,
    of which there are at most 5000. *)
Theorem downloadAll_encodes_code_files files repoName modifiedFiles samples encodingResult :
  CombinedDownload.downloadAll detectLanguage PRIORITY_LANGUAGES files repoName modifiedFiles
  = CombinedDownload.Encoded samples encodingResult ->
  (forall f, In f samples ->
     In f (CombinedDownload.mergeModified files modifiedFiles)
     /\ isDirectory f = false
     /\ Spec.blocked (path f) = false
     /\ FileFilter.isCodeFile (path f) = true)
  /\ jsonlContent encodingResult
     = JS.join Spec.newline
         (List.map
            (fun f =>
               Spec.recordLine
                 (if String.eqb repoName EmptyString then "repository" else repoName)
                 (path f) (content f))
            samples)
  /\ (NoDup (List.map path files) ->
      NoDup (List.map path samples) /\ Z.of_nat (List.length samples) <= 5000).
Proof.
  unfold CombinedDownload.downloadAll.
  fold (Spec.nonDirectories (CombinedDownload.mergeModified files modifiedFiles)).
  rewrite filterCodeFiles_blocked.
  set (archive := Spec.nonDirectories _).
  set (codeFiles := List.filter _ archive).
  destruct (_ =? _)%nat; [discriminate|]. intros [= <- <-].
  set (options := {| Sampling.maxFiles := Some 5000; Sampling.maxPerLanguage := None;
                     Sampling.prioritizeDiversity := Some true;
                     Sampling.priorityLanguages := Some PRIORITY_LANGUAGES |}).
  assert (Hsample : forall f,
            In f (Sampling.samples (Sampling.sampleCodeFiles detectLanguage codeFiles options)) ->
            In f (CombinedDownload.mergeModified files modifiedFiles)
            /\ isDirectory f = false
            /\ Spec.blocked (path f) = false
            /\ FileFilter.isCodeFile (path f) = true).
  { intros f Hf. apply samples_are_code_files in Hf.
    unfold Spec.codeFilesOf in Hf. apply List.filter_In in Hf. destruct Hf as [Hf Hc].
    apply andb_true_iff in Hc. destruct Hc as [Hd Hc]. rewrite negb_true_iff in Hd.
    subst codeFiles. apply List.filter_In in Hf. destruct Hf as [Hf Hb].
    rewrite negb_true_iff in Hb. subst archive. unfold Spec.nonDirectories in Hf.
    apply List.filter_In in Hf. tauto. }
  split; [exact Hsample|]. split.
  - rewrite jsonlContent_join, nonDirectories_all by (intros f Hf; apply Hsample, Hf).
    unfold Encoding.effectiveRepoName.
    destruct repoName; reflexivity.
  - intros Hnd.
    assert (Hndc : NoDup (List.map path codeFiles)).
    { subst codeFiles archive. apply NoDup_map_filter. unfold Spec.nonDirectories.
      apply NoDup_map_filter. rewrite merge_map, List.map_map. exact Hnd. }
    pose proof (NoDup_map_filter path
                  (fun f => negb (isDirectory f) && FileFilter.isCodeFile (path f))
                  codeFiles Hndc) as Hndcc.
    unfold Sampling.sampleCodeFiles. fold (Spec.codeFilesOf codeFiles) in *.
    cbn [options Sampling.maxFiles Sampling.maxPerLanguage Sampling.prioritizeDiversity
         Sampling.priorityLanguages default from_option id].
    destruct (Z.leb_spec (Z.of_nat (List.length (Spec.codeFilesOf codeFiles))) 5000)
      as [Hle | Hgt]; cbn [Sampling.samples]; [auto|].
    pose proof (sampleOverBudget_inv detectLanguage 5000 100 true PRIORITY_LANGUAGES
                  (Spec.codeFilesOf codeFiles) ltac:(lia) Hndcc) as (_ & Hnd' & Hlen).
    auto.
Qed.

(** X26.  An archive whose files pass the blocklist but are not code files
    is not refused: the download goes on with no sample, the JSONL text is
    empty, and every file of the archive is listed as excluded. *)
Theorem downloadAll_without_code_files files repoName modifiedFiles :
  (exists f, In f files /\ isDirectory f = false /\ Spec.blocked (path f) = false) ->
  (forall f, In f files -> FileFilter.isCodeFile (path f) = false) ->
  exists encodingResult,
    CombinedDownload.downloadAll detectLanguage PRIORITY_LANGUAGES files repoName modifiedFiles
    = CombinedDownload.Encoded [] encodingResult
    /\ jsonlContent encodingResult = EmptyString
    /\ excludedFiles encodingResult = List.map path (Spec.nonDirectories files)
    /\ EncodingStats.includedFiles (stats encodingResult) = 0.
Proof.
  intros (f0 & Hf0 & Hd0 & Hb0) Hnone.
  unfold CombinedDownload.downloadAll.
  fold (Spec.nonDirectories (CombinedDownload.mergeModified files modifiedFiles)).
  rewrite filterCodeFiles_blocked.
  set (archive := Spec.nonDirectories _).
  set (codeFiles := List.filter _ archive).
  assert (Hin0 : In (Spec.edit modifiedFiles f0) codeFiles).
  { subst codeFiles. apply List.filter_In. split.
    - subst archive. apply in_merged. exists f0. auto.
    - cbn [Spec.edit path]. rewrite Hb0. reflexivity. }
  destruct (Nat.eqb_spec (List.length codeFiles) 0) as [Hz | _].
  { apply List.length_zero_iff_nil in Hz. rewrite Hz in Hin0. destruct Hin0. }
  assert (Hcode : Spec.codeFilesOf codeFiles = []).
  { apply filter_none. intros g Hg. subst codeFiles. apply List.filter_In in Hg.
    destruct Hg as [Hg _]. subst archive. apply in_merged in Hg.
    destruct Hg as [f [Hf [Hd ->]]]. cbn [Spec.edit path isDirectory].
    rewrite (Hnone f Hf). apply andb_false_r. }
  assert (Hsamples :
            Sampling.samples
              (Sampling.sampleCodeFiles detectLanguage codeFiles
                 {| Sampling.maxFiles := Some 5000; Sampling.maxPerLanguage := None;
                    Sampling.prioritizeDiversity := Some true;
                    Sampling.priorityLanguages := Some PRIORITY_LANGUAGES |}) = []).
  { unfold Sampling.sampleCodeFiles. fold (Spec.codeFilesOf codeFiles). rewrite Hcode.
    reflexivity. }
  rewrite Hsamples. eexists. split; [reflexivity|].
  unfold Encoding.encodeFilesWithStats.
  cbn [jsonlContent excludedFiles stats EncodingStats.includedFiles List.filter fold_left
       Encoding.lines JS.join List.length List.map].
  split; [reflexivity|]. split; [|reflexivity].
  fold (Spec.nonDirectories archive).
  rewrite log_paths. cbn [Encoding.acc_excludedFiles List.app].
  rewrite (List.filter_ext _ (fun _ => true)).
  2:{ intros g. unfold JS.has. rewrite bool_decide_false; [reflexivity | set_solver]. }
  assert (Hall : forall l : list FileEntry, List.filter (fun _ => true) l = l).
  { induction l as [|x l IH]; simpl; [reflexivity | rewrite IH; reflexivity]. }
  rewrite Hall. subst archive. unfold Spec.nonDirectories.
  rewrite filter_filter_andb, merge_map.
  clear. induction files as [|f files IH]; [reflexivity|].
  cbn [List.map List.filter Spec.edit isDirectory].
  destruct (isDirectory f); cbn [negb andb List.map Spec.edit path]; rewrite IH; reflexivity.
Qed.

End DownloadFacts.

Lemma downloadAll_encodes_code_files_witness :
  exists samples encodingResult,
    CombinedDownload.downloadAll LanguageUtils.detectLanguage ["Python"] Samples.smallRepo
      "demo" None
    = CombinedDownload.Encoded samples encodingResult
    /\ jsonlContent encodingResult
       = JS.join Spec.newline
           (List.map (fun f => Spec.recordLine "demo" (path f) (content f)) samples)
    /\ NoDup (List.map path samples)
    /\ Z.of_nat (List.length samples) <= 5000.
Proof.
  eexists. eexists.
  assert (H : CombinedDownload.downloadAll LanguageUtils.detectLanguage ["Python"]
                Samples.smallRepo "demo" None
              = CombinedDownload.Encoded
                  (Sampling.samples
                     (Sampling.sampleCodeFiles LanguageUtils.detectLanguage
                        [Samples.file "a.py" "print(1)"; Samples.file "b/c.ts" "let c"]
                        {| Sampling.maxFiles := Some 5000; Sampling.maxPerLanguage := None;
                           Sampling.prioritizeDiversity := Some true;
                           Sampling.priorityLanguages := Some ["Python"] |}))
                  (Encoding.encodeFilesWithStats LanguageUtils.detectLanguage
                     (Sampling.samples
                        (Sampling.sampleCodeFiles LanguageUtils.detectLanguage
                           [Samples.file "a.py" "print(1)"; Samples.file "b/c.ts" "let c"]
                           {| Sampling.maxFiles := Some 5000; Sampling.maxPerLanguage := None;
                              Sampling.prioritizeDiversity := Some true;
                              Sampling.priorityLanguages := Some ["Python"] |}))
                     Samples.smallRepo (Samples.named "demo"))).
  { vm_compute. reflexivity. }
  split; [exact H|].
  destruct (downloadAll_encodes_code_files LanguageUtils.detectLanguage ["Python"]
              Samples.smallRepo "demo" None _ _ H) as (_ & Hjson & Hnd).
  split; [exact Hjson|]. apply Hnd.
  apply (bool_decide_unpack _). vm_compute. exact I.
Defined.

Lemma downloadAll_without_code_files_witness :
  exists encodingResult,
    CombinedDownload.downloadAll LanguageUtils.detectLanguage ["Python"]
      [Samples.file "README.md" "hello"] "demo" None
    = CombinedDownload.Encoded [] encodingResult
    /\ jsonlContent encodingResult = EmptyString
    /\ excludedFiles encodingResult
       = List.map path (Spec.nonDirectories [Samples.file "README.md" "hello"])
    /\ EncodingStats.includedFiles (stats encodingResult) = 0.
Proof.
  apply (downloadAll_without_code_files LanguageUtils.detectLanguage ["Python"]
           [Samples.file "README.md" "hello"] "demo" None).
  - exists (Samples.file "README.md" "hello"). split; [left; reflexivity|].
    split; vm_compute; reflexivity.
  - intros f [<- | []]. vm_compute. reflexivity.
Defined.


(** ** The editor: deletions, edits and line differences *)

Section EditorFacts.

Lemma filesWithModifications_map files deletedFiles modifiedFiles :
  EditorView.filesWithModifications files deletedFiles modifiedFiles
  = List.map (Spec.edit (Some modifiedFiles)) (List.filter (Spec.kept deletedFiles) files).
Proof.
  unfold EditorView.filesWithModifications, Spec.kept.
  apply List.map_ext. intros file.
  destruct (modifiedFiles !! path file) as [s|] eqn:E.
  - rewrite bool_decide_true by (eexists; reflexivity).
    unfold Spec.edit, Spec.editedContent. rewrite E. reflexivity.
  - rewrite bool_decide_false by (intros [x Hx]; discriminate Hx).
    symmetry. apply edit_unchanged. unfold Spec.editedContent. rewrite E. reflexivity.
Qed.

Lemma diff_fold deletedFiles modifiedFiles files : forall st,
  let st' := fold_left (EditorView.diffStep deletedFiles modifiedFiles) files st in
  fst st' - snd st'
  = fst st - snd st
    + Spec.sumOver (fun f => EditorSidebar.getLineDiff f (Some modifiedFiles))
        (List.filter (Spec.kept deletedFiles) (Spec.nonDirectories files)).
Proof.
  induction files as [|f files IH]; intros st; cbv zeta; [simpl; lia|].
  cbn [fold_left]. rewrite IH. unfold Spec.nonDirectories. cbn [List.filter].
  unfold EditorView.diffStep.
  destruct (isDirectory f); cbn [negb]; [reflexivity|]. cbn [List.filter].
  unfold Spec.kept at 2.
  destruct (JS.has (path f) deletedFiles); cbn [negb andb]; [reflexivity|].
  destruct (EditorView.underDeleted deletedFiles f); cbn [negb]; [reflexivity|].
  cbn [fst snd]. unfold Spec.sumOver. cbn [fold_right].
  unfold EditorSidebar.getLineDiff at 2.
  destruct (originalContent f) as [[|c s]|]; lia.
Qed.

Lemma getLineDiff_unedited file :
  originalContent file = Some (content file) -> EditorSidebar.getLineDiff file (Some ∅) = 0.
Proof.
  intros E. unfold EditorSidebar.getLineDiff. rewrite E, lookup_empty.
  destruct (content file); unfold EditorSidebar.linesOrZero; lia.
Qed.

(** X27.  The line difference the editor shows is the sum of the line
    differences of the files that are no directories and were not deleted;
    files as the extraction builds them, without an edit, give 0 whatever was
    deleted. *)
Theorem globalLineDiff_sum files deletedFiles modifiedFiles :
  EditorView.globalLineDiff files deletedFiles modifiedFiles
  = Spec.sumOver (fun f => EditorSidebar.getLineDiff f (Some modifiedFiles))
      (List.filter (Spec.kept deletedFiles) (Spec.nonDirectories files))
  /\ (List.Forall (fun f => originalContent f = Some (content f)) files ->
      EditorView.globalLineDiff files deletedFiles ∅ = 0).
Proof.
  unfold EditorView.globalLineDiff. cbv zeta. rewrite !diff_fold. cbn [fst snd].
  split; [lia|]. intros Hall. rewrite Z.sub_diag, Z.add_0_l.
  assert (Hsub : List.Forall (fun f => originalContent f = Some (content f))
                   (List.filter (Spec.kept deletedFiles) (Spec.nonDirectories files))).
  { apply List.Forall_forall. intros f Hf. apply List.filter_In in Hf. destruct Hf as [Hf _].
    apply List.filter_In in Hf. destruct Hf as [Hf _].
    exact (proj1 (List.Forall_forall _ _) Hall f Hf). }
  unfold Spec.sumOver. induction Hsub as [|f l Hf _ IH]; [reflexivity|].
  cbn [fold_right]. rewrite IH, (getLineDiff_unedited f Hf). reflexivity.
Qed.

(** X28.  The line difference of one file: 0 when the file has no original
    content or an empty one, whatever was typed; else the newlines of the
    current content less those of the original, the current content being the
    edit when that has at least one unit and the own content of the file
    otherwise; a file that is now empty counts no line at all. *)
Theorem getLineDiff_cases file modifiedFiles :
  let current := Spec.editedContent modifiedFiles file in
  let diff := EditorSidebar.getLineDiff file modifiedFiles in
  (originalContent file = None \/ originalContent file = Some EmptyString -> diff = 0)
  /\ (forall original,
        originalContent file = Some original -> original <> EmptyString ->
        (current <> EmptyString ->
         diff = Z.of_nat (Spec.countUnit Json.nl current)
                - Z.of_nat (Spec.countUnit Json.nl original))
        /\ (current = EmptyString ->
            diff = - (1 + Z.of_nat (Spec.countUnit Json.nl original)))).
Proof.
  cbv zeta. unfold EditorSidebar.getLineDiff.
  assert (Hcur : match
                   match modifiedFiles with
                   | Some modified => modified !! path file
                   | None => None
                   end
                 with
                 | Some (String c s) => String c s
                 | Some EmptyString | None => content file
                 end = Spec.editedContent modifiedFiles file).
  { unfold Spec.editedContent. destruct modifiedFiles as [m|]; reflexivity. }
  rewrite Hcur. set (current := Spec.editedContent modifiedFiles file).
  split.
  - intros [-> | ->]; lia.
  - intros original -> Hne. destruct original as [|c s]; [congruence|].
    rewrite split_length. split.
    + intros Hcne. destruct current as [|d t]; [congruence|].
      unfold EditorSidebar.linesOrZero. rewrite split_length. lia.
    + intros ->. unfold EditorSidebar.linesOrZero. lia.
Qed.

End EditorFacts.

Section HandleDownload.

Variable detectLanguage : string -> string.
Variable PRIORITY_LANGUAGES : list string.

(** X29.  What the editor hands to the download: the files that were not
    deleted and lie under no deleted directory, in their order and with the
    edits of the session; no deleted path is among them; and the download
    treats them as it treats the kept files with the edits passed along. *)
Theorem deleted_files_not_downloaded files repoName deletedFiles modifiedFiles :
  let handed := EditorView.filesWithModifications files deletedFiles modifiedFiles in
  List.map path handed = List.map path (List.filter (Spec.kept deletedFiles) files)
  /\ List.map content handed
     = List.map (Spec.editedContent (Some modifiedFiles))
         (List.filter (Spec.kept deletedFiles) files)
  /\ List.Forall
       (fun f =>
          (path f ∉ deletedFiles)
          /\ forall df, df ∈ deletedFiles -> JS.startsWith (df ++ "/") (path f) = false)
       handed
  /\ EditorView.handleDownload detectLanguage PRIORITY_LANGUAGES files repoName deletedFiles
       modifiedFiles
     = CombinedDownload.downloadAll detectLanguage PRIORITY_LANGUAGES
         (List.filter (Spec.kept deletedFiles) files) repoName (Some modifiedFiles).
Proof.
  cbv zeta. unfold EditorView.handleDownload. rewrite filesWithModifications_map.
  rewrite !List.map_map. split; [reflexivity|]. split; [reflexivity|]. split.
  - apply List.Forall_forall. intros g Hg. apply List.in_map_iff in Hg.
    destruct Hg as [f [<- Hf]]. apply List.filter_In in Hf. destruct Hf as [_ Hk].
    unfold Spec.kept in Hk. apply andb_true_iff in Hk. destruct Hk as [Hh Hu].
    rewrite negb_true_iff in Hh, Hu. cbn [Spec.edit path]. split.
    + intros Hin. apply has_spec in Hin. congruence.
    + intros df Hdf. unfold EditorView.underDeleted in Hu.
      destruct (JS.startsWith (df ++ "/") (path f)) eqn:E; [|reflexivity].
      assert (Hex : List.existsb (fun df => JS.startsWith (df ++ "/") (path f))
                      (elements deletedFiles) = true).
      { apply List.existsb_exists. exists df. split; [|exact E].
        apply list_elem_of_In, elem_of_elements, Hdf. }
      congruence.
  - unfold CombinedDownload.downloadAll. rewrite !merge_map, List.map_map.
    rewrite (List.map_ext (fun x => Spec.edit None (Spec.edit (Some modifiedFiles) x))
               (Spec.edit (Some modifiedFiles))) by (intros f; apply edit_none).
    reflexivity.
Qed.

End HandleDownload.
